(** * build_page.py: a static product-shortlist page builder

    A shallow embedding of [src/build_page.py] and the properties its
    specification states about it.

    Python values are modelled as follows.
    - A [str] is the list of its Unicode code points ([N]); literals are
      written [py "..."] and decoded from the UTF-8 bytes of the literal,
      as Python does for its source text.
    - A value read from JSON is a [json]; the dynamic operations the script
      applies to such values ([.get], [or], [.strip()], [str()], [isinstance],
      iteration) are total functions into an error monad [result], an
      exception being a [Raise].
    - What the script does to the outside world (network, file system) is an
      explicit trace of [event]s, the answers of the outside world coming
      from a [world] record.

    The first part of the file holds the definitions, the second part the
    lemmas and the theorems. *)

From Stdlib Require Import List NArith ZArith Bool Lia String Ascii.
From Stdlib Require Import DecimalString Zify.
Import ListNotations.

Set Warnings "-register-all".

Local Open Scope N_scope.
Local Open Scope list_scope.

(* ================================================================== *)
(** * Part 1: definitions *)
(* ================================================================== *)

(** ** Strings and bytes *)

(** A Python [str]: the list of its code points. *)
Definition str := list N.

(** A Python [bytes]: a list of numbers below 256. *)
Definition bytes := list N.

Definition str_eqb (a b : str) : bool :=
  if list_eq_dec N.eq_dec a b then true else false.

Definition is_empty {A} (l : list A) : bool :=
  match l with [] => true | _ => false end.

(** [x in l] for a list or a set of strings. *)
Definition mem (x : str) (l : list str) : bool := existsb (str_eqb x) l.

(** [c in s] for a one-character [c]. *)
Definition has_char (c : N) (s : str) : bool := existsb (N.eqb c) s.

Fixpoint starts_with (p s : str) : bool :=
  match p, s with
  | [], _ => true
  | a :: p', b :: s' => (a =? b) && starts_with p' s'
  | _ :: _, [] => false
  end.

(** [needle in s] for strings. *)
Fixpoint is_substring (needle s : str) : bool :=
  starts_with needle s ||
  match s with
  | [] => false
  | _ :: s' => is_substring needle s'
  end.

(** ** UTF-8, as [str.encode('utf-8')] (strict) and
    [bytes.decode('utf-8', 'replace')] do it *)

Module Utf8.

Definition REPLACEMENT : N := 65533.

Definition is_surrogate (c : N) : bool := (55296 <=? c) && (c <=? 57343).

(** The bytes of one code point; [None] where the strict encoder raises
    [UnicodeEncodeError] (a lone surrogate; numbers that are no code point
    are refused as well). *)
Definition encode_char (c : N) : option bytes :=
  if c <? 128 then Some [c]
  else if c <? 2048 then Some [192 + c / 64; 128 + c mod 64]
  else if c <? 65536 then
    if is_surrogate c then None
    else Some [224 + c / 4096; 128 + (c / 64) mod 64; 128 + c mod 64]
  else if c <? 1114112 then
    Some [240 + c / 262144; 128 + (c / 4096) mod 64;
          128 + (c / 64) mod 64; 128 + c mod 64]
  else None.

Fixpoint encode (s : str) : option bytes :=
  match s with
  | [] => Some []
  | c :: s' =>
      match encode_char c, encode s' with
      | Some b, Some bs => Some (b ++ bs)
      | _, _ => None
      end
  end.

(** A sequence that has begun: the bits read so far, the number of
    continuation bytes still due after the next one, and the range the next
    byte must lie in. *)
Record pending := Pending { acc : N; more : nat; lo : N; hi : N }.

Inductive lead_class :=
| Single (c : N)
| Lead (p : pending)
| Invalid.

Definition classify (b : N) : lead_class :=
  if b <? 128 then Single b
  else if b <? 194 then Invalid
  else if b <? 224 then Lead (Pending (b - 192) 0 128 191)
  else if b =? 224 then Lead (Pending (b - 224) 1 160 191)
  else if b =? 237 then Lead (Pending (b - 224) 1 128 159)
  else if b <? 240 then Lead (Pending (b - 224) 1 128 191)
  else if b =? 240 then Lead (Pending (b - 240) 2 144 191)
  else if b <? 244 then Lead (Pending (b - 240) 2 128 191)
  else if b =? 244 then Lead (Pending (b - 240) 2 128 143)
  else Invalid.

(** The decoder with [errors='replace']: each maximal ill-formed prefix
    becomes one U+FFFD and decoding resumes at the offending byte. *)
Fixpoint decode_from (st : option pending) (bs : bytes) : str :=
  match bs with
  | [] => match st with None => [] | Some _ => [REPLACEMENT] end
  | b :: bs' =>
      let restart :=
        match classify b with
        | Single c => c :: decode_from None bs'
        | Lead p => decode_from (Some p) bs'
        | Invalid => REPLACEMENT :: decode_from None bs'
        end in
      match st with
      | None => restart
      | Some p =>
          if (lo p <=? b) && (b <=? hi p) then
            let a := acc p * 64 + (b - 128) in
            match more p with
            | O => a :: decode_from None bs'
            | S m => decode_from (Some (Pending a m 128 191)) bs'
            end
          else REPLACEMENT :: restart
      end
  end.

Definition decode (bs : bytes) : str := decode_from None bs.

End Utf8.

(** The bytes of a literal of this file. *)
Definition bytes_of_string (s : string) : bytes :=
  map N_of_ascii (list_ascii_of_string s).

(** A Python string literal. *)
Definition py (s : string) : str := Utf8.decode (bytes_of_string s).

(** A Python string literal that holds double quotes: each of them is
    written as a backquote here, a character the literals of the script never
    hold. *)
Definition pyq (s : string) : str :=
  map (fun c => if c =? 96 then 34 else c) (py s).

(** ** Methods of [str] *)

(** [str.isspace] for one character: the code points Python's [strip()]
    removes. *)
Definition isspace (c : N) : bool :=
  ((9 <=? c) && (c <=? 13)) || ((28 <=? c) && (c <=? 32))
  || (c =? 133) || (c =? 160) || (c =? 5760)
  || ((8192 <=? c) && (c <=? 8202))
  || (c =? 8232) || (c =? 8233) || (c =? 8239) || (c =? 8287)
  || (c =? 12288).

(** [s.lstrip(chars)], [s.rstrip(chars)] for a set of characters given by its
    membership test. *)
Fixpoint lstrip_of (f : N -> bool) (s : str) : str :=
  match s with
  | c :: s' => if f c then lstrip_of f s' else s
  | [] => []
  end.

Definition rstrip_of (f : N -> bool) (s : str) : str :=
  rev (lstrip_of f (rev s)).

(** [s.strip()] *)
Definition strip (s : str) : str := rstrip_of isspace (lstrip_of isspace s).

(** [s.replace(old, new)]: occurrences are replaced from the left and do not
    overlap.  [skip] counts the characters of an occurrence that are still to
    be dropped.  An empty [old] matches before every character and at the
    end. *)
Fixpoint replace_from (old new : str) (skip : nat) (s : str) : str :=
  match s with
  | [] => []
  | c :: s' =>
      match skip with
      | S k => replace_from old new k s'
      | O =>
          if starts_with old s
          then new ++ replace_from old new (pred (List.length old)) s'
          else c :: replace_from old new O s'
      end
  end.

Definition replace (old new s : str) : str :=
  match old with
  | [] => new ++ flat_map (fun c => c :: new) s
  | _ => replace_from old new O s
  end.

(** [sep.join(parts)] *)
Fixpoint join (sep : str) (parts : list str) : str :=
  match parts with
  | [] => []
  | [p] => p
  | p :: rest => p ++ sep ++ join sep rest
  end.

(** [s.split(c)] for a one-character separator. *)
Fixpoint split_char (c : N) (s : str) : list str :=
  match s with
  | [] => [[]]
  | x :: s' =>
      match split_char c s' with
      | [] => [[]]
      | p :: ps => if x =? c then [] :: p :: ps else (x :: p) :: ps
      end
  end.

(** [s.find(c)]: the text before the first [c] and the text after it. *)
Fixpoint cut (c : N) (s : str) : option (str * str) :=
  match s with
  | [] => None
  | x :: s' =>
      if x =? c then Some ([], s')
      else match cut c s' with
           | Some (a, b) => Some (x :: a, b)
           | None => None
           end
  end.

Definition is_ascii_upper (c : N) : bool := (65 <=? c) && (c <=? 90).
Definition is_ascii_lower (c : N) : bool := (97 <=? c) && (c <=? 122).
Definition is_ascii_digit (c : N) : bool := (48 <=? c) && (c <=? 57).
Definition is_ascii_alpha (c : N) : bool := is_ascii_upper c || is_ascii_lower c.
Definition is_ascii (c : N) : bool := c <? 128.

Definition ascii_lower (c : N) : N := if is_ascii_upper c then c + 32 else c.

(** The decimal text of an integer, as [str(int)]. *)
Definition str_of_Z (z : Z) : str :=
  bytes_of_string (NilZero.string_of_int (Z.to_int z)).

(** ** Exceptions *)

Inductive exn :=
| AttributeError
| TypeError
| KeyError
| ValueError
| UnicodeEncodeError
| OSError
| IndexError
| JSONDecodeError
| SystemExit (message : str).

Inductive result (A : Type) :=
| Ok (a : A)
| Raise (e : exn).

Arguments Ok {A} a.
Arguments Raise {A} e.

Definition bind {A B} (r : result A) (k : A -> result B) : result B :=
  match r with
  | Ok a => k a
  | Raise e => Raise e
  end.

Notation "x <- r ;; k" := (bind r (fun x => k))
  (at level 61, r at next level, right associativity).

(** ** Values read from JSON *)

(** What [json.loads] returns.  A float is kept as what this script can
    observe of it: whether it is non-zero (its truth value) and its [repr]
    text (what [str()] gives).  A dict is the list of its items; a lookup
    takes the first item of that key. *)
Inductive json :=
| JNull
| JBool (b : bool)
| JInt (z : Z)
| JFloat (nonzero : bool) (repr : str)
| JStr (s : str)
| JList (l : list json)
| JDict (d : list (str * json)).

Fixpoint lookup {A} (k : str) (d : list (str * A)) : option A :=
  match d with
  | [] => None
  | (k', v) :: d' => if str_eqb k k' then Some v else lookup k d'
  end.

(** [bool(v)] *)
Definition truthy (v : json) : bool :=
  match v with
  | JNull => false
  | JBool b => b
  | JInt z => negb (Z.eqb z 0)
  | JFloat nonzero _ => nonzero
  | JStr s => negb (is_empty s)
  | JList l => negb (is_empty l)
  | JDict d => negb (is_empty d)
  end.

(** [a or b] *)
Definition py_or (a b : json) : json := if truthy a then a else b.

(** [v.get(key)]: only a dict has the method. *)
Definition py_get (v : json) (key : str) : result json :=
  match v with
  | JDict d => Ok (match lookup key d with Some x => x | None => JNull end)
  | _ => Raise AttributeError
  end.

(** [v.get(key, default)] *)
Definition py_get_default (v : json) (key : str) (default : json) : result json :=
  match v with
  | JDict d => Ok (match lookup key d with Some x => x | None => default end)
  | _ => Raise AttributeError
  end.

(** [v.strip()]: only a string has the method. *)
Definition py_strip (v : json) : result str :=
  match v with
  | JStr s => Ok (strip s)
  | _ => Raise AttributeError
  end.

(** [for x in v]: a list gives its elements, a string its characters, a dict
    its keys; nothing else can be iterated. *)
Definition py_iter (v : json) : result (list json) :=
  match v with
  | JList l => Ok l
  | JStr s => Ok (map (fun c => JStr [c]) s)
  | JDict d => Ok (map (fun kv => JStr (fst kv)) d)
  | _ => Raise TypeError
  end.

(** The parts of the Python runtime that are left open: the [repr] of a list
    or a dict, the lower-casing of a string that has characters outside
    ASCII, the two checks of [urllib.parse] on an authority that need the
    [ipaddress] and [unicodedata] modules, and which of its two versions
    [urlunsplit] is: the one up to CPython 3.12.3, or the one since 3.12.4. *)
Class PyRuntime := {
  py_repr : json -> str;
  lower_unicode : str -> str;
  check_bracketed_netloc : str -> bool;
  checknetloc_nfkc : str -> bool;
  legacy_urlunsplit : bool
}.

Section RuntimeStrings.

Context {RT : PyRuntime}.

(** [str(v)] *)
Definition py_str (v : json) : str :=
  match v with
  | JNull => py "None"
  | JBool true => py "True"
  | JBool false => py "False"
  | JInt z => str_of_Z z
  | JFloat _ r => r
  | JStr s => s
  | JList _ | JDict _ => py_repr v
  end.

(** [s.lower()] *)
Definition lower (s : str) : str :=
  if forallb is_ascii s then map ascii_lower s else lower_unicode s.

End RuntimeStrings.

(** ** urllib.parse

    The functions of [urllib.parse] that [with_affiliate_tag] calls, after
    the library's source ([urlunsplit] in its two versions: the one up to
    CPython 3.12.3 and the one since 3.12.4).
    Arguments that the script leaves at their defaults are fixed:
    [allow_fragments=True], [keep_blank_values=True], [strict_parsing=False],
    [separator='&'], [encoding='utf-8'], [doseq=True], [quote_via=quote_plus]. *)

Module Urllib.

Section WithRuntime.

Context {RT : PyRuntime}.

Definition uses_netloc : list str :=
  map py ["" ; "ftp"; "http"; "gopher"; "nntp"; "telnet"; "imap"; "wais";
          "file"; "mms"; "https"; "shttp"; "snews"; "prospero"; "rtsp";
          "rtspu"; "rsync"; "svn"; "svn+ssh"; "sftp"; "nfs"; "git";
          "git+ssh"; "ws"; "wss"]%string.

Definition uses_params : list str :=
  map py ["" ; "ftp"; "hdl"; "prospero"; "http"; "imap"; "https"; "shttp";
          "rtsp"; "rtspu"; "sip"; "sips"; "mms"; "sftp"; "tel"]%string.

(** [c in scheme_chars] *)
Definition is_scheme_char (c : N) : bool :=
  is_ascii_alpha c || is_ascii_digit c || (c =? 43) || (c =? 45) || (c =? 46).

(** [c in _WHATWG_C0_CONTROL_OR_SPACE] *)
Definition is_c0_control_or_space (c : N) : bool := c <=? 32.

Definition _UNSAFE_URL_BYTES_TO_REMOVE : list N := [9; 13; 10].

Record ParseResult := {
  scheme : str;
  netloc : str;
  path : str;
  params : str;
  query : str;
  fragment : str
}.

(** The text up to the first character that satisfies [f], and the rest. *)
Fixpoint span_until (f : N -> bool) (s : str) : str * str :=
  match s with
  | [] => ([], [])
  | c :: s' =>
      if f c then ([], s)
      else let (a, b) := span_until f s' in (c :: a, b)
  end.

Definition is_netloc_delim (c : N) : bool := (c =? 47) || (c =? 63) || (c =? 35).

(** [_splitnetloc(url, 2)] *)
Definition _splitnetloc (url : str) : str * str :=
  span_until is_netloc_delim (skipn 2 url).

(** [s.rfind(c)]: the text before the last [c] and the text after it. *)
Definition cut_last (c : N) (s : str) : option (str * str) :=
  match cut c (rev s) with
  | Some (a, b) => Some (rev b, rev a)
  | None => None
  end.

Definition _splitparams (url : str) : str * str :=
  match cut_last 47 url with
  | Some (before, after) =>
      match cut 59 after with
      | Some (a, b) => (before ++ [47] ++ a, b)
      | None => (url, [])
      end
  | None =>
      match cut 59 url with
      | Some (a, b) => (a, b)
      | None => (removelast url, url)
      end
  end.

(** [_checknetloc(netloc)]: [true] when it returns, [false] when it raises. *)
Definition _checknetloc (netloc : str) : bool :=
  if is_empty netloc || forallb is_ascii netloc then true
  else checknetloc_nfkc netloc.

(** [urlsplit(url)]: scheme, netloc, path, query, fragment. *)
Definition urlsplit (url : str) : result (str * str * str * str * str) :=
  let url := lstrip_of is_c0_control_or_space url in
  let url := fold_left (fun u b => replace [b] [] u) _UNSAFE_URL_BYTES_TO_REMOVE url in
  let '(scheme, url) :=
    match cut 58 url with
    | Some (c :: pre, post) =>
        if is_ascii c && is_ascii_alpha c && forallb is_scheme_char (c :: pre)
        then (lower (c :: pre), post)
        else ([], url)
    | _ => ([], url)
    end in
  r <- (if starts_with [47; 47] url then
          let (netloc, url) := _splitnetloc url in
          if (has_char 91 netloc && negb (has_char 93 netloc))
             || (has_char 93 netloc && negb (has_char 91 netloc))
          then Raise ValueError
          else if has_char 91 netloc && has_char 93 netloc
                  && negb (check_bracketed_netloc netloc)
          then Raise ValueError
          else Ok (netloc, url)
        else Ok ([], url)) ;;
  let '(netloc, url) := r in
  let '(url, fragment) :=
    match cut 35 url with Some (a, b) => (a, b) | None => (url, []) end in
  let '(url, query) :=
    match cut 63 url with Some (a, b) => (a, b) | None => (url, []) end in
  if _checknetloc netloc then Ok (scheme, netloc, url, query, fragment)
  else Raise ValueError.

Definition urlparse (url : str) : result ParseResult :=
  r <- urlsplit url ;;
  let '(scheme, netloc, url, query, fragment) := r in
  let '(url, params) :=
    if mem scheme uses_params && has_char 59 url then _splitparams url
    else (url, []) in
  Ok {| scheme := scheme; netloc := netloc; path := url; params := params;
        query := query; fragment := fragment |}.

(** The first step of [urlunsplit] up to CPython 3.12.3. *)
Definition add_authority_legacy (scheme netloc url : str) : str :=
  if negb (is_empty netloc)
     || (negb (is_empty scheme) && mem scheme uses_netloc
         && negb (starts_with [47; 47] url))
  then
    let url := if negb (is_empty url) && negb (starts_with [47] url)
               then [47] ++ url else url in
    [47; 47] ++ netloc ++ url
  else url.

(** The first step of [urlunsplit] since CPython 3.12.4. *)
Definition add_authority (scheme netloc url : str) : str :=
  if negb (is_empty netloc) then
    let url := if negb (is_empty url) && negb (starts_with [47] url)
               then [47] ++ url else url in
    [47; 47] ++ netloc ++ url
  else if starts_with [47; 47] url then [47; 47] ++ url
  else if negb (is_empty scheme) && mem scheme uses_netloc
          && (is_empty url || starts_with [47] url)
  then [47; 47] ++ url
  else url.

Definition urlunsplit (scheme netloc url query fragment : str) : str :=
  let url := if legacy_urlunsplit then add_authority_legacy scheme netloc url
             else add_authority scheme netloc url in
  let url := if negb (is_empty scheme) then scheme ++ [58] ++ url else url in
  let url := if negb (is_empty query) then url ++ [63] ++ query else url in
  let url := if negb (is_empty fragment) then url ++ [35] ++ fragment else url in
  url.

Definition urlunparse (c : ParseResult) : str :=
  let url := if negb (is_empty (params c)) then path c ++ [59] ++ params c
             else path c in
  urlunsplit (scheme c) (netloc c) url (query c) (fragment c).

(** *** Percent-encoding *)

Definition hexval (c : N) : option N :=
  if is_ascii_digit c then Some (c - 48)
  else if (97 <=? c) && (c <=? 102) then Some (c - 87)
  else if (65 <=? c) && (c <=? 70) then Some (c - 55)
  else None.

(** One item of [string.split(b'%')] after the first. *)
Definition unquote_item (item : bytes) : bytes :=
  match item with
  | h1 :: h2 :: rest =>
      match hexval h1, hexval h2 with
      | Some a, Some b => (16 * a + b) :: rest
      | _, _ => 37 :: item
      end
  | _ => 37 :: item
  end.

(** [unquote_to_bytes(string)] on a string of ASCII characters, whose UTF-8
    bytes are its code points. *)
Definition unquote_to_bytes (s : str) : bytes :=
  match split_char 37 s with
  | [] => []
  | first :: items => first ++ flat_map unquote_item items
  end.

(** [_asciire.split(string)]: the maximal runs of ASCII characters and the
    runs between them, each with whether it is an ASCII run. *)
Fixpoint ascii_runs (s : str) : list (bool * str) :=
  match s with
  | [] => []
  | c :: s' =>
      match ascii_runs s' with
      | (b, r) :: rest =>
          if Bool.eqb b (is_ascii c) then (b, c :: r) :: rest
          else (is_ascii c, [c]) :: (b, r) :: rest
      | [] => [(is_ascii c, [c])]
      end
  end.

Definition unquote (s : str) : str :=
  if negb (has_char 37 s) then s
  else
    flat_map (fun br : bool * str =>
                if fst br then Utf8.decode (unquote_to_bytes (snd br))
                else snd br)
             (ascii_runs s).

Definition unquote_plus (s : str) : str := unquote (replace [43] [32] s).

Definition parse_qsl (qs : str) : list (str * str) :=
  let query_args := if is_empty qs then [] else split_char 38 qs in
  flat_map (fun name_value : str =>
              if is_empty name_value then []
              else
                let (n, v) :=
                  match cut 61 name_value with
                  | Some (a, b) => (a, b)
                  | None => (name_value, [])
                  end in
                [(unquote (replace [43] [32] n), unquote (replace [43] [32] v))])
           query_args.

(** [c in _ALWAYS_SAFE] *)
Definition is_always_safe (c : N) : bool :=
  is_ascii_alpha c || is_ascii_digit c
  || (c =? 95) || (c =? 46) || (c =? 45) || (c =? 126).

Definition hexdigit (n : N) : N := if n <? 10 then 48 + n else 55 + n.

(** [_Quoter(safe)[b]] *)
Definition quoter (safe : N -> bool) (b : N) : str :=
  if is_always_safe b || safe b then [b]
  else [37; hexdigit (b / 16); hexdigit (b mod 16)].

Definition quote_from_bytes (bs : bytes) (safe : N -> bool) : str :=
  if is_empty bs then []
  else if is_empty (rstrip_of (fun b => is_always_safe b || safe b) bs) then bs
  else flat_map (quoter safe) bs.

Definition quote (s : str) (safe : N -> bool) : result str :=
  if is_empty s then Ok s
  else match Utf8.encode s with
       | Some bs => Ok (quote_from_bytes bs safe)
       | None => Raise UnicodeEncodeError
       end.

Definition quote_plus (s : str) : result str :=
  if negb (has_char 32 s) then quote s (fun _ => false)
  else r <- quote s (fun c => c =? 32) ;; Ok (replace [32] [43] r).

(** [urlencode(q, doseq=True)] for a dict of strings, given by its items. *)
Fixpoint urlencode_items (items : list (str * str)) : result (list str) :=
  match items with
  | [] => Ok []
  | (k, v) :: rest =>
      k <- quote_plus k ;;
      v <- quote_plus v ;;
      l <- urlencode_items rest ;;
      Ok ((k ++ [61] ++ v) :: l)
  end.

Definition urlencode (items : list (str * str)) : result str :=
  l <- urlencode_items items ;; Ok (join [38] l).

End WithRuntime.

End Urllib.

(** ** dict *)

(** [d[k] = v]: a key that is present keeps its place. *)
Fixpoint dict_set {A} (d : list (str * A)) (k : str) (v : A) : list (str * A) :=
  match d with
  | [] => [(k, v)]
  | (k', v') :: d' =>
      if str_eqb k k' then (k', v) :: d' else (k', v') :: dict_set d' k v
  end.

(** [dict(pairs)] *)
Definition dict_of_pairs {A} (pairs : list (str * A)) : list (str * A) :=
  fold_left (fun d kv => dict_set d (fst kv) (snd kv)) pairs [].

Section Script.

Context {RT : PyRuntime}.

(** ** Product Normalizer *)

Record product := {
  asin : str;
  name : str;
  description : str;
  image_url : str;
  amazon_url : str;
  best_for : list str
}.

(** The [best_for] entry of the emitted dict, from [it.get("best_for")]. *)
Definition normalize_best_for (v : json) : list str :=
  let best_for := py_or v (JList []) in
  let best_for := match best_for with JStr _ => JList [best_for] | _ => best_for end in
  let best_for := match best_for with JList l => l | _ => [] end in
  firstn 2 (map (fun x => strip (py_str x))
                (filter (fun x => negb (is_empty (strip (py_str x)))) best_for)).

(** The dict that the loop of [normalize_products] appends for the record
    [it], whose trimmed [amazon_asin] is [asin]. *)
Definition normalized_record (it : json) (asin : str) : result product :=
  bf <- py_get it (py "best_for") ;;
  v <- py_get it (py "product_name") ;;
  name <- py_strip (py_or v (JStr (py ""))) ;;
  let name := if is_empty name then py "Product" else name in
  v <- py_get it (py "description") ;;
  description <- py_strip (py_or v (JStr (py ""))) ;;
  v <- py_get it (py "image_url") ;;
  image_url <- py_strip (py_or v (JStr (py ""))) ;;
  v <- py_get it (py "amazon_url") ;;
  amazon_url <- py_strip (py_or v (JStr (py "https://www.amazon.com/dp/" ++ asin))) ;;
  Ok {| asin := asin; name := name; description := description;
        image_url := image_url; amazon_url := amazon_url;
        best_for := normalize_best_for bf |}.

(** The loop of [normalize_products], on the items still to be read, with
    [out] and [seen] as they stand. *)
Fixpoint normalize_loop (items : list json) (out : list product) (seen : list str)
  : result (list product) :=
  match items with
  | [] => Ok out
  | it :: rest =>
      v <- py_get it (py "amazon_asin") ;;
      asin <- py_strip (py_or v (JStr (py ""))) ;;
      if is_empty asin || mem asin seen then normalize_loop rest out seen
      else
        p <- normalized_record it asin ;;
        normalize_loop rest (out ++ [p]) (asin :: seen)
  end.

Definition normalize_products (items : list json) : result (list product) :=
  normalize_loop items [] [].

(** ** Constants of the script *)

Definition CONFIG_FILE : str := py "site_config.json".

(** ** pathlib, POSIX flavour: a path is its root and its parts *)

Record Path := { root : str; parts : list str }.

(** [Path(s)]: empty and [.] components are dropped; a leading pair of
    slashes is kept as such, any other run of leading slashes is one. *)
Definition path_of (s : str) : Path :=
  {| root := if starts_with [47; 47] s && negb (starts_with [47; 47; 47] s)
             then [47; 47]
             else if starts_with [47] s then [47] else [];
     parts := filter (fun c => negb (is_empty c) && negb (str_eqb c [46]))
                     (split_char 47 s) |}.

(** [p / s]: an absolute right operand replaces the left one. *)
Definition path_div (p : Path) (s : str) : Path :=
  let q := path_of s in
  if is_empty (root q) then {| root := root p; parts := parts p ++ parts q |}
  else q.

(** [str(p)] *)
Definition path_str (p : Path) : str :=
  if is_empty (root p) && is_empty (parts p) then [46]
  else root p ++ join [47] (parts p).

Definition ASSETS_DIR : Path := path_of (py "assets").
Definition IMG_DIR : Path := path_div ASSETS_DIR (py "img").
Definition PLACEHOLDER : str := py "assets/placeholder.svg".

(** [os.environ.get(key, default)] *)
Definition environ_get (environ : list (str * str)) (key default : str) : str :=
  match lookup key environ with
  | Some v => v
  | None => default
  end.

(** The module-level flag, from the environment the script starts in. *)
Definition CACHE_IMAGES (environ : list (str * str)) : bool :=
  mem (strip (environ_get environ (py "CACHE_IMAGES") (py "0")))
      (map py ["1"; "true"; "TRUE"; "yes"; "YES"]%string).

(** ** HTML escaping *)

Definition esc (s : str) : str :=
  replace (py "'") (py "&#39;")
    (replace (pyq "`") (py "&quot;")
       (replace (py ">") (py "&gt;")
          (replace (py "<") (py "&lt;")
             (replace (py "&") (py "&amp;") s)))).

(** ** Affiliate URL Builder *)

Definition with_affiliate_tag (url tag : str) : result str :=
  u <- Urllib.urlparse url ;;
  let q := dict_of_pairs (Urllib.parse_qsl (Urllib.query u)) in
  let q := dict_set q (py "tag") tag in
  new_query <- Urllib.urlencode q ;;
  Ok (Urllib.urlunparse
        {| Urllib.scheme := Urllib.scheme u; Urllib.netloc := Urllib.netloc u;
           Urllib.path := Urllib.path u; Urllib.params := Urllib.params u;
           Urllib.query := new_query; Urllib.fragment := Urllib.fragment u |}).

(** ** Config Loader *)

(** [d.setdefault(key, default)] *)
Definition setdefault (d : list (str * json)) (key : str) (default : json)
  : list (str * json) :=
  match lookup key d with
  | Some _ => d
  | None => d ++ [(key, default)]
  end.

(** [load_config], on what [json.loads(Path(path).read_text())] gave. *)
Definition load_config (loaded : result json) : result json :=
  cfg <- loaded ;;
  match cfg with
  | JDict d =>
      let d := setdefault d (py "title") (JStr (py "Product shortlist")) in
      let d := setdefault d (py "description") (JStr (py "A simple shortlist of products.")) in
      let d := setdefault d (py "intro_paragraphs") (JList []) in
      let d := setdefault d (py "meta_note") (JStr (py "")) in
      let d := setdefault d (py "products") (JList []) in
      Ok (JDict d)
  | _ => Raise AttributeError
  end.

(** ** Image Resolver *)

(** [$] without [re.MULTILINE]: the end of the string, or just before a
    newline that ends it. *)
Definition at_dollar (s : str) : bool :=
  match s with
  | [] => true
  | [c] => c =? 10
  | _ => false
  end.

(** The group [(png|jpe?g|webp|avif|gif)] followed by [(?:\?|$)], matched at
    the head of [s]: the alternatives in the order the pattern tries them,
    [jpe?g] taking its [e] first. *)
Definition match_ext_here (s : str) : option str :=
  find (fun alt => starts_with alt s &&
                   (let rest := skipn (List.length alt) s in
                    starts_with [63] rest || at_dollar rest))
       (map py ["png"; "jpeg"; "jpg"; "webp"; "avif"; "gif"]%string).

(** [re.search(r"\.(png|jpe?g|webp|avif|gif)(?:\?|$)", s)]: group 1 of the
    leftmost match. *)
Fixpoint re_search_ext (s : str) : option str :=
  match s with
  | [] => None
  | c :: s' =>
      if c =? 46 then
        match match_ext_here s' with
        | Some g => Some g
        | None => re_search_ext s'
        end
      else re_search_ext s'
  end.

(** The first part of [_safe_ext]: the extension the declared content type
    gives, if it gives one. *)
Definition ext_of_content_type (content_type : option str) : option str :=
  match content_type with
  | Some ((_ :: _) as content_type) =>
      let ct := lower (strip (hd [] (split_char 59 content_type))) in
      if str_eqb ct (py "image/png") then Some (py ".png")
      else if mem ct (map py ["image/jpeg"; "image/jpg"]%string) then Some (py ".jpg")
      else if str_eqb ct (py "image/webp") then Some (py ".webp")
      else if str_eqb ct (py "image/avif") then Some (py ".avif")
      else if str_eqb ct (py "image/gif") then Some (py ".gif")
      else None
  | _ => None
  end.

Definition _safe_ext (url : str) (content_type : option str) : str :=
  match ext_of_content_type content_type with
  | Some ext => ext
  | None =>
      match re_search_ext (lower url) with
      | Some g => py "." ++ replace (py "jpeg") (py "jpg") g
      | None => py ".img"
      end
  end.

(** *** The outside world *)

(** What [requests.get] does: it raises, or it returns a response, of which
    the script reads the status code, the body and the [Content-Type]
    header. *)
Inductive http_outcome :=
| GetRaised
| Response (status_code : Z) (content : bytes) (content_type : option str).

(** [datetime.now(timezone.utc)] *)
Record datetime := { year : N; month : N; day : N; hour : N; minute : N }.

(** The outside world as the script meets it: the environment, the clock,
    what reading and parsing a JSON file gives, what a request gives,
    whether a directory can be created, and whether a file can be opened
    for writing. *)
Record world := {
  environ : list (str * str);
  now_utc : datetime;
  read_json : str -> result json;
  http_get : str -> http_outcome;
  mkdir_ok : str -> bool;
  write_ok : str -> bool
}.

(** The calls the script makes to the outside world, in order. *)
Inductive event :=
| ReadText (path : str)
| Mkdir (path : str)
| HttpGet (url : str)
| WriteBytes (path : str) (data : bytes)
| WriteText (path : str) (text : str).

(** A computation with effects: its trace, and its value or the exception
    that ended it. *)
Definition io (A : Type) : Type := list event * result A.

Definition io_ret {A} (a : A) : io A := ([], Ok a).

Definition io_lift {A} (r : result A) : io A := ([], r).

Definition io_emit (e : event) : io unit := ([e], Ok tt).

Definition io_bind {A B} (m : io A) (k : A -> io B) : io B :=
  match m with
  | (t, Ok a) => let (t', r) := k a in (t ++ t', r)
  | (t, Raise e) => (t, Raise e)
  end.

Notation "x <~ m ;; k" := (io_bind m (fun x => k))
  (at level 61, m at next level, right associativity).

Definition cache_image (w : world) (asin remote_url : str) : io str :=
  if is_empty remote_url then io_ret PLACEHOLDER
  else
    _ <~ io_emit (Mkdir (path_str IMG_DIR)) ;;
    if negb (mkdir_ok w (path_str IMG_DIR)) then io_lift (Raise OSError)
    else
      _ <~ io_emit (HttpGet remote_url) ;;
      match http_get w remote_url with
      | GetRaised => io_ret remote_url
      | Response status_code content content_type =>
          if negb (Z.eqb status_code 200) || is_empty content
          then io_ret remote_url
          else
            let ext := _safe_ext remote_url content_type in
            let local := path_div IMG_DIR (asin ++ ext) in
            _ <~ io_emit (WriteBytes (path_str local) content) ;;
            if write_ok w (path_str local)
            then io_ret (replace (py "\") (py "/") (path_str local))
            else io_ret remote_url
      end.

(** ** HTML Renderer *)

Definition HTML : str := pyq "<!doctype html>
<html lang=`en`>
<head>
  <meta charset=`utf-8`>
  <meta name=`viewport` content=`width=device-width, initial-scale=1`>
  <title>{title}</title>
  <meta name=`description` content=`{desc}`>
  <style>
    body {{ font-family: system-ui, -apple-system, Segoe UI, Roboto, Helvetica, Arial, sans-serif; margin: 0; background:#fafafa; color:#111; }}
    header, main, footer {{ max-width: 1060px; margin: 0 auto; padding: 18px 16px; }}
    h1 {{ font-size: 28px; margin: 10px 0 8px; }}
    p {{ margin: 8px 0; line-height: 1.5; }}
    .meta {{ color:#444; font-size: 14px; }}
    .grid {{ display:grid; grid-template-columns: repeat(3, minmax(0, 1fr)); gap: 14px; }}
    .card {{ background:white; border-radius: 14px; overflow:hidden; box-shadow: 0 2px 10px rgba(0,0,0,0.06); display:flex; flex-direction:column; }}
    .img {{ background:#f3f4f6; aspect-ratio: 4 / 3; overflow:hidden; }}
    .img img {{ width:100%; height:100%; object-fit:contain; display:block; background:#fff; }}
    .content {{ padding: 12px 14px 14px; display:flex; flex-direction:column; gap:8px; flex:1; }}
    .name {{ font-weight: 800; font-size: 16px; margin: 0; }}
    .desc {{ color:#333; font-size: 14px; margin:0; }}
    .tags {{ display:flex; flex-wrap:wrap; gap:6px; margin:2px 0 0; }}
    .tag {{ font-size: 12px; padding: 4px 8px; border: 1px solid #e5e7eb; background:#f9fafb; border-radius: 999px; color:#374151; }}
    .actions {{ margin-top:auto; display:flex; gap:10px; align-items:center; padding-top: 4px; }}
    .btn {{ display:inline-block; padding: 10px 12px; border:1px solid #ddd; border-radius: 12px; background:#fff; font-weight: 700; text-align:center; }}
    .btn:hover {{ background:#f7f7f7; text-decoration:none; }}
    a {{ color:#0b57d0; text-decoration: none; }}
    a:hover {{ text-decoration: underline; }}
    @media (max-width: 980px) {{
      .grid {{ grid-template-columns: repeat(2, minmax(0, 1fr)); }}
    }}
    @media (max-width: 640px) {{
      .grid {{ grid-template-columns: 1fr; }}
    }}
  </style>
</head>
<body>
  <header>
    <h1>{h1}</h1>
    {intro}
    <p class=`meta`>Last updated: {updated}</p>
  </header>

  <main>
    <div class=`grid`>
      {cards}
    </div>
  </main>

  <footer>
    <p><strong>Affiliate disclosure:</strong> As an Amazon Associate, I earn from qualifying purchases.</p>
    <p><a href=`privacy.html`>Privacy</a> Â· <a href=`disclosure.html`>Disclosure</a></p>
  </footer>
</body>
</html>
".

(** *** [str.format] with named fields

    The template is read into literal text and field names, then filled.
    Doubled braces stand for one brace.  Only plain field names are read
    (no conversion, format specification, attribute or index), which is all
    the template of the script has. *)

Inductive segment :=
| Lit (text : str)
| Field (name : str).

Inductive format_state :=
| InText
| AfterOpen
| InField (name_rev : str)
| AfterClose.

Fixpoint parse_format (s : str) (st : format_state) (text_rev : str)
                      (acc_rev : list segment) : result (list segment) :=
  match s with
  | [] =>
      match st with
      | InText => Ok (rev (Lit (rev text_rev) :: acc_rev))
      | _ => Raise ValueError
      end
  | c :: s' =>
      match st with
      | InText =>
          if c =? 123 then parse_format s' AfterOpen text_rev acc_rev
          else if c =? 125 then parse_format s' AfterClose text_rev acc_rev
          else parse_format s' InText (c :: text_rev) acc_rev
      | AfterOpen =>
          if c =? 123 then parse_format s' InText (123 :: text_rev) acc_rev
          else if c =? 125 then Raise IndexError
          else parse_format s' (InField [c]) [] (Lit (rev text_rev) :: acc_rev)
      | InField f =>
          if c =? 125 then parse_format s' InText [] (Field (rev f) :: acc_rev)
          else if (c =? 123) || (c =? 33) || (c =? 58) || (c =? 46) || (c =? 91)
          then Raise ValueError
          else parse_format s' (InField (c :: f)) text_rev acc_rev
      | AfterClose =>
          if c =? 125 then parse_format s' InText (125 :: text_rev) acc_rev
          else Raise ValueError
      end
  end.

Fixpoint fill (segments : list segment) (kwargs : list (str * str)) : result str :=
  match segments with
  | [] => Ok []
  | Lit text :: rest => r <- fill rest kwargs ;; Ok (text ++ r)
  | Field name :: rest =>
      match lookup name kwargs with
      | Some v => r <- fill rest kwargs ;; Ok (v ++ r)
      | None => Raise KeyError
      end
  end.

(** [template.format(...)] with keyword arguments *)
Definition format (template : str) (kwargs : list (str * str)) : result str :=
  segments <- parse_format template InText [] [] ;;
  fill segments kwargs.

Definition tags_html (tags : list str) : str :=
  if is_empty tags then []
  else
    let pills := join [] (map (fun t => pyq "<span class=`tag`>" ++ esc t ++ py "</span>")
                              (firstn 2 tags)) in
    pyq "<div class=`tags`>" ++ pills ++ py "</div>".

(** The loop of [build_intro]. *)
Definition intro_parts (paragraphs : list json) : list str :=
  flat_map (fun p => let p := strip (py_str p) in
                     if is_empty p then [] else [py "<p>" ++ esc p ++ py "</p>"])
           paragraphs.

Definition build_intro (intro_paragraphs meta_note : json) : result str :=
  paragraphs <- py_iter intro_paragraphs ;;
  let parts := intro_parts paragraphs in
  let parts :=
    if truthy meta_note && negb (is_empty (strip (py_str meta_note)))
    then parts ++ [pyq "<p class=`meta`>" ++ esc (strip (py_str meta_note)) ++ py "</p>"]
    else parts in
  Ok (join [10] parts).

(** [card], the module-level flag [CACHE_IMAGES] being [cache]. *)
Definition card (w : world) (cache : bool) (p : product) (partner_tag : str) : io str :=
  url <~ io_lift (with_affiliate_tag (amazon_url p) partner_tag) ;;
  let src := image_url p in
  src <~ (if cache then cache_image w (asin p) src else io_ret src) ;;
  let src := if is_empty src then PLACEHOLDER else src in
  let img_html :=
    pyq "<img src=`" ++ esc src ++ pyq "` alt=`" ++ esc (name p)
    ++ pyq "` loading=`lazy` "
    ++ pyq "referrerpolicy=`no-referrer` onerror=`this.onerror=null;this.src='"
    ++ PLACEHOLDER ++ pyq "';`>" in
  io_ret
    (pyq "<div class=`card`>"
     ++ pyq "  <div class=`img`>" ++ img_html ++ py "</div>"
     ++ pyq "  <div class=`content`>"
     ++ pyq "    <p class=`name`>" ++ esc (name p) ++ py "</p>"
     ++ py "    " ++ tags_html (best_for p)
     ++ pyq "    <p class=`desc`>" ++ esc (description p) ++ py "</p>"
     ++ pyq "    <div class=`actions`>"
     ++ pyq "      <a class=`btn` href=`" ++ esc url
     ++ pyq "` rel=`nofollow sponsored`>Check price on Amazon</a>"
     ++ py "    </div>"
     ++ py "  </div>"
     ++ py "</div>").

(** The cards of the products, one after the other. *)
Fixpoint cards_of (w : world) (cache : bool) (products : list product)
                  (partner_tag : str) : io (list str) :=
  match products with
  | [] => io_ret []
  | p :: rest =>
      c <~ card w cache p partner_tag ;;
      cs <~ cards_of w cache rest partner_tag ;;
      io_ret (c :: cs)
  end.

(** ** Output Writer *)

Definition digit (n : N) : N := 48 + n mod 10.

(** [strftime("%Y-%m-%d %H:%M UTC")], the year written with four digits. *)
Definition strftime (d : datetime) : str :=
  [digit (year d / 1000); digit (year d / 100); digit (year d / 10); digit (year d)]
  ++ [45; digit (month d / 10); digit (month d)]
  ++ [45; digit (day d / 10); digit (day d)]
  ++ [32; digit (hour d / 10); digit (hour d)]
  ++ [58; digit (minute d / 10); digit (minute d)]
  ++ py " UTC".

Definition hex_lower (n : N) : N := if n <? 10 then 48 + n else 87 + n.

(** [\uXXXX] *)
Definition u_escape (c : N) : str :=
  py "\u" ++ [hex_lower (c / 4096 mod 16); hex_lower (c / 256 mod 16);
              hex_lower (c / 16 mod 16); hex_lower (c mod 16)].

(** One character of a JSON string, as [json.dumps] writes it with
    [ensure_ascii] on. *)
Definition json_escape_char (c : N) : str :=
  if c =? 34 then [92; 34]
  else if c =? 92 then [92; 92]
  else if c =? 10 then py "\n"
  else if c =? 13 then py "\r"
  else if c =? 9 then py "\t"
  else if c =? 12 then py "\f"
  else if c =? 8 then py "\b"
  else if (32 <=? c) && (c <=? 126) then [c]
  else if c <? 65536 then u_escape c
  else u_escape (55296 + (c - 65536) / 1024 mod 1024)
       ++ u_escape (56320 + (c - 65536) mod 1024).

Definition json_string (s : str) : str :=
  [34] ++ flat_map json_escape_char s ++ [34].

(** A newline and the indentation of a nesting level, for [indent=2]. *)
Definition newline_indent (level : nat) : str := 10 :: repeat 32 (2 * level).

(** [json.dumps(v, indent=2)] at a nesting level.  A float is written with
    its [repr]; none reaches [json.dumps] in this script. *)
Fixpoint dumps_at (level : nat) (v : json) : str :=
  match v with
  | JNull => py "null"
  | JBool true => py "true"
  | JBool false => py "false"
  | JInt z => str_of_Z z
  | JFloat _ r => r
  | JStr s => json_string s
  | JList [] => py "[]"
  | JList l =>
      py "[" ++ newline_indent (S level)
      ++ join (py "," ++ newline_indent (S level)) (map (dumps_at (S level)) l)
      ++ newline_indent level ++ py "]"
  | JDict [] => py "{}"
  | JDict d =>
      py "{" ++ newline_indent (S level)
      ++ join (py "," ++ newline_indent (S level))
              (map (fun kv => match kv with
                              | (k, x) => json_string k ++ py ": " ++ dumps_at (S level) x
                              end) d)
      ++ newline_indent level ++ py "}"
  end.

Definition dumps (v : json) : str := dumps_at O v.

(** A normalized product as the dict it is in the script. *)
Definition product_dict (p : product) : json :=
  JDict [(py "asin", JStr (asin p));
         (py "name", JStr (name p));
         (py "description", JStr (description p));
         (py "image_url", JStr (image_url p));
         (py "amazon_url", JStr (amazon_url p));
         (py "best_for", JList (map JStr (best_for p)))].

(** [Path(path).write_text(text, encoding="utf-8")]: the file is opened for
    writing, which raises [OSError] when it cannot be, and the text is then
    encoded, strictly, and written: a text with a lone surrogate raises
    [UnicodeEncodeError] once the file is open. *)
Definition write_text (w : world) (path text : str) : io unit :=
  _ <~ io_emit (WriteText path text) ;;
  if write_ok w path
  then match Utf8.encode text with
       | Some _ => io_ret tt
       | None => io_lift (Raise UnicodeEncodeError)
       end
  else io_lift (Raise OSError).

(** ** The script *)

Definition main (w : world) : io unit :=
  let partner_tag := strip (environ_get (environ w) (py "AMZ_PARTNER_TAG") (py "")) in
  if is_empty partner_tag
  then io_lift (Raise (SystemExit (py "Missing AMZ_PARTNER_TAG (set as GitHub Actions secret).")))
  else
    _ <~ io_emit (ReadText CONFIG_FILE) ;;
    cfg <~ io_lift (load_config (read_json w CONFIG_FILE)) ;;
    items <~ io_lift (v <- py_get_default cfg (py "products") (JList []) ;; py_iter v) ;;
    products <~ io_lift (normalize_products items) ;;
    let updated := strftime (now_utc w) in
    cards <~ cards_of w (CACHE_IMAGES (environ w)) products partner_tag ;;
    let cards := join [10] cards in
    intro <~ io_lift (a <- py_get_default cfg (py "intro_paragraphs") (JList []) ;;
                      b <- py_get_default cfg (py "meta_note") (JStr (py "")) ;;
                      build_intro a b) ;;
    title <~ io_lift (v <- py_get cfg (py "title") ;;
                      Ok (strip (py_str (py_or v (JStr (py "Product shortlist")))))) ;;
    desc <~ io_lift (v <- py_get cfg (py "description") ;;
                     Ok (strip (py_str (py_or v (JStr (py "")))))) ;;
    html <~ io_lift (format HTML [(py "title", esc title); (py "desc", esc desc);
                                  (py "h1", esc title); (py "intro", intro);
                                  (py "updated", updated); (py "cards", cards)]) ;;
    _ <~ write_text w (py "index.html") html ;;
    write_text w (py "products.json")
      (dumps (JDict [(py "products", JList (map product_dict products));
                     (py "updated", JStr updated);
                     (py "title", JStr title)])).

End Script.

(** CPython 3.11 for the examples of this file.  No example reaches the
    [repr] of a container, a string to lower-case with characters outside
    ASCII, or an authority with brackets or with characters outside ASCII:
    these four are placeholders. *)
Definition cpython_3_11 : PyRuntime :=
  {| py_repr := fun _ => [];
     lower_unicode := fun s => s;
     check_bracketed_netloc := fun _ => true;
     checknetloc_nfkc := fun _ => true;
     legacy_urlunsplit := true |}.

(** ** Vocabulary of the statements *)

(** The trimmed [amazon_asin] of a record, as the loop of
    [normalize_products] reads it. *)
Definition asin_of (it : json) : result str :=
  v <- py_get it (py "amazon_asin") ;;
  py_strip (py_or v (JStr (py ""))).

(** The elements of a list in the order of their first occurrence. *)
Fixpoint first_occurrences (l : list str) : list str :=
  match l with
  | [] => []
  | x :: l' => x :: filter (fun y => negb (str_eqb y x)) (first_occurrences l')
  end.

(** A field that [(it.get(key) or default).strip()] accepts: absent, falsy,
    or a string. *)
Definition text_field_ok (d : list (str * json)) (key : str) : bool :=
  match lookup key d with
  | None => true
  | Some (JStr _) => true
  | Some v => negb (truthy v)
  end.

(** A raw product record of the specification: a mapping whose text fields,
    where present, hold text. *)
Definition record_ok (it : json) : bool :=
  match it with
  | JDict d =>
      forallb (text_field_ok d)
              (map py ["amazon_asin"; "product_name"; "description";
                       "image_url"; "amazon_url"]%string)
  | _ => false
  end.

(** A [product_name] that is absent, null, empty or white space only. *)
Definition name_is_blank (it : json) : Prop :=
  exists v, py_get it (py "product_name") = Ok v /\
            (v = JNull \/ exists s, v = JStr s /\ forallb isspace s = true).

(** One tag pill of [tags_html]. *)
Definition tag_pill (t : str) : str :=
  pyq "<span class=`tag`>" ++ esc t ++ py "</span>".

(** The sample of records used to exercise the normalizer: two records with
    the same identifier around one without identifier. *)
Definition sample_records : list json :=
  [ JDict [(py "amazon_asin", JStr (py " B001 "));
           (py "product_name", JStr (py "   "));
           (py "best_for", JList [JStr (py " Home "); JStr (py ""); JInt 7; JStr (py "Extra")])];
    JDict [(py "product_name", JStr (py "No identifier"))];
    JDict [(py "amazon_asin", JStr (py "B001")); (py "product_name", JStr (py "Again"))];
    JDict [(py "amazon_asin", JStr (py "B002")); (py "best_for", JStr (py "Office"))] ].

(** A fetch that fails: [requests.get] raised, or the response has a status
    other than 200 or an empty body. *)
Definition fetch_fails (o : http_outcome) : Prop :=
  match o with
  | GetRaised => True
  | Response status_code content _ => status_code <> 200%Z \/ content = []
  end.

(** The content types that [_safe_ext] knows, each with its extension. *)
Definition known_content_types : list (str * str) :=
  [(py "image/png", py ".png"); (py "image/jpeg", py ".jpg");
   (py "image/jpg", py ".jpg"); (py "image/webp", py ".webp");
   (py "image/avif", py ".avif"); (py "image/gif", py ".gif")].

(** The extensions the pattern of [_safe_ext] names. *)
Definition url_extensions : list str :=
  map py ["png"; "jpeg"; "jpg"; "webp"; "avif"; "gif"]%string.

(** The extensions [_safe_ext] can return. *)
Definition extensions : list str :=
  map py [".png"; ".jpg"; ".webp"; ".avif"; ".gif"; ".img"]%string.

(** What may follow the extension where the pattern matches: nothing, the
    newline that ends the string, or a question mark. *)
Definition ends_extension (tail : str) : Prop :=
  tail = [] \/ tail = [10] \/ exists t, tail = 63 :: t.

(** C6 as the specification words it: the extension pattern is looked for in
    the path of the URL. *)
Definition safe_ext_by_path {RT : PyRuntime} (url : str) (content_type : option str)
  : str :=
  match ext_of_content_type content_type with
  | Some ext => ext
  | None =>
      match Urllib.urlparse url with
      | Ok u =>
          match re_search_ext (lower (Urllib.path u)) with
          | Some g => py "." ++ replace (py "jpeg") (py "jpg") g
          | None => py ".img"
          end
      | Raise _ => py ".img"
      end
  end.

(** The record and the product of the example of the specification. *)
Definition widget_record : json :=
  JDict [(py "amazon_asin", JStr (py "B001"));
         (py "product_name", JStr (py "Widget"));
         (py "image_url", JStr (py ""));
         (py "best_for", JList [JStr (py "Home"); JStr (py "Office"); JStr (py "Extra")])].

Definition widget_product : product :=
  {| asin := py "B001"; name := py "Widget"; description := py "";
     image_url := py ""; amazon_url := py "https://www.amazon.com/dp/B001";
     best_for := [py "Home"; py "Office"] |}.

(** The card of the example, as the lines of [card] in the script build it. *)
Definition widget_card : str :=
  pyq "<div class=`card`>"
  ++ pyq "  <div class=`img`><img src=`assets/placeholder.svg` alt=`Widget` loading=`lazy` "
  ++ pyq "referrerpolicy=`no-referrer` onerror=`this.onerror=null;this.src='assets/placeholder.svg';`></div>"
  ++ pyq "  <div class=`content`>"
  ++ pyq "    <p class=`name`>Widget</p>"
  ++ pyq "    <div class=`tags`><span class=`tag`>Home</span><span class=`tag`>Office</span></div>"
  ++ pyq "    <p class=`desc`></p>"
  ++ pyq "    <div class=`actions`>"
  ++ pyq "      <a class=`btn` href=`https://www.amazon.com/dp/B001?tag=tag123` rel=`nofollow sponsored`>Check price on Amazon</a>"
  ++ py "    </div>"
  ++ py "  </div>"
  ++ py "</div>".

(** A world for the examples: the partner tag is set, caching is on, the
    configuration holds the record of the example and one product with an
    image, every fetch answers 404, directories and files can be written. *)
Definition sample_world : world :=
  {| environ := [(py "AMZ_PARTNER_TAG", py "tag123"); (py "CACHE_IMAGES", py "1")];
     now_utc := {| year := 2026; month := 11; day := 4; hour := 7; minute := 5 |};
     read_json := fun _ =>
       Ok (JDict [(py "title", JStr (py "Picks <2026>"));
                  (py "products",
                   JList [widget_record;
                          JDict [(py "amazon_asin", JStr (py "B002"));
                                 (py "image_url", JStr (py "https://img.example.com/b002.png"))]])]);
     http_get := fun _ => Response 404 [] None;
     mkdir_ok := fun _ => true;
     write_ok := fun _ => true |}.

(** The template of the page as [format] reads it: texts and fields in
    turn, the texts at the even places. *)
Definition HTML_segments : list segment :=
  match parse_format HTML InText [] [] with
  | Ok segments => segments
  | Raise _ => []
  end.

Definition HTML_text (i : nat) : str :=
  match nth i HTML_segments (Lit []) with
  | Lit text => text
  | Field _ => []
  end.

(** The page for given values of the six fields. *)
Definition page (title desc h1 intro updated cards : str) : str :=
  HTML_text 0 ++ title ++ HTML_text 2 ++ desc ++ HTML_text 4 ++ h1
  ++ HTML_text 6 ++ intro ++ HTML_text 8 ++ updated ++ HTML_text 10 ++ cards
  ++ HTML_text 12.

(** The title and the description that [main] resolves from a
    configuration. *)
Definition resolved_title {RT : PyRuntime} (d : list (str * json)) : str :=
  strip (py_str (py_or (match lookup (py "title") d with
                        | Some v => v
                        | None => JNull
                        end)
                       (JStr (py "Product shortlist")))).

Definition resolved_description {RT : PyRuntime} (d : list (str * json)) : str :=
  strip (py_str (py_or (match lookup (py "description") d with
                        | Some v => v
                        | None => JStr (py "A simple shortlist of products.")
                        end)
                       (JStr (py "")))).

(** What one character becomes when it is escaped for HTML. *)
Definition esc_char (c : N) : str :=
  if c =? 38 then py "&amp;"
  else if c =? 60 then py "&lt;"
  else if c =? 62 then py "&gt;"
  else if c =? 34 then py "&quot;"
  else if c =? 39 then py "&#39;"
  else [c].

(** The four characters that open and close tags and attribute values. *)
Definition is_markup (c : N) : bool :=
  (c =? 60) || (c =? 62) || (c =? 34) || (c =? 39).

(** The markup characters of a text, in order. *)
Definition markup_of (s : str) : str := filter is_markup s.

Definition entities : list str :=
  map py ["&amp;"; "&lt;"; "&gt;"; "&quot;"; "&#39;"]%string.

(** Every ampersand of the text begins one of the five entities. *)
Fixpoint amp_ok (s : str) : bool :=
  match s with
  | [] => true
  | c :: s' =>
      (negb (c =? 38) || existsb (fun e => starts_with e s) entities)
      && amp_ok s'
  end.

(** The product name of the example of the specification on escaping. *)
Definition script_probe : str := pyq "<script>&`'".

(** The JSON document of a build without products. *)
Definition empty_products_json (updated title : str) : str :=
  pyq "{
  `products`: [],
  `updated`: `" ++ updated ++ pyq "`,
  `title`: " ++ json_string title ++ py "
}".

(** The end of the page of a build without products, from the end of the
    line of the timestamp on: the grid holds no card. *)
Definition empty_grid_tail : str := pyq "</p>
  </header>

  <main>
    <div class=`grid`>
      
    </div>
  </main>

  <footer>
    <p><strong>Affiliate disclosure:</strong> As an Amazon Associate, I earn from qualifying purchases.</p>
    <p><a href=`privacy.html`>Privacy</a> Â· <a href=`disclosure.html`>Disclosure</a></p>
  </footer>
</body>
</html>
".

(** A world whose configuration has a title and no product. *)
Definition empty_world : world :=
  {| environ := [(py "AMZ_PARTNER_TAG", py "tag123")];
     now_utc := {| year := 2026; month := 11; day := 4; hour := 7; minute := 5 |};
     read_json := fun _ => Ok (JDict [(py "title", JStr (py " Café picks "))]);
     http_get := fun _ => GetRaised;
     mkdir_ok := fun _ => true;
     write_ok := fun _ => true |}.

(** A world whose configuration has one product, named by the probe. *)
Definition probe_world : world :=
  {| environ := [(py "AMZ_PARTNER_TAG", py "tag123")];
     now_utc := {| year := 2026; month := 11; day := 4; hour := 7; minute := 5 |};
     read_json := fun _ =>
       Ok (JDict [(py "title", JStr (py "Tom & Jerry's <picks>"));
                  (py "intro_paragraphs", JList [JStr (py "1 < 2")]);
                  (py "products",
                   JList [JDict [(py "amazon_asin", JStr (py "B001"));
                                 (py "product_name", JStr script_probe);
                                 (py "best_for", JList [JStr script_probe])]])]);
     http_get := fun _ => GetRaised;
     mkdir_ok := fun _ => true;
     write_ok := fun _ => true |}.

(** The page that the build writes in that world. *)
Definition probe_page : str :=
  Eval vm_compute in
    match nth 1 (fst (main (RT := cpython_3_11) probe_world)) (ReadText []) with
    | WriteText _ text => text
    | _ => []
    end.

(** What [quote_plus] writes for one byte, and what it is once the plus
    signs are spaces again. *)
Definition quote_plus_byte (b : N) : str :=
  if b =? 32 then [43] else Urllib.quoter (fun _ => false) b.

Definition quoted_byte (b : N) : str :=
  if b =? 32 then [32] else Urllib.quoter (fun _ => false) b.

(** The characters [quote_plus] writes. *)
Definition is_quoted_char (c : N) : bool :=
  Urllib.is_always_safe c || (c =? 43) || (c =? 37).

(** ** Vocabulary of the further properties *)

(** A text that [strip()] leaves as it is: it has no white space at either
    end. *)
Definition trimmed (s : str) : Prop := strip s = s.

(** The outbound link of a record without [amazon_url]. *)
Definition default_amazon_url (asin : str) : str :=
  py "https://www.amazon.com/dp/" ++ asin.

(** The keys that [load_config] sets when they are absent, each with its
    default, in the order of the calls. *)
Definition config_defaults : list (str * json) :=
  [(py "title", JStr (py "Product shortlist"));
   (py "description", JStr (py "A simple shortlist of products."));
   (py "intro_paragraphs", JList []);
   (py "meta_note", JStr (py ""));
   (py "products", JList [])].

(** The five characters that [esc] replaces. *)
Definition is_html_special (c : N) : bool := (c =? 38) || is_markup c.

(** The calls of the image cache: everything but the reading of the
    configuration and the writing of the two output files. *)
Definition is_image_event (e : event) : bool :=
  match e with
  | Mkdir _ | HttpGet _ | WriteBytes _ _ => true
  | ReadText _ | WriteText _ _ => false
  end.

(** The message [main] exits with when the partner tag is missing. *)
Definition missing_tag_message : str :=
  py "Missing AMZ_PARTNER_TAG (set as GitHub Actions secret).".

(** The partner tag as [main] reads it from the environment. *)
Definition partner_tag_of (w : world) : str :=
  strip (environ_get (environ w) (py "AMZ_PARTNER_TAG") (py "")).

(** The file [cache_image] writes the body of a response to. *)
Definition cached_path {RT : PyRuntime} (asin remote_url : str)
           (content_type : option str) : str :=
  path_str (path_div IMG_DIR (asin ++ _safe_ext remote_url content_type)).

(** Records for the outbound link: an [amazon_url] of white space only, one
    with white space around it, one that is null, none, and a second record
    of an identifier already seen, with another link. *)
Definition link_records : list json :=
  [ JDict [(py "amazon_asin", JStr (py " B001 ")); (py "amazon_url", JStr (py "   "))];
    JDict [(py "amazon_asin", JStr (py "B002"));
           (py "amazon_url", JStr (py " https://example.com/p?x=1 "))];
    JDict [(py "amazon_asin", JStr (py "B003")); (py "amazon_url", JNull)];
    JDict [(py "amazon_asin", JStr (py "B004"))];
    JDict [(py "amazon_asin", JStr (py "B002"));
           (py "amazon_url", JStr (py "https://example.com/other"))] ].

(** A world whose image server answers with a PNG, and in which the file
    of the image cannot be written. *)
Definition png_world (can_write : bool) : world :=
  {| environ := [(py "AMZ_PARTNER_TAG", py "tag123"); (py "CACHE_IMAGES", py "yes")];
     now_utc := {| year := 2026; month := 11; day := 4; hour := 7; minute := 5 |};
     read_json := fun _ =>
       Ok (JDict [(py "products",
                   JList [JDict [(py "amazon_asin", JStr (py "B002"));
                                 (py "image_url", JStr (py "https://img.example.com/b002"))]])]);
     http_get := fun _ => Response 200 [137; 80; 78; 71] (Some (py "image/png"));
     mkdir_ok := fun _ => true;
     write_ok := fun path => can_write || negb (starts_with (py "assets/") path) |}.

(** A world in which nothing can be created or written, and whose
    configuration is what [config] is. *)
Definition readonly_world (tag : str) (config : result json) : world :=
  {| environ := [(py "AMZ_PARTNER_TAG", tag); (py "CACHE_IMAGES", py "1")];
     now_utc := {| year := 2026; month := 11; day := 4; hour := 7; minute := 5 |};
     read_json := fun _ => config;
     http_get := fun _ => GetRaised;
     mkdir_ok := fun _ => false;
     write_ok := fun _ => false |}.

(** The query mapping of [with_affiliate_tag]: the parameters of the query
    string as a dict, with [tag] set. *)
Definition tagged_items (qs tag : str) : list (str * str) :=
  dict_set (dict_of_pairs (Urllib.parse_qsl qs)) (py "tag") tag.

(** The components of a parsed URL with another query string. *)
Definition set_query (c : Urllib.ParseResult) (q : str) : Urllib.ParseResult :=
  {| Urllib.scheme := Urllib.scheme c; Urllib.netloc := Urllib.netloc c;
     Urllib.path := Urllib.path c; Urllib.params := Urllib.params c;
     Urllib.query := q; Urllib.fragment := Urllib.fragment c |}.

(** The keys of a dict, in order. *)
Definition keys {A} (d : list (str * A)) : list str := map fst d.

(** What [urlencode] writes for one item, and what [parse_qsl] reads from
    one piece of the query string. *)
Definition written (kv : str * str) (piece : str) : Prop :=
  exists k' v', Urllib.quote_plus (fst kv) = Ok k' /\ Urllib.quote_plus (snd kv) = Ok v' /\
                piece = k' ++ [61] ++ v'.

Definition read_piece (name_value : str) : list (str * str) :=
  if is_empty name_value then []
  else
    let (n, v) :=
      match cut 61 name_value with
      | Some (a, b) => (a, b)
      | None => (name_value, [])
      end in
    [(Urllib.unquote (replace [43] [32] n), Urllib.unquote (replace [43] [32] v))].

(** *** The steps of [urlsplit], one by one *)

(** The URL once its leading control characters and spaces are stripped and
    its tabs and line ends are removed. *)
Definition sanitize (url : str) : str :=
  fold_left (fun u b => replace [b] [] u) Urllib._UNSAFE_URL_BYTES_TO_REMOVE
            (lstrip_of Urllib.is_c0_control_or_space url).

(** The scheme and what follows its colon. *)
Definition split_scheme {RT : PyRuntime} (url : str) : str * str :=
  match cut 58 url with
  | Some (c :: pre, post) =>
      if is_ascii c && is_ascii_alpha c && forallb Urllib.is_scheme_char (c :: pre)
      then (lower (c :: pre), post)
      else ([], url)
  | _ => ([], url)
  end.

(** The authority and what follows it. *)
Definition split_authority {RT : PyRuntime} (url : str) : result (str * str) :=
  if starts_with [47; 47] url then
    let (netloc, url) := Urllib._splitnetloc url in
    if (has_char 91 netloc && negb (has_char 93 netloc))
       || (has_char 93 netloc && negb (has_char 91 netloc))
    then Raise ValueError
    else if has_char 91 netloc && has_char 93 netloc
            && negb (check_bracketed_netloc netloc)
    then Raise ValueError
    else Ok (netloc, url)
  else Ok ([], url).

(** The path, the query and the fragment of what follows the authority. *)
Definition split_tail (url : str) : str * str * str :=
  let '(url, fragment) :=
    match cut 35 url with Some (a, b) => (a, b) | None => (url, []) end in
  let '(url, query) :=
    match cut 63 url with Some (a, b) => (a, b) | None => (url, []) end in
  (url, query, fragment).

(** The path and the parameters of its last segment, for a scheme. *)
Definition split_params (scheme url : str) : str * str :=
  if mem scheme Urllib.uses_params && has_char 59 url then Urllib._splitparams url
  else (url, []).

(** A character that [urlsplit] keeps: no tab, no line end. *)
Definition is_kept (c : N) : bool := negb ((c =? 9) || (c =? 13) || (c =? 10)).

(** A scheme as [urlsplit] returns it: empty, or a letter followed by
    letters, digits, [+], [-] and [.], all of them in lower case. *)
Definition scheme_ok (scheme : str) : bool :=
  match scheme with
  | [] => true
  | c :: _ =>
      is_ascii_alpha c && forallb Urllib.is_scheme_char scheme
      && negb (existsb is_ascii_upper scheme)
  end.

(** An authority as [urlsplit] accepts it. *)
Definition netloc_ok {RT : PyRuntime} (netloc : str) : bool :=
  forallb (fun c => negb (Urllib.is_netloc_delim c)) netloc
  && forallb is_kept netloc
  && negb ((has_char 91 netloc && negb (has_char 93 netloc))
           || (has_char 93 netloc && negb (has_char 91 netloc)))
  && negb (has_char 91 netloc && has_char 93 netloc
           && negb (check_bracketed_netloc netloc))
  && Urllib._checknetloc netloc.

(** A query string as [urlencode] writes it. *)
Definition is_query_char (c : N) : bool :=
  is_quoted_char c || (c =? 61) || (c =? 38).

(** The path with its parameters, as [urlunparse] joins them. *)
Definition path_with_params (path params : str) : str :=
  if negb (is_empty params) then path ++ [59] ++ params else path.

(** The URL that [urlunparse] builds from components that have an
    authority and whose path, when it is not empty, begins with a slash. *)
Definition url_with_authority (scheme netloc url query fragment : str) : str :=
  (if is_empty scheme then [] else scheme ++ [58])
  ++ 47 :: 47 :: netloc ++ url
  ++ (if is_empty query then [] else 63 :: query)
  ++ (if is_empty fragment then [] else 35 :: fragment).

(** Whether [urlsplit] finds a scheme at the head of a URL: a colon, and
    before it a letter followed by letters, digits, [+], [-] and [.]. *)
Definition has_scheme (url : str) : bool :=
  match cut 58 url with
  | Some (c :: pre, _) =>
      is_ascii c && is_ascii_alpha c && forallb Urllib.is_scheme_char (c :: pre)
  | _ => false
  end.

(** The two slashes that [urlunsplit] (since CPython 3.12.4) writes before
    the path of a URL without authority: where the path itself begins with
    two slashes, and where the scheme is one that takes an authority and the
    path is empty or begins with a slash. *)
Definition authority_mark (scheme url : str) : str :=
  if starts_with [47; 47] url then [47; 47]
  else if negb (is_empty scheme) && mem scheme Urllib.uses_netloc
          && (is_empty url || starts_with [47] url)
  then [47; 47]
  else [].

(** The URL that this [urlunsplit] builds from components without
    authority. *)
Definition url_without_authority (scheme url query fragment : str) : str :=
  (if is_empty scheme then [] else scheme ++ [58])
  ++ authority_mark scheme url ++ url
  ++ (if is_empty query then [] else 63 :: query)
  ++ (if is_empty fragment then [] else 35 :: fragment).

(** CPython 3.13 for the examples: as [cpython_3_11], with the [urlunsplit]
    that the library has since 3.12.4. *)
Definition cpython_3_13 : PyRuntime :=
  {| py_repr := fun _ => [];
     lower_unicode := fun s => s;
     check_bracketed_netloc := fun _ => true;
     checknetloc_nfkc := fun _ => true;
     legacy_urlunsplit := false |}.

(** A character of a JSON document written with [ensure_ascii] and an
    indentation: a printable ASCII character or a line end. *)
Definition is_json_text_char (c : N) : bool :=
  (c =? 10) || ((32 <=? c) && (c <=? 126)).

(** A JSON value made of texts, nulls, booleans, lists and objects. *)
Fixpoint is_textual (v : json) : bool :=
  match v with
  | JNull | JBool _ | JStr _ => true
  | JInt _ | JFloat _ _ => false
  | JList l => forallb is_textual l
  | JDict d => forallb (fun kv => is_textual (snd kv)) d
  end.

(** The document that [main] writes to [products.json]. *)
Definition products_document (products : list product) (updated title : str) : json :=
  JDict [(py "products", JList (map product_dict products));
         (py "updated", JStr updated);
         (py "title", JStr title)].

(** The link of the action of a card. *)
Definition action_link (url : str) : str :=
  pyq "<a class=`btn` href=`" ++ esc url
  ++ pyq "` rel=`nofollow sponsored`>Check price on Amazon</a>".

(** A world whose image server answers with a PNG and whose configuration
    has one product with an image and, for [intro_paragraphs], a null. *)
Definition bad_intro_world : world :=
  {| environ := [(py "AMZ_PARTNER_TAG", py "tag123"); (py "CACHE_IMAGES", py "1")];
     now_utc := {| year := 2026; month := 11; day := 4; hour := 7; minute := 5 |};
     read_json := fun _ =>
       Ok (JDict [(py "intro_paragraphs", JNull);
                  (py "products",
                   JList [JDict [(py "amazon_asin", JStr (py "B002"));
                                 (py "image_url", JStr (py "https://img.example.com/b002"))]])]);
     http_get := fun _ => Response 200 [137; 80; 78; 71] (Some (py "image/png"));
     mkdir_ok := fun _ => true;
     write_ok := fun _ => true |}.

(** Whether [str.encode("utf-8")] accepts a text: it refuses a lone
    surrogate. *)
Definition encodable (s : str) : bool :=
  match Utf8.encode s with
  | Some _ => true
  | None => false
  end.

(** What [cfg.get(key)] gives in [main] for the document [d] of the
    configuration file, [default] being what [load_config] sets for a key
    that the document does not have. *)
Definition config_entry (d : list (str * json)) (key : str) (default : json) : json :=
  match lookup key d with
  | Some v => v
  | None => default
  end.

(** The page and the JSON document of a build: for the document [d] of the
    configuration file, the intro block, the cards and the normalized
    products. *)
Definition index_html {RT : PyRuntime} (w : world) (d : list (str * json))
           (intro : str) (cards : list str) : str :=
  page (esc (resolved_title d)) (esc (resolved_description d))
       (esc (resolved_title d)) intro (strftime (now_utc w)) (join [10] cards).

Definition products_json {RT : PyRuntime} (w : world) (d : list (str * json))
           (products : list product) : str :=
  dumps (products_document products (strftime (now_utc w)) (resolved_title d)).

(** A world whose configuration has no product and, for its title, a lone
    surrogate, which JSON writes [\ud83d]; every file can be written. *)
Definition surrogate_world : world :=
  {| environ := [(py "AMZ_PARTNER_TAG", py "tag123")];
     now_utc := {| year := 2026; month := 11; day := 4; hour := 7; minute := 5 |};
     read_json := fun _ => Ok (JDict [(py "title", JStr [55357])]);
     http_get := fun _ => GetRaised;
     mkdir_ok := fun _ => true;
     write_ok := fun _ => true |}.

(** A value whose text, trimmed, is empty: [build_intro] shows no line for
    it. *)
Definition is_blank {RT : PyRuntime} (v : json) : bool :=
  is_empty (strip (py_str v)).

(** The markup characters of an intro block of so many paragraphs, with or
    without the line of the meta note: those of its tags. *)
Definition intro_markup (paragraphs : nat) (note : bool) : str :=
  List.concat (repeat (markup_of (py "<p></p>")) paragraphs)
  ++ (if note then markup_of (pyq "<p class=`meta`></p>") else []).

(** A file name whose components between slashes are all plain: none is
    empty and none is a single dot, so that [pathlib] keeps the name as it
    is written.  A name that begins with a slash is not plain. *)
Definition plain_name (s : str) : bool :=
  forallb (fun c => negb (is_empty c) && negb (str_eqb c [46])) (split_char 47 s).

(* ================================================================== *)
(** * Part 2: lemmas and theorems *)
(* ================================================================== *)

(** The literals of the script are not unfolded by the tactics; where a
    literal has to be computed, the proofs say so. *)
Lemma py_empty : py "" = [].
Proof. reflexivity. Qed.

Opaque py pyq.

(** Splits the conjunctions of the goal, and nothing else. *)
Ltac split_all := repeat match goal with |- _ /\ _ => split end.

(** ** Strings *)

Lemma str_eqb_eq (a b : str) : str_eqb a b = true <-> a = b.
Proof.
  unfold str_eqb. destruct (list_eq_dec N.eq_dec a b); split; congruence.
Qed.

Lemma str_eqb_refl (a : str) : str_eqb a a = true.
Proof. now apply str_eqb_eq. Qed.

Lemma str_eqb_neq (a b : str) : str_eqb a b = false <-> a <> b.
Proof.
  unfold str_eqb. destruct (list_eq_dec N.eq_dec a b); split; congruence.
Qed.

Lemma str_eqb_sym (a b : str) : str_eqb a b = str_eqb b a.
Proof.
  destruct (str_eqb b a) eqn:E.
  - apply str_eqb_eq in E. subst. apply str_eqb_refl.
  - apply str_eqb_neq in E. apply str_eqb_neq. congruence.
Qed.

Lemma mem_In (x : str) (l : list str) : mem x l = true <-> In x l.
Proof.
  unfold mem. rewrite existsb_exists. split.
  - intros [y [Hy E]]. apply str_eqb_eq in E. now subst.
  - intros H. exists x. split; [assumption | apply str_eqb_refl].
Qed.

Lemma mem_not_In (x : str) (l : list str) : mem x l = false <-> ~ In x l.
Proof.
  rewrite <- mem_In. destruct (mem x l); split; congruence.
Qed.

Lemma is_empty_nil {A} (l : list A) : is_empty l = true <-> l = [].
Proof. destruct l; simpl; split; congruence. Qed.

Lemma is_empty_false {A} (l : list A) : is_empty l = false <-> l <> [].
Proof. destruct l; simpl; split; congruence. Qed.

Lemma has_char_In (c : N) (s : str) : has_char c s = true <-> In c s.
Proof.
  unfold has_char. rewrite existsb_exists. split.
  - intros [y [Hy E]]. apply N.eqb_eq in E. now subst.
  - intros H. exists c. split; [assumption | apply N.eqb_refl].
Qed.

Lemma has_char_app (c : N) (a b : str) :
  has_char c (a ++ b) = has_char c a || has_char c b.
Proof. unfold has_char. apply existsb_app. Qed.

(** *** Stripping *)

Lemma lstrip_of_all (f : N -> bool) (s : str) :
  forallb f s = true -> lstrip_of f s = [].
Proof.
  induction s as [|c s IH]; simpl; [reflexivity|].
  intros H. apply andb_true_iff in H as [Hc Hs]. rewrite Hc. auto.
Qed.

Lemma lstrip_of_head (f : N -> bool) (s : str) :
  match lstrip_of f s with
  | [] => True
  | c :: _ => f c = false
  end.
Proof.
  induction s as [|c s IH]; simpl; [exact I|].
  destruct (f c) eqn:E; [exact IH | exact E].
Qed.

Lemma lstrip_of_fix (f : N -> bool) (s : str) :
  match s with [] => True | c :: _ => f c = false end ->
  lstrip_of f s = s.
Proof. destruct s as [|c s]; simpl; [reflexivity|]. now intros ->. Qed.

Lemma lstrip_of_decompose (f : N -> bool) (s : str) :
  exists w, s = w ++ lstrip_of f s /\ forallb f w = true.
Proof.
  induction s as [|c s [w [E Hw]]]; simpl.
  - exists []. split; reflexivity.
  - destruct (f c) eqn:Hc.
    + exists (c :: w). simpl. rewrite Hc, Hw. split; [now f_equal | reflexivity].
    + exists []. split; reflexivity.
Qed.

Lemma lstrip_of_idem (f : N -> bool) (s : str) :
  lstrip_of f (lstrip_of f s) = lstrip_of f s.
Proof. apply lstrip_of_fix, lstrip_of_head. Qed.

(** What [rstrip] leaves starts as the string it was given starts. *)
Lemma rstrip_of_head (f : N -> bool) (s : str) :
  match s with [] => True | c :: _ => f c = false end ->
  match rstrip_of f s with [] => True | c :: _ => f c = false end.
Proof.
  unfold rstrip_of. intros Hs.
  destruct (lstrip_of_decompose f (rev s)) as [w [E Hw]].
  assert (Es : s = rev (lstrip_of f (rev s)) ++ rev w).
  { rewrite <- rev_app_distr, <- E. now rewrite rev_involutive. }
  destruct (rev (lstrip_of f (rev s))) as [|c r] eqn:R; [exact I|].
  rewrite Es in Hs. exact Hs.
Qed.

Lemma rstrip_of_idem (f : N -> bool) (s : str) :
  rstrip_of f (rstrip_of f s) = rstrip_of f s.
Proof.
  unfold rstrip_of. rewrite rev_involutive. now rewrite lstrip_of_idem.
Qed.

(** A stripped string is stripped: it has no white space at either end. *)
Lemma strip_idem (s : str) : strip (strip s) = strip s.
Proof.
  unfold strip.
  rewrite (lstrip_of_fix isspace (rstrip_of isspace (lstrip_of isspace s))).
  - apply rstrip_of_idem.
  - apply rstrip_of_head, lstrip_of_head.
Qed.

Lemma strip_blank (s : str) : forallb isspace s = true -> strip s = [].
Proof. intros H. unfold strip. now rewrite lstrip_of_all. Qed.

Lemma strip_nil_blank (s : str) : strip s = [] -> forallb isspace s = true.
Proof.
  unfold strip, rstrip_of. intros H.
  destruct (lstrip_of_decompose isspace s) as [w [E Hw]].
  destruct (lstrip_of_decompose isspace (rev (lstrip_of isspace s))) as [w' [E' Hw']].
  apply (f_equal (@rev N)) in H. rewrite rev_involutive in H. simpl in H.
  rewrite H, app_nil_r in E'.
  rewrite E, forallb_app, Hw. simpl.
  apply (f_equal (@rev N)) in E'. rewrite rev_involutive in E'. rewrite E'.
  rewrite forallb_forall in *. intros x Hx. apply Hw'. now apply in_rev.
Qed.

(** ** The error monad *)

Lemma bind_Ok {A B} (r : result A) (k : A -> result B) (b : B) :
  bind r k = Ok b -> exists a, r = Ok a /\ k a = Ok b.
Proof. destruct r as [a|e]; simpl; [eauto | discriminate]. Qed.

Ltac bind_inv H :=
  let a := fresh "x" in
  let Ha := fresh "Hx" in
  apply bind_Ok in H; destruct H as [a [Ha H]].

Ltac bind_named H a :=
  let Ha := fresh "H" a in
  apply bind_Ok in H; destruct H as [a [Ha H]].

(** ** Product Normalizer *)

Section Normalizer.

Context {RT : PyRuntime}.

Lemma first_occurrences_filter (a : str) (l : list str) :
  filter (fun y => negb (str_eqb y a)) (first_occurrences l)
  = first_occurrences (filter (fun y => negb (str_eqb y a)) l).
Proof.
  induction l as [|x l IH]; simpl; [reflexivity|].
  destruct (str_eqb x a) eqn:E; simpl.
  - apply str_eqb_eq in E. subst x. rewrite <- IH.
    clear IH. induction (first_occurrences l) as [|y r IHr]; simpl; [reflexivity|].
    destruct (str_eqb y a) eqn:F; simpl; [assumption|].
    rewrite F. simpl. now f_equal.
  - f_equal. rewrite <- IH.
    clear IH. induction (first_occurrences l) as [|y r IHr]; simpl; [reflexivity|].
    destruct (str_eqb y x) eqn:F, (str_eqb y a) eqn:G; simpl;
      rewrite ?F, ?G; simpl; rewrite ?IHr; reflexivity.
Qed.

Lemma first_occurrences_In (l : list str) (x : str) :
  In x (first_occurrences l) <-> In x l.
Proof.
  induction l as [|y l IH]; simpl; [tauto|].
  rewrite filter_In, IH. split.
  - intros [H | [H _]]; auto.
  - intros [H | H]; [auto|].
    destruct (str_eqb x y) eqn:E.
    + apply str_eqb_eq in E. auto.
    + right. split; [assumption | reflexivity].
Qed.

Lemma first_occurrences_NoDup (l : list str) : NoDup (first_occurrences l).
Proof.
  induction l as [|x l IH]; simpl; constructor.
  - rewrite filter_In. intros [_ H]. now rewrite str_eqb_refl in H.
  - now apply NoDup_filter.
Qed.

Lemma normalized_record_asin (it : json) (a : str) (p : product) :
  normalized_record it a = Ok p -> asin p = a.
Proof.
  unfold normalized_record. intros H.
  repeat bind_inv H. inversion H. reflexivity.
Qed.

Lemma normalize_loop_step (it : json) (rest : list json) (out : list product)
      (seen : list str) :
  normalize_loop (it :: rest) out seen =
  (a <- asin_of it ;;
   if is_empty a || mem a seen then normalize_loop rest out seen
   else p <- normalized_record it a ;;
        normalize_loop rest (out ++ [p]) (a :: seen)).
Proof.
  unfold asin_of. simpl.
  destruct (py_get it (py "amazon_asin")); reflexivity.
Qed.

(** The keys the loop emits, in terms of the trimmed identifiers it reads. *)
Lemma normalize_loop_keys (items : list json) :
  forall out seen res,
    normalize_loop items out seen = Ok res ->
    exists keys,
      map asin_of items = map Ok keys /\
      map asin res =
        map asin out ++
        first_occurrences
          (filter (fun k => negb (is_empty k) && negb (mem k seen)) keys).
Proof.
  induction items as [|it rest IH]; intros out seen res H.
  - simpl in H. inversion H. exists []. simpl. now rewrite app_nil_r.
  - rewrite normalize_loop_step in H. bind_inv H. rename x into a.
    destruct (is_empty a || mem a seen) eqn:E.
    + apply IH in H as [keys [Hk Hr]]. exists (a :: keys). simpl.
      rewrite Hx, Hk. split; [reflexivity|].
      apply orb_true_iff in E.
      replace (negb (is_empty a) && negb (mem a seen)) with false
        by (destruct E as [-> | ->]; simpl; auto using andb_false_r).
      exact Hr.
    + bind_inv H. rename x into p.
      apply IH in H as [keys [Hk Hr]]. exists (a :: keys). simpl.
      rewrite Hx, Hk. split; [reflexivity|].
      apply orb_false_iff in E as [E1 E2]. rewrite E1, E2. simpl.
      rewrite Hr, map_app. simpl. rewrite <- app_assoc. simpl.
      rewrite (normalized_record_asin _ _ _ Hx0).
      do 2 f_equal. rewrite first_occurrences_filter. f_equal.
      clear. induction keys as [|k keys IHk]; simpl; [reflexivity|].
      destruct (is_empty k), (mem k seen), (str_eqb k a) eqn:F; simpl;
        rewrite ?F; simpl; rewrite ?IHk; reflexivity.
Qed.

(** Every product the loop adds is the normalized form of one of the
    records it read. *)
Lemma normalize_loop_sound (items : list json) :
  forall out seen res,
    normalize_loop items out seen = Ok res ->
    forall p, In p res ->
      In p out \/
      exists it, In it items /\ asin_of it = Ok (asin p) /\
                 normalized_record it (asin p) = Ok p.
Proof.
  induction items as [|it rest IH]; intros out seen res H p Hp.
  - simpl in H. inversion H. subst. now left.
  - rewrite normalize_loop_step in H. bind_inv H. rename x into a.
    destruct (is_empty a || mem a seen).
    + destruct (IH _ _ _ H p Hp) as [Ho | [it' [Hi Hr]]]; [now left|].
      right. exists it'. split; [now right | assumption].
    + bind_inv H. rename x into q.
      destruct (IH _ _ _ H p Hp) as [Ho | [it' [Hi Hr]]].
      * apply in_app_or in Ho as [Ho | [Ho | []]]; [now left|].
        subst q. right. exists it.
        rewrite (normalized_record_asin _ _ _ Hx0).
        split; [now left | split; assumption].
      * right. exists it'. split; [now right | assumption].
Qed.

(** A record whose identifier is empty, already seen, or the identifier of
    an earlier record changes nothing, whatever precedes and follows it. *)
Lemma normalize_loop_skip (pre : list json) :
  forall it post a out seen,
    asin_of it = Ok a ->
    (a = [] \/ In a seen \/ exists it', In it' pre /\ asin_of it' = Ok a) ->
    normalize_loop (pre ++ it :: post) out seen
    = normalize_loop (pre ++ post) out seen.
Proof.
  induction pre as [|x pre IH]; intros it post a out seen Ha Hc.
  - simpl app. rewrite normalize_loop_step, Ha. simpl.
    replace (is_empty a || mem a seen) with true; [reflexivity|].
    symmetry. apply orb_true_iff.
    destruct Hc as [-> | [Hc | [it' [[] _]]]]; [now left|].
    right. now apply mem_In.
  - simpl app. rewrite !normalize_loop_step.
    destruct (asin_of x) as [b|e] eqn:Hb; simpl; [|reflexivity].
    destruct (is_empty b || mem b seen) eqn:E.
    + apply (IH it post a out seen Ha).
      destruct Hc as [Hc | [Hc | [it' [[-> | Hi] Hi']]]]; auto.
      * rewrite Hb in Hi'. inversion Hi'. subst b.
        apply orb_true_iff in E as [E | E].
        -- left. now apply is_empty_nil.
        -- right. left. now apply mem_In.
      * right. right. eauto.
    + destruct (normalized_record x b) as [p|e]; simpl; [|reflexivity].
      apply (IH it post a (out ++ [p]) (b :: seen) Ha).
      destruct Hc as [Hc | [Hc | [it' [[-> | Hi] Hi']]]]; auto.
      * right. left. now right.
      * rewrite Hb in Hi'. inversion Hi'. right. left. now left.
      * right. right. eauto.
Qed.

Lemma text_field_ok_strip (d : list (str * json)) (key : str) (default : str) :
  text_field_ok d key = true ->
  exists s, (v <- py_get (JDict d) key ;; py_strip (py_or v (JStr default))) = Ok s.
Proof.
  unfold text_field_ok, py_or. simpl.
  destruct (lookup key d) as [v|]; simpl; [|eauto].
  destruct v; simpl; intros H; try (apply negb_true_iff in H; simpl in H);
    try rewrite H; simpl; eauto; try discriminate.
  destruct (negb (is_empty s)); simpl; eauto.
Qed.

(** On records of the specification the loop raises nothing. *)
Lemma normalize_loop_total (items : list json) :
  forallb record_ok items = true ->
  forall out seen, exists res, normalize_loop items out seen = Ok res.
Proof.
  induction items as [|it rest IH]; intros Hok out seen; simpl in Hok.
  - exists out. reflexivity.
  - apply andb_true_iff in Hok as [Hit Hrest].
    destruct it as [| | | | |l|d]; try discriminate.
    unfold record_ok in Hit. simpl in Hit.
    repeat (apply andb_true_iff in Hit; destruct Hit as [?H Hit]).
    rewrite normalize_loop_step. unfold asin_of.
    destruct (text_field_ok_strip d (py "amazon_asin") (py "") H) as [a Ea].
    rewrite Ea. simpl.
    destruct (is_empty a || mem a seen); [now apply IH|].
    unfold normalized_record.
    destruct (text_field_ok_strip d (py "product_name") (py "") H0) as [s1 E1].
    destruct (text_field_ok_strip d (py "description") (py "") H1) as [s2 E2].
    destruct (text_field_ok_strip d (py "image_url") (py "") H2) as [s3 E3].
    destruct (text_field_ok_strip d (py "amazon_url")
                (py "https://www.amazon.com/dp/" ++ a) H3) as [s4 E4].
    simpl in E1, E2, E3, E4 |- *.
    inversion E1 as [E1']. inversion E2 as [E2']. inversion E3 as [E3'].
    inversion E4 as [E4'].
    rewrite E1', E2', E3', E4'. simpl. apply IH. assumption.
Qed.

End Normalizer.


Section NormalizerTheorems.

Context {RT : PyRuntime}.

(** C1. For every list of raw product records [normalize_products] returns a
    list: it raises nothing on records whose text fields hold text.  In the
    list it returns no two entries have the same [asin], and the identifiers
    are the non-empty trimmed [amazon_asin] values of the input in the order
    of their first occurrence.  A record whose trimmed [amazon_asin] is
    empty, or is the [asin] of a record emitted before it, is skipped: the
    result, value or exception, is the one of the input without that
    record. *)
Theorem normalize_products_unique_in_order (items : list json) :
  (forallb record_ok items = true ->
   exists out, normalize_products items = Ok out) /\
  (forall out, normalize_products items = Ok out ->
     NoDup (map asin out) /\
     exists keys,
       map asin_of items = map Ok keys /\
       map asin out
       = first_occurrences (filter (fun k => negb (is_empty k)) keys)) /\
  (forall pre it post a,
     items = pre ++ it :: post ->
     asin_of it = Ok a ->
     (a = [] \/
      exists emitted, normalize_products pre = Ok emitted /\
                      In a (map asin emitted)) ->
     normalize_products items = normalize_products (pre ++ post)).
Proof.
  unfold normalize_products. split; [|split].
  - intros H. now apply normalize_loop_total.
  - intros out H.
    destruct (normalize_loop_keys _ _ _ _ H) as [keys [Hk Hr]].
    simpl in Hr.
    assert (E : map asin out
                = first_occurrences (filter (fun k => negb (is_empty k)) keys)).
    { rewrite Hr. f_equal. apply filter_ext. intros k.
      now rewrite andb_true_r. }
    split.
    + rewrite E. apply first_occurrences_NoDup.
    + exists keys. split; assumption.
  - intros pre it post a -> Ha Hc.
    apply (normalize_loop_skip pre it post a [] [] Ha).
    destruct Hc as [Hc | [emitted [He Hin]]]; [now left|].
    right. right.
    apply in_map_iff in Hin as [p [Hp Hin]].
    destruct (normalize_loop_sound _ _ _ _ He p Hin) as [[] | [it' [Hi [Hi' _]]]].
    exists it'. rewrite Hp in Hi'. split; assumption.
Qed.

Lemma map_filter_comm {A B} (f : A -> B) (g : B -> bool) (l : list A) :
  map f (filter (fun x => g (f x)) l) = filter g (map f l).
Proof.
  induction l as [|x l IH]; simpl; [reflexivity|].
  destruct (g (f x)); simpl; now rewrite IH.
Qed.

Lemma normalize_best_for_list (l : list json) :
  normalize_best_for (JList l)
  = firstn 2 (filter (fun t => negb (is_empty t))
                     (map (fun x => strip (py_str x)) l)).
Proof.
  unfold normalize_best_for.
  replace (py_or (JList l) (JList [])) with (JList l)
    by (destruct l; reflexivity).
  cbv beta iota zeta. apply f_equal.
  apply (map_filter_comm (fun x => strip (py_str x))
                         (fun t => negb (is_empty t))).
Qed.

Lemma normalize_best_for_cases (v : json) :
  normalize_best_for v =
  match v with
  | JStr s => if is_empty (strip s) then [] else [strip s]
  | JList l => firstn 2 (filter (fun t => negb (is_empty t))
                                (map (fun x => strip (py_str x)) l))
  | _ => []
  end.
Proof.
  destruct v as [|b|z|nz r|s|l|d]; try reflexivity.
  - unfold normalize_best_for, py_or. simpl. now destruct b.
  - unfold normalize_best_for, py_or. simpl. now destruct (Z.eqb z 0).
  - unfold normalize_best_for, py_or. simpl. now destruct nz.
  - unfold normalize_best_for, py_or. simpl.
    destruct s as [|c s]; [reflexivity|]. simpl.
    destruct (is_empty (strip (c :: s))); reflexivity.
  - apply normalize_best_for_list.
  - unfold normalize_best_for, py_or. simpl. now destruct d.
Qed.

Lemma firstn_Forall {A} (P : A -> Prop) (n : nat) (l : list A) :
  Forall P l -> Forall P (firstn n l).
Proof.
  intros H. revert n. induction H; intros [|n]; simpl; constructor; auto.
Qed.

Lemma join_nil_concat (l : list str) : join [] l = List.concat l.
Proof.
  induction l as [|t l IH]; [reflexivity|].
  destruct l as [|u l]; [simpl; now rewrite app_nil_r|].
  change (join [] (t :: u :: l)) with (t ++ [] ++ join [] (u :: l)).
  rewrite IH. reflexivity.
Qed.

Lemma tags_html_concat (tags : list str) :
  tags_html tags =
  if is_empty tags then []
  else pyq "<div class=`tags`>" ++ List.concat (map tag_pill (firstn 2 tags))
       ++ py "</div>".
Proof.
  unfold tags_html. destruct (is_empty tags); [reflexivity|].
  rewrite join_nil_concat. reflexivity.
Qed.

(** C7. The normalized [best_for] of every record has at most 2 elements,
    each a non-empty trimmed string.  A single string is taken as the
    one-element list of it, a value that is neither a string nor a list as
    the empty list; of a list the text of each element is trimmed, the
    non-empty ones are kept, and the first 2 of them remain.  Every product
    that [normalize_products] emits carries the [best_for] so computed from
    one of the records.  The tag-pill row is empty when there is no tag, and
    otherwise holds one pill for each of the first 2 tags. *)
Theorem best_for_at_most_two :
  (forall v,
     (List.length (normalize_best_for v) <= 2)%nat /\
     Forall (fun t => t <> [] /\ strip t = t) (normalize_best_for v)) /\
  (forall s,
     normalize_best_for (JStr s) = normalize_best_for (JList [JStr s])) /\
  (forall v,
     (forall s, v <> JStr s) -> (forall l, v <> JList l) ->
     normalize_best_for v = []) /\
  (forall l,
     normalize_best_for (JList l)
     = firstn 2 (filter (fun t => negb (is_empty t))
                        (map (fun x => strip (py_str x)) l))) /\
  (forall ss,
     normalize_best_for (JList (map JStr ss))
     = firstn 2 (filter (fun t => negb (is_empty t)) (map strip ss))) /\
  (forall items out p,
     normalize_products items = Ok out -> In p out ->
     exists it v, In it items /\ py_get it (py "best_for") = Ok v /\
                  best_for p = normalize_best_for v) /\
  (forall tags,
     tags_html tags =
     if is_empty tags then []
     else pyq "<div class=`tags`>" ++ List.concat (map tag_pill (firstn 2 tags))
          ++ py "</div>") /\
  (forall tags : list str,
     List.length (map tag_pill (firstn 2 tags)) = Nat.min 2 (List.length tags)) /\
  (forall tags, tags_html tags = [] <-> tags = []).
Proof.
  repeat split.
  - rewrite normalize_best_for_cases.
    destruct v as [| | | |s|l|]; try (simpl; lia).
    + destruct (is_empty (strip s)); simpl; lia.
    + rewrite length_firstn. lia.
  - rewrite normalize_best_for_cases.
    assert (K : forall l : list str,
               Forall (fun t => t <> [] /\ strip t = t)
                      (filter (fun t => negb (is_empty t))
                              (map strip l))).
    { intros l. apply Forall_forall. intros t Ht.
      apply filter_In in Ht as [Ht Hne]. apply in_map_iff in Ht as [x [<- _]].
      split; [|apply strip_idem].
      apply negb_true_iff, is_empty_false in Hne. exact Hne. }
    destruct v; try constructor.
    + destruct (is_empty (strip s)) eqn:E; constructor; [|constructor].
      split; [now apply is_empty_false | apply strip_idem].
    + apply firstn_Forall. rewrite <- (map_map py_str strip). apply K.
  - intros s. rewrite !normalize_best_for_cases. simpl.
    destruct (is_empty (strip s)); reflexivity.
  - intros v Hs Hl. rewrite normalize_best_for_cases.
    destruct v; try reflexivity; [now destruct (Hs s) | now destruct (Hl l)].
  - apply normalize_best_for_list.
  - intros ss. rewrite normalize_best_for_list. now rewrite map_map.
  - intros items out p H Hp. unfold normalize_products in H.
    destruct (normalize_loop_sound _ _ _ _ H p Hp) as [[] | [it [Hi [_ Hr]]]].
    unfold normalized_record in Hr. bind_inv Hr. rename x into v.
    repeat bind_inv Hr. inversion Hr. simpl.
    exists it, v. repeat split; assumption.
  - apply tags_html_concat.
  - intros tags. rewrite length_map, length_firstn. reflexivity.
  - rewrite tags_html_concat. destruct tags; [reflexivity | discriminate].
  - intros ->. reflexivity.
Qed.

(** C10. Every product that [normalize_products] emits has a non-empty
    [name], and is the normalized form of one of the records; the normalized
    form of a record whose [product_name] is absent, null, empty or white
    space only has the name [Product]. *)
Theorem normalize_name_nonempty :
  (forall items out p,
     normalize_products items = Ok out -> In p out ->
     name p <> [] /\
     exists it, In it items /\ normalized_record it (asin p) = Ok p) /\
  (forall it a p,
     normalized_record it a = Ok p -> name_is_blank it ->
     name p = py "Product").
Proof.
  assert (K : forall it a p, normalized_record it a = Ok p ->
              exists v s, py_get it (py "product_name") = Ok v /\
                          py_strip (py_or v (JStr (py ""))) = Ok s /\
                          name p = if is_empty s then py "Product" else s).
  { intros it a p H. unfold normalized_record in H.
    bind_named H bf. bind_named H v. bind_named H s.
    repeat bind_inv H. inversion H. simpl. eauto. }
  split.
  - intros items out p H Hp. unfold normalize_products in H.
    destruct (normalize_loop_sound _ _ _ _ H p Hp) as [[] | [it [Hi [_ Hr]]]].
    split; [|eauto].
    destruct (K _ _ _ Hr) as [v [s [_ [_ ->]]]].
    destruct (is_empty s) eqn:E; [discriminate | now apply is_empty_false].
  - intros it a p H [v [Hv Hb]].
    destruct (K _ _ _ H) as [v' [s [Hv' [Hs ->]]]].
    rewrite Hv in Hv'. inversion Hv'. subst v'.
    destruct Hb as [-> | [t [-> Ht]]].
    + simpl in Hs. inversion Hs. reflexivity.
    + unfold py_or in Hs. simpl in Hs.
      destruct (negb (is_empty t)); simpl in Hs; inversion Hs;
        [now rewrite strip_blank | reflexivity].
Qed.

End NormalizerTheorems.

Lemma normalize_products_unique_in_order_witness :
  exists out,
    normalize_products (RT := cpython_3_11) sample_records = Ok out /\
    map asin out = [py "B001"; py "B002"] /\
    NoDup (map asin out) /\
    normalize_products (RT := cpython_3_11) sample_records
    = normalize_products (RT := cpython_3_11)
        (firstn 2 sample_records ++ skipn 3 sample_records).
Proof.
  destruct (normalize_products_unique_in_order (RT := cpython_3_11) sample_records)
    as [Htotal [Hunique Hskip]].
  destruct (Htotal eq_refl) as [out E].
  exists out. split; [exact E|].
  destruct (Hunique out E) as [Hnd _].
  split; [|split].
  - vm_compute in E. inversion E. reflexivity.
  - exact Hnd.
  - apply (Hskip (firstn 2 sample_records) (nth 2 sample_records JNull)
                 (skipn 3 sample_records) (py "B001")).
    + reflexivity.
    + reflexivity.
    + right. eexists. split; [reflexivity|]. left. reflexivity.
Defined.

Lemma best_for_at_most_two_witness :
  exists out,
    normalize_products (RT := cpython_3_11) sample_records = Ok out /\
    map best_for out = [[py "Home"; py "7"]; [py "Office"]] /\
    Forall (fun p => exists it v,
              In it sample_records /\ py_get it (py "best_for") = Ok v /\
              best_for p = normalize_best_for (RT := cpython_3_11) v) out.
Proof.
  eexists. split; [reflexivity|]. split; [reflexivity|].
  apply Forall_forall. intros p Hp.
  destruct (best_for_at_most_two (RT := cpython_3_11))
    as [_ [_ [_ [_ [_ [H _]]]]]].
  apply (H sample_records _ p eq_refl Hp).
Defined.

Lemma normalize_name_nonempty_witness :
  exists out,
    normalize_products (RT := cpython_3_11) sample_records = Ok out /\
    map name out = [py "Product"; py "Product"] /\
    Forall (fun p => name p <> []) out.
Proof.
  eexists. split; [reflexivity|]. split; [reflexivity|].
  apply Forall_forall. intros p Hp.
  destruct (normalize_name_nonempty (RT := cpython_3_11)) as [H _].
  apply (H sample_records _ p eq_refl Hp).
Defined.

(** C9. The image-caching flag is on exactly when the environment holds a
    [CACHE_IMAGES] whose value, trimmed, is one of [1], [true], [TRUE],
    [yes], [YES]; it is off when the variable is not set, and for every
    other value, such as [True] and [Yes]. *)
Theorem cache_images_flag (environ : list (str * str)) :
  (CACHE_IMAGES environ = true <->
   exists v, lookup (py "CACHE_IMAGES") environ = Some v /\
             In (strip v) [py "1"; py "true"; py "TRUE"; py "yes"; py "YES"]) /\
  (lookup (py "CACHE_IMAGES") environ = None -> CACHE_IMAGES environ = false) /\
  CACHE_IMAGES [(py "CACHE_IMAGES", py "True")] = false /\
  CACHE_IMAGES [(py "CACHE_IMAGES", py "Yes")] = false /\
  CACHE_IMAGES [(py "CACHE_IMAGES", py " yes ")] = true.
Proof.
  unfold CACHE_IMAGES, environ_get. repeat split; try reflexivity.
  - intros H. destruct (lookup (py "CACHE_IMAGES") environ) as [v|].
    + exists v. split; [reflexivity|]. now apply mem_In in H.
    + discriminate.
  - intros [v [-> H]]. now apply mem_In.
  - intros ->. reflexivity.
Qed.

Lemma cache_images_flag_witness :
  CACHE_IMAGES [(py "AMZ_PARTNER_TAG", py "tag123")] = false /\
  CACHE_IMAGES [(py "CACHE_IMAGES", py "1")] = true.
Proof.
  split.
  - destruct (cache_images_flag [(py "AMZ_PARTNER_TAG", py "tag123")])
      as [_ [H _]].
    apply H. reflexivity.
  - destruct (cache_images_flag [(py "CACHE_IMAGES", py "1")]) as [H _].
    apply H. exists (py "1"). split; [reflexivity | left; reflexivity].
Defined.

(** ** Image Resolver *)

(** C4. When the URL is empty [cache_image] returns the placeholder path at
    once, touching nothing.  For a non-empty URL, when the fetch is made and
    fails (the request raises, or the status is not 200, or the body is
    empty), it makes the images directory, sends the one request, and
    returns the URL it was given: it raises nothing and writes no file. *)
Theorem cache_image_failure {RT : PyRuntime} (w : world) (asin remote_url : str) :
  cache_image w asin [] = ([], Ok PLACEHOLDER) /\
  (remote_url <> [] ->
   In (HttpGet remote_url) (fst (cache_image w asin remote_url)) ->
   fetch_fails (http_get w remote_url) ->
   cache_image w asin remote_url
   = ([Mkdir (path_str IMG_DIR); HttpGet remote_url], Ok remote_url) /\
   (forall path data,
      ~ In (WriteBytes path data) (fst (cache_image w asin remote_url))) /\
   (forall path text,
      ~ In (WriteText path text) (fst (cache_image w asin remote_url)))).
Proof.
  split; [reflexivity|].
  intros Hne Hget Hfail.
  assert (E : cache_image w asin remote_url
              = ([Mkdir (path_str IMG_DIR); HttpGet remote_url], Ok remote_url)).
  { unfold cache_image in *.
    destruct remote_url as [|c u]; [congruence|]. simpl is_empty in *. cbv iota in *.
    destruct (mkdir_ok w (path_str IMG_DIR)) eqn:Hm; simpl in Hget |- *.
    - destruct (http_get w (c :: u)) as [|st content ct]; [reflexivity|].
      simpl in Hfail.
      destruct (negb (Z.eqb st 200) || is_empty content) eqn:Hc; [reflexivity|].
      apply orb_false_iff in Hc as [Hs Hb].
      apply negb_false_iff, Z.eqb_eq in Hs. apply is_empty_false in Hb.
      destruct Hfail; contradiction.
    - destruct Hget as [Hget | []]. discriminate. }
  rewrite E. split; [reflexivity|]. simpl.
  split; intros ? ? [H | [H | []]]; discriminate.
Qed.

Lemma cache_image_failure_witness :
  cache_image (RT := cpython_3_11) sample_world (py "B002")
              (py "https://img.example.com/b002.png")
  = ([Mkdir (py "assets/img"); HttpGet (py "https://img.example.com/b002.png")],
     Ok (py "https://img.example.com/b002.png")).
Proof.
  destruct (cache_image_failure (RT := cpython_3_11) sample_world (py "B002")
              (py "https://img.example.com/b002.png")) as [_ H].
  destruct H as [E _].
  - vm_compute. discriminate.
  - vm_compute. right. left. reflexivity.
  - vm_compute. left. discriminate.
  - rewrite E. vm_compute. reflexivity.
Defined.

(** ** The example of the specification *)

(** C5. The record of the example normalizes to one product, with the name
    [Widget], the two tags [Home] and [Office], no image and the canonical
    Amazon URL of [B001].  Its card, caching being off, is the text
    [widget_card]: the image source is the placeholder path, the tag row
    holds exactly the pills [Home] and [Office], and the link of the action
    is [https://www.amazon.com/dp/B001?tag=tag123].  Rendering it touches
    nothing outside. *)
Theorem widget_example (RT : PyRuntime) (w : world) :
  normalize_products [widget_record] = Ok [widget_product] /\
  with_affiliate_tag (amazon_url widget_product) (py "tag123")
  = Ok (py "https://www.amazon.com/dp/B001?tag=tag123") /\
  tags_html (best_for widget_product)
  = pyq "<div class=`tags`>" ++ tag_pill (py "Home") ++ tag_pill (py "Office")
    ++ py "</div>" /\
  card w false widget_product (py "tag123") = ([], Ok widget_card) /\
  PLACEHOLDER = py "assets/placeholder.svg" /\
  is_substring (pyq "<img src=`assets/placeholder.svg` alt=`Widget`") widget_card = true /\
  is_substring (pyq "<p class=`name`>Widget</p>") widget_card = true /\
  is_substring (pyq "href=`https://www.amazon.com/dp/B001?tag=tag123`") widget_card = true /\
  is_substring (py "Extra") widget_card = false.
Proof.
  destruct RT as [r l c1 c2 legacy].
  destruct legacy; split_all; vm_compute; reflexivity.
Qed.

(** *** Prefixes *)

Lemma starts_with_app (p t : str) : starts_with p (p ++ t) = true.
Proof.
  induction p as [|a p IH]; simpl; [reflexivity|].
  now rewrite N.eqb_refl, IH.
Qed.

Lemma starts_with_split (p s : str) :
  starts_with p s = true -> s = p ++ skipn (List.length p) s.
Proof.
  revert s. induction p as [|a p IH]; intros s H; [reflexivity|].
  destruct s as [|b s]; [discriminate|]. simpl in H.
  apply andb_true_iff in H as [E H]. apply N.eqb_eq in E. subst b.
  simpl. f_equal. now apply IH.
Qed.

Lemma starts_with_iff (p s : str) :
  starts_with p s = true <-> exists t, s = p ++ t.
Proof.
  split.
  - intros H. eexists. now apply starts_with_split.
  - intros [t ->]. apply starts_with_app.
Qed.

Lemma skipn_length_app {A} (p t : list A) : skipn (List.length p) (p ++ t) = t.
Proof. induction p; simpl; auto. Qed.

(** *** The extension of an image *)

Section SafeExt.

Context {RT : PyRuntime}.

Lemma ext_of_content_type_table (content_type : option str) :
  ext_of_content_type content_type =
  match content_type with
  | Some (c :: r) =>
      lookup (lower (strip (hd [] (split_char 59 (c :: r))))) known_content_types
  | _ => None
  end.
Proof.
  destruct content_type as [[|c r]|]; try reflexivity.
  unfold ext_of_content_type, known_content_types.
  generalize (lower (strip (hd [] (split_char 59 (c :: r))))). intros ct.
  simpl.
  destruct (str_eqb ct (py "image/png")); [reflexivity|].
  destruct (str_eqb ct (py "image/jpeg")); [reflexivity|].
  destruct (str_eqb ct (py "image/jpg")); [reflexivity|].
  reflexivity.
Qed.

Lemma ends_extension_test (rest : str) :
  starts_with [63] rest || at_dollar rest = true <-> ends_extension rest.
Proof.
  unfold ends_extension. split.
  - intros H. apply orb_true_iff in H as [H | H].
    + destruct rest as [|c t]; [discriminate|].
      change (starts_with [63] (c :: t)) with ((63 =? c) && true) in H.
      apply andb_true_iff in H as [E _]. apply N.eqb_eq in E. subst c.
      right. right. eauto.
    + destruct rest as [|c [|d t]]; [now left | | discriminate].
      unfold at_dollar in H. apply N.eqb_eq in H. subst c. right. now left.
  - intros [-> | [-> | [t ->]]]; reflexivity.
Qed.

Lemma match_ext_here_Some (s g : str) :
  match_ext_here s = Some g ->
  In g url_extensions /\ exists tail, s = g ++ tail /\ ends_extension tail.
Proof.
  unfold match_ext_here. intros H. apply find_some in H as [Hin H].
  apply andb_true_iff in H as [Hp He].
  split; [exact Hin|].
  exists (skipn (List.length g) s). split.
  - now apply starts_with_split.
  - now apply ends_extension_test.
Qed.

Lemma match_ext_here_None (s : str) :
  match_ext_here s = None ->
  forall g tail, In g url_extensions -> s = g ++ tail -> ~ ends_extension tail.
Proof.
  unfold match_ext_here. intros H g tail Hin -> He.
  apply (find_none _ _ H) in Hin. cbv beta zeta in Hin.
  rewrite starts_with_app, skipn_length_app, andb_true_l in Hin.
  apply ends_extension_test in He. congruence.
Qed.

(** What the search finds is the leftmost place where a dot, one of the
    extensions and an end of extension follow each other. *)
Lemma re_search_ext_Some (s g : str) :
  re_search_ext s = Some g ->
  exists pre tail,
    s = pre ++ [46] ++ g ++ tail /\ In g url_extensions /\ ends_extension tail /\
    forall pre' g' tail',
      s = pre' ++ [46] ++ g' ++ tail' -> In g' url_extensions ->
      ends_extension tail' -> (List.length pre <= List.length pre')%nat.
Proof.
  induction s as [|c s IH]; [discriminate|]. simpl. intros H.
  assert (Hrec : re_search_ext s = Some g ->
                 (c = 46 -> match_ext_here s = None) ->
                 exists pre tail,
                   c :: s = pre ++ [46] ++ g ++ tail /\ In g url_extensions /\
                   ends_extension tail /\
                   forall pre' g' tail',
                     c :: s = pre' ++ [46] ++ g' ++ tail' -> In g' url_extensions ->
                     ends_extension tail' -> (List.length pre <= List.length pre')%nat).
  { intros Hs Hnone. destruct (IH Hs) as [pre [tail [E [Hin [He Hleft]]]]].
    exists (c :: pre), tail. split; [simpl; now rewrite E|].
    split; [exact Hin|]. split; [exact He|].
    intros pre' g' tail' E' Hin' He'. destruct pre' as [|c' pre'].
    - simpl in E'. injection E' as Ec Es.
      exfalso. apply (match_ext_here_None _ (Hnone Ec) g' tail' Hin' Es He').
    - simpl in E'. injection E' as Ec Es. simpl.
      apply le_n_S. apply (Hleft pre' g' tail' Es Hin' He'). }
  destruct (c =? 46) eqn:Ec.
  - apply N.eqb_eq in Ec. subst c.
    destruct (match_ext_here s) as [g0|] eqn:Hm.
    + inversion H. subst g0.
      apply match_ext_here_Some in Hm as [Hin [tail [E He]]].
      exists [], tail. split; [simpl; now rewrite E|].
      split; [exact Hin|]. split; [exact He|]. intros. simpl. lia.
    + now apply Hrec.
  - apply Hrec; [exact H|]. intros ->. discriminate.
Qed.

Lemma re_search_ext_None (s : str) :
  re_search_ext s = None ->
  forall pre g tail,
    s = pre ++ [46] ++ g ++ tail -> In g url_extensions -> ~ ends_extension tail.
Proof.
  induction s as [|c s IH]; intros H pre g tail E Hin He.
  - destruct pre; discriminate.
  - simpl in H. destruct pre as [|c' pre]; simpl in E; injection E as Ec Es.
    + subst c. rewrite N.eqb_refl in H.
      destruct (match_ext_here s) eqn:Hm; [discriminate|].
      apply (match_ext_here_None _ Hm g tail Hin Es He).
    + apply (IH) with (pre := pre) (g := g) (tail := tail); auto.
      destruct (c =? 46); [|exact H].
      destruct (match_ext_here s); [discriminate | exact H].
Qed.

Lemma lookup_In {A} (k : str) (d : list (str * A)) (v : A) :
  lookup k d = Some v -> In (k, v) d.
Proof.
  induction d as [|[k' v'] d IH]; simpl; [discriminate|].
  destruct (str_eqb k k') eqn:E.
  - apply str_eqb_eq in E. subst. intros H. inversion H. now left.
  - intros H. right. now apply IH.
Qed.

Lemma safe_ext_url_part (g : str) :
  In g url_extensions ->
  py "." ++ replace (py "jpeg") (py "jpg") g
  = py "." ++ (if str_eqb g (py "jpeg") then py "jpg" else g) /\
  In (py "." ++ replace (py "jpeg") (py "jpg") g) extensions.
Proof.
  intros H. unfold url_extensions in H. simpl in H.
  repeat (destruct H as [<- | H]; [split; vm_compute; tauto|]).
  destruct H.
Qed.

Lemma safe_ext_in_extensions (url : str) (content_type : option str) :
  In (_safe_ext url content_type) extensions.
Proof.
  unfold _safe_ext.
  destruct (ext_of_content_type content_type) as [e|] eqn:E.
  - rewrite ext_of_content_type_table in E.
    destruct content_type as [[|c r]|]; try discriminate.
    apply lookup_In in E. unfold known_content_types in E. simpl in E.
    repeat (destruct E as [E | E]; [inversion E; vm_compute; tauto|]).
    destruct E.
  - destruct (re_search_ext (lower url)) as [g|] eqn:Hs.
    + apply re_search_ext_Some in Hs as [pre [tail [_ [Hin _]]]].
      now apply safe_ext_url_part.
    + vm_compute. tauto.
Qed.

End SafeExt.

(** *** The file of a cached image *)

Lemma starts_with_cons (a c : N) (p r : str) :
  starts_with (a :: p) (c :: r) = (a =? c) && starts_with p r.
Proof. reflexivity. Qed.

Lemma has_char_cons (c x : N) (s : str) :
  has_char c (x :: s) = (c =? x) || has_char c s.
Proof. reflexivity. Qed.

Lemma split_char_absent (c : N) (s : str) :
  has_char c s = false -> split_char c s = [s].
Proof.
  induction s as [|x s IH]; [reflexivity|].
  rewrite has_char_cons. intros H.
  apply orb_false_iff in H as [Hx Hs].
  simpl split_char. rewrite (IH Hs).
  rewrite N.eqb_sym, Hx. reflexivity.
Qed.

Lemma IMG_DIR_parts : IMG_DIR = {| root := []; parts := [py "assets"; py "img"] |}.
Proof. vm_compute. reflexivity. Qed.

Lemma img_dir_prefix : py "assets/img/" = py "assets" ++ [47] ++ py "img" ++ [47].
Proof. vm_compute. reflexivity. Qed.

Lemma IMG_DIR_str : path_str IMG_DIR = py "assets/img".
Proof. vm_compute. reflexivity. Qed.

(** A name that is one component lands in the images directory. *)
Lemma img_path (name : str) :
  has_char 47 name = false -> name <> [] -> name <> [46] ->
  path_str (path_div IMG_DIR name) = py "assets/img/" ++ name.
Proof.
  intros Hs Hne Hdot.
  assert (Hp : path_of name = {| root := []; parts := [name] |}).
  { unfold path_of. rewrite (split_char_absent _ _ Hs).
    destruct name as [|c r]; [congruence|].
    rewrite has_char_cons in Hs.
    apply orb_false_iff in Hs as [Hc _].
    rewrite !starts_with_cons, Hc. simpl andb. cbv iota.
    unfold filter. simpl is_empty.
    replace (str_eqb (c :: r) [46]) with false
      by (symmetry; now apply str_eqb_neq).
    reflexivity. }
  unfold path_div. rewrite Hp. simpl is_empty. cbv iota beta zeta.
  rewrite IMG_DIR_parts, img_dir_prefix. unfold path_str. simpl.
  now rewrite <- !app_assoc.
Qed.

Section CachedFile.

Context {RT : PyRuntime}.

Lemma img_path_ext (asin ext : str) :
  has_char 47 asin = false -> In ext extensions ->
  path_str (path_div IMG_DIR (asin ++ ext)) = py "assets/img/" ++ asin ++ ext.
Proof.
  intros Hs Hin.
  assert (He : has_char 47 ext = false /\ (2 <= List.length ext)%nat).
  { unfold extensions in Hin. simpl in Hin.
    repeat (destruct Hin as [<- | Hin]; [split; vm_compute; [reflexivity | lia]|]).
    destruct Hin. }
  destruct He as [He Hl].
  apply img_path.
  - now rewrite has_char_app, Hs, He.
  - intros E. apply (f_equal (@List.length N)) in E.
    rewrite length_app in E. simpl in E. lia.
  - intros E. apply (f_equal (@List.length N)) in E.
    rewrite length_app in E. simpl in E. lia.
Qed.

End CachedFile.

(** ** Effects *)

Lemma io_bind_trace {A B} (m : io A) (k : A -> io B) (e : event) :
  In e (fst (io_bind m k)) ->
  In e (fst m) \/ exists a, snd m = Ok a /\ In e (fst (k a)).
Proof.
  destruct m as [t [a|x]]; simpl; [|now left].
  destruct (k a) as [t' r] eqn:E. simpl. intros H.
  apply in_app_or in H as [H | H]; [now left|].
  right. exists a. rewrite E. now split.
Qed.

Lemma io_bind_Ok {A B} (t : list event) (a : A) (k : A -> io B) :
  io_bind (t, Ok a) k = (t ++ fst (k a), snd (k a)).
Proof. simpl. now destruct (k a). Qed.

Lemma io_bind_lift {A B} (a : A) (k : A -> io B) :
  io_bind (io_lift (Ok a)) k = k a.
Proof. unfold io_lift. rewrite io_bind_Ok. now destruct (k a). Qed.

Lemma io_bind_ret {A B} (a : A) (k : A -> io B) :
  io_bind (io_ret a) k = k a.
Proof. apply io_bind_lift. Qed.

(** ** The page *)

(** Computes the comparisons of literals that stand in the goal. *)
Ltac eval_literals :=
  repeat match goal with
         | |- context [str_eqb (py ?a) (py ?b)] =>
             let v := eval vm_compute in (str_eqb (py a) (py b)) in
             change (str_eqb (py a) (py b)) with v
         end.

Lemma parse_HTML : parse_format HTML InText [] [] = Ok HTML_segments.
Proof. vm_compute. reflexivity. Qed.

Lemma format_HTML (title desc h1 intro updated cards : str) :
  format HTML [(py "title", title); (py "desc", desc); (py "h1", h1);
               (py "intro", intro); (py "updated", updated); (py "cards", cards)]
  = Ok (page title desc h1 intro updated cards).
Proof.
  unfold format. rewrite parse_HTML. vm_compute. reflexivity.
Qed.

Lemma lookup_app {A} (k : str) (d d' : list (str * A)) :
  lookup k (d ++ d') =
  match lookup k d with Some x => Some x | None => lookup k d' end.
Proof.
  induction d as [|[k' v] d IH]; simpl; [reflexivity|].
  destruct (str_eqb k k'); [reflexivity | exact IH].
Qed.

Lemma lookup_setdefault (k k' : str) (d : list (str * json)) (v : json) :
  lookup k (setdefault d k' v) =
  match lookup k d with
  | Some x => Some x
  | None => if str_eqb k k' then Some v else None
  end.
Proof.
  unfold setdefault. destruct (lookup k' d) as [x|] eqn:E.
  - destruct (lookup k d) eqn:F; [reflexivity|].
    destruct (str_eqb k k') eqn:G; [|reflexivity].
    apply str_eqb_eq in G. subst. congruence.
  - rewrite lookup_app. destruct (lookup k d); [reflexivity|].
    simpl. reflexivity.
Qed.

(** The configuration after [load_config] has set its defaults. *)
Lemma load_config_lookup (d : list (str * json)) :
  exists d',
    load_config (Ok (JDict d)) = Ok (JDict d') /\
    (forall k default,
       In (k, default)
          [(py "title", JStr (py "Product shortlist"));
           (py "description", JStr (py "A simple shortlist of products."));
           (py "intro_paragraphs", JList []);
           (py "meta_note", JStr (py ""));
           (py "products", JList [])] ->
       lookup k d' = Some (match lookup k d with Some x => x | None => default end)).
Proof.
  eexists. split; [reflexivity|].
  intros k default Hin. rewrite !lookup_setdefault.
  simpl in Hin.
  repeat (destruct Hin as [Hin | Hin];
          [inversion Hin; subst k default; clear Hin;
           destruct (lookup _ d); [reflexivity|]; eval_literals; reflexivity|]).
  destruct Hin.
Qed.

(** The timestamp is plain text for JSON. *)
Lemma json_escape_plain (c : N) :
  32 <= c -> c <= 126 -> c <> 34 -> c <> 92 -> json_escape_char c = [c].
Proof.
  intros H1 H2 H3 H4. unfold json_escape_char.
  destruct (N.eqb_spec c 34); [contradiction|].
  destruct (N.eqb_spec c 92); [contradiction|].
  destruct (N.eqb_spec c 10); [lia|].
  destruct (N.eqb_spec c 13); [lia|].
  destruct (N.eqb_spec c 9); [lia|].
  destruct (N.eqb_spec c 12); [lia|].
  destruct (N.eqb_spec c 8); [lia|].
  destruct (N.leb_spec 32 c); [|lia].
  destruct (N.leb_spec c 126); [reflexivity | lia].
Qed.

Lemma json_escape_digit (n : N) : json_escape_char (digit n) = [digit n].
Proof.
  unfold digit. assert (H : n mod 10 < 10) by (apply N.mod_lt; discriminate).
  revert H. generalize (n mod 10). intros m H.
  apply json_escape_plain; lia.
Qed.

Lemma json_string_strftime (d : datetime) :
  json_string (strftime d) = [34] ++ strftime d ++ [34].
Proof.
  unfold json_string. do 2 f_equal.
  unfold strftime.
  repeat (rewrite flat_map_app || (simpl flat_map; rewrite ?json_escape_digit)).
  vm_compute (json_escape_char 45). vm_compute (json_escape_char 32).
  vm_compute (json_escape_char 58).
  replace (flat_map json_escape_char (py " UTC")) with (py " UTC")
    by (vm_compute; reflexivity).
  simpl. rewrite ?app_nil_r. reflexivity.
Qed.

Section EmptyPage.

Context {RT : PyRuntime}.

Lemma dumps_empty_products (d : datetime) (title : str) :
  dumps (JDict [(py "products", JList (map product_dict []));
                (py "updated", JStr (strftime d));
                (py "title", JStr title)])
  = empty_products_json (strftime d) title.
Proof.
  unfold dumps, empty_products_json.
  cbn -[json_string py pyq strftime].
  rewrite json_string_strftime.
  generalize (strftime d) (json_string title). intros U T.
  rewrite <- !app_assoc. vm_compute. reflexivity.
Qed.

Lemma write_text_cases (w : world) (path text : str) :
  write_text w path text
  = ([WriteText path text],
     if write_ok w path
     then if encodable text then Ok tt else Raise UnicodeEncodeError
     else Raise OSError).
Proof.
  unfold write_text, io_emit, encodable. rewrite io_bind_Ok.
  destruct (write_ok w path); [|reflexivity].
  now destruct (Utf8.encode text).
Qed.


End EmptyPage.

(** ** HTML escaping *)

Lemma replace_single (a : N) (new s : str) :
  replace [a] new s = flat_map (fun c => if c =? a then new else [c]) s.
Proof.
  unfold replace.
  induction s as [|c s IH]; [reflexivity|].
  cbn [replace_from flat_map]. rewrite starts_with_cons.
  cbn [starts_with List.length pred]. rewrite andb_true_r, (N.eqb_sym a c).
  destruct (c =? a); rewrite IH; reflexivity.
Qed.

Lemma flat_map_flat_map {A B C} (f : A -> list B) (g : B -> list C) (l : list A) :
  flat_map g (flat_map f l) = flat_map (fun x => flat_map g (f x)) l.
Proof.
  induction l as [|x l IH]; [reflexivity|].
  simpl. now rewrite flat_map_app, IH.
Qed.

(** Escaping replaces each of the five characters by its entity and leaves
    every other character as it is: the five replacements in a row amount to
    one pass. *)
Lemma esc_flat_map (s : str) : esc s = flat_map esc_char s.
Proof.
  unfold esc.
  replace (py "&") with [38] by (vm_compute; reflexivity).
  replace (py "<") with [60] by (vm_compute; reflexivity).
  replace (py ">") with [62] by (vm_compute; reflexivity).
  replace (pyq "`") with [34] by (vm_compute; reflexivity).
  replace (py "'") with [39] by (vm_compute; reflexivity).
  rewrite !replace_single, !flat_map_flat_map.
  apply flat_map_ext. intros c. unfold esc_char.
  destruct (N.eqb_spec c 38) as [-> | H38]; [vm_compute; reflexivity|].
  destruct (N.eqb_spec c 60) as [-> | H60]; [vm_compute; reflexivity|].
  destruct (N.eqb_spec c 62) as [-> | H62]; [vm_compute; reflexivity|].
  destruct (N.eqb_spec c 34) as [-> | H34]; [vm_compute; reflexivity|].
  destruct (N.eqb_spec c 39) as [-> | H39]; [vm_compute; reflexivity|].
  apply N.eqb_neq in H38, H60, H62, H34, H39.
  do 4 (cbn [flat_map app]; rewrite ?H60, ?H62, ?H34, ?H39, ?app_nil_r).
  reflexivity.
Qed.

Lemma markup_of_app (a b : str) : markup_of (a ++ b) = markup_of a ++ markup_of b.
Proof. apply filter_app. Qed.

Lemma esc_char_no_markup (c : N) : markup_of (esc_char c) = [].
Proof.
  unfold esc_char.
  destruct (N.eqb_spec c 38); [vm_compute; reflexivity|].
  destruct (N.eqb_spec c 60) as [|H60]; [vm_compute; reflexivity|].
  destruct (N.eqb_spec c 62) as [|H62]; [vm_compute; reflexivity|].
  destruct (N.eqb_spec c 34) as [|H34]; [vm_compute; reflexivity|].
  destruct (N.eqb_spec c 39) as [|H39]; [vm_compute; reflexivity|].
  apply N.eqb_neq in H60, H62, H34, H39.
  unfold markup_of, filter, is_markup. now rewrite H60, H62, H34, H39.
Qed.

(** An escaped text holds none of the four markup characters. *)
Lemma esc_no_markup (s : str) : markup_of (esc s) = [].
Proof.
  rewrite esc_flat_map. induction s as [|c s IH]; [reflexivity|].
  cbn [flat_map]. now rewrite markup_of_app, esc_char_no_markup, IH.
Qed.

(** *** Ampersands *)

Lemma starts_with_app_r (p s t : str) :
  starts_with p s = true -> starts_with p (s ++ t) = true.
Proof.
  intros H. apply starts_with_iff in H as [u ->].
  rewrite <- app_assoc. apply starts_with_app.
Qed.

Lemma amp_ok_cons (c : N) (s : str) :
  amp_ok (c :: s)
  = (negb (c =? 38) || existsb (fun e => starts_with e (c :: s)) entities)
    && amp_ok s.
Proof. reflexivity. Qed.

Lemma amp_ok_app (a b : str) :
  amp_ok a = true -> amp_ok b = true -> amp_ok (a ++ b) = true.
Proof.
  intros Ha Hb. induction a as [|c a IH]; [exact Hb|].
  rewrite amp_ok_cons in Ha. apply andb_true_iff in Ha as [Hc Ha].
  change ((c :: a) ++ b) with (c :: (a ++ b)). rewrite amp_ok_cons.
  apply andb_true_iff. split; [|now apply IH].
  apply orb_true_iff in Hc as [Hc | Hc]; apply orb_true_iff; [now left|].
  right. apply existsb_exists in Hc as [e [He Hs]].
  apply existsb_exists. exists e. split; [exact He|].
  apply (starts_with_app_r e (c :: a) b Hs).
Qed.

Lemma amp_ok_suffix (a b : str) : amp_ok (a ++ b) = true -> amp_ok b = true.
Proof.
  induction a as [|c a IH]; [auto|].
  change ((c :: a) ++ b) with (c :: (a ++ b)). rewrite amp_ok_cons.
  intros H. apply andb_true_iff in H as [_ H]. auto.
Qed.

Lemma amp_ok_no_amp (s : str) : has_char 38 s = false -> amp_ok s = true.
Proof.
  induction s as [|c s IH]; [reflexivity|].
  rewrite has_char_cons, amp_ok_cons. intros H.
  apply orb_false_iff in H as [Hc Hs].
  rewrite N.eqb_sym, Hc. simpl. auto.
Qed.

Lemma amp_ok_concat (l : list str) :
  Forall (fun s => amp_ok s = true) l -> amp_ok (List.concat l) = true.
Proof.
  induction 1 as [|s l Hs Hl IH]; [reflexivity|].
  simpl. now apply amp_ok_app.
Qed.

Lemma amp_ok_join (sep : str) (l : list str) :
  amp_ok sep = true -> Forall (fun s => amp_ok s = true) l ->
  amp_ok (join sep l) = true.
Proof.
  intros Hsep. induction 1 as [|s l Hs Hl IH]; [reflexivity|].
  destruct l as [|t l]; [exact Hs|].
  change (join sep (s :: t :: l)) with (s ++ sep ++ join sep (t :: l)).
  auto using amp_ok_app.
Qed.

Lemma esc_char_amp_ok (c : N) : amp_ok (esc_char c) = true.
Proof.
  unfold esc_char.
  destruct (N.eqb_spec c 38) as [|H38]; [vm_compute; reflexivity|].
  destruct (c =? 60); [vm_compute; reflexivity|].
  destruct (c =? 62); [vm_compute; reflexivity|].
  destruct (c =? 34); [vm_compute; reflexivity|].
  destruct (c =? 39); [vm_compute; reflexivity|].
  apply amp_ok_no_amp. rewrite has_char_cons.
  apply N.eqb_neq in H38. now rewrite N.eqb_sym, H38.
Qed.

(** In an escaped text every ampersand begins an entity. *)
Lemma esc_amp_ok (s : str) : amp_ok (esc s) = true.
Proof.
  rewrite esc_flat_map. induction s as [|c s IH]; [reflexivity|].
  cbn [flat_map]. apply amp_ok_app; [apply esc_char_amp_ok | exact IH].
Qed.

Lemma is_substring_split (needle s : str) :
  is_substring needle s = true -> exists pre post, s = pre ++ needle ++ post.
Proof.
  induction s as [|c s IH]; simpl; intros H.
  - apply orb_true_iff in H as [H | H]; [|discriminate].
    apply starts_with_iff in H as [t E]. exists [], t. exact E.
  - apply orb_true_iff in H as [H | H].
    + apply starts_with_iff in H as [t E]. exists [], t. exact E.
    + destruct (IH H) as [pre [post E]]. exists (c :: pre), post.
      simpl. now rewrite E.
Qed.

(** A text whose ampersands all begin entities does not hold the probe. *)
Lemma amp_ok_no_probe (s : str) :
  amp_ok s = true -> is_substring script_probe s = false.
Proof.
  intros H. destruct (is_substring script_probe s) eqn:E; [|reflexivity].
  apply is_substring_split in E as [pre [post E]]. subst s.
  apply amp_ok_suffix in H.
  replace script_probe with [60; 115; 99; 114; 105; 112; 116; 62; 38; 34; 39] in H
    by (vm_compute; reflexivity).
  vm_compute in H. discriminate.
Qed.

Opaque HTML HTML_segments HTML_text.

(** Proves that a concatenation of literals, escaped texts and texts known
    to be fine has only ampersands that begin entities. *)
Ltac amp_ok_pieces :=
  repeat lazymatch goal with
         | |- amp_ok (_ ++ _) = true => apply amp_ok_app
         end;
  lazymatch goal with
  | |- amp_ok (esc _) = true => apply esc_amp_ok
  | |- _ => first [ assumption | vm_compute; reflexivity ]
  end.

Section Renderer.

Context {RT : PyRuntime}.

Lemma tags_html_amp_ok (tags : list str) : amp_ok (tags_html tags) = true.
Proof.
  rewrite tags_html_concat. destruct (is_empty tags); [reflexivity|].
  apply amp_ok_app; [vm_compute; reflexivity|].
  apply amp_ok_app; [|vm_compute; reflexivity].
  apply amp_ok_concat. apply Forall_forall. intros x Hx.
  apply in_map_iff in Hx as [t [<- _]]. unfold tag_pill. amp_ok_pieces.
Qed.

(** The markup characters of the tag row depend on the number of pills
    only. *)
Lemma tags_html_markup (tags tags' : list str) :
  Nat.min 2 (List.length tags) = Nat.min 2 (List.length tags') ->
  markup_of (tags_html tags) = markup_of (tags_html tags').
Proof.
  intros H. rewrite !tags_html_concat.
  destruct tags as [|a [|b r]]; destruct tags' as [|a' [|b' r']];
    simpl in H; try discriminate H;
    cbn [is_empty firstn map List.concat]; unfold tag_pill;
    rewrite ?app_nil_r, ?markup_of_app, ?esc_no_markup; reflexivity.
Qed.

Lemma cache_image_no_write_text (w : world) (asin remote_url path text : str) :
  ~ In (WriteText path text) (fst (cache_image w asin remote_url)).
Proof.
  unfold cache_image.
  destruct (is_empty remote_url); [simpl; tauto|].
  unfold io_emit. rewrite io_bind_Ok. cbn [fst snd].
  destruct (mkdir_ok w (path_str IMG_DIR)); cbn [negb];
    [|simpl; intros [H | []]; discriminate].
  rewrite io_bind_Ok. cbn [fst snd].
  destruct (http_get w remote_url) as [|st content ct];
    [simpl; intros [H | [H | []]]; discriminate|].
  destruct (negb (Z.eqb st 200) || is_empty content);
    [simpl; intros [H | [H | []]]; discriminate|].
  cbv zeta. rewrite io_bind_Ok. cbn [fst snd].
  destruct (write_ok w _); simpl; intros [H | [H | [H | []]]]; discriminate.
Qed.

Lemma card_no_write_text (w : world) (cache : bool) (p : product)
      (partner_tag path text : str) :
  ~ In (WriteText path text) (fst (card w cache p partner_tag)).
Proof.
  unfold card. intros H.
  apply io_bind_trace in H as [H | [url [_ H]]]; [destruct H|].
  apply io_bind_trace in H as [H | [src [_ H]]]; [|destruct H].
  destruct cache; [|destruct H].
  now apply cache_image_no_write_text in H.
Qed.

(** In a card every ampersand begins an entity. *)
Lemma card_amp_ok (w : world) (cache : bool) (p : product)
      (partner_tag text : str) :
  snd (card w cache p partner_tag) = Ok text -> amp_ok text = true.
Proof.
  unfold card.
  destruct (with_affiliate_tag (amazon_url p) partner_tag) as [url|e];
    [|discriminate].
  rewrite io_bind_lift.
  destruct (if cache then cache_image w (asin p) (image_url p)
            else io_ret (image_url p)) as [t [src|e]]; [|discriminate].
  rewrite io_bind_Ok. cbn [fst snd io_ret]. intros H. inversion H. clear H.
  pose proof (tags_html_amp_ok (best_for p)) as Ht.
  amp_ok_pieces.
Qed.

(** The markup characters of a card depend on the number of its pills only,
    not on the texts of the product, the partner tag or the image. *)
Lemma card_markup (w w' : world) (cache cache' : bool) (p p' : product)
      (partner_tag partner_tag' text text' : str) :
  snd (card w cache p partner_tag) = Ok text ->
  snd (card w' cache' p' partner_tag') = Ok text' ->
  Nat.min 2 (List.length (best_for p)) = Nat.min 2 (List.length (best_for p')) ->
  markup_of text = markup_of text'.
Proof.
  unfold card.
  destruct (with_affiliate_tag (amazon_url p) partner_tag) as [url|e];
    [|discriminate].
  destruct (with_affiliate_tag (amazon_url p') partner_tag') as [url'|e];
    [|discriminate].
  rewrite !io_bind_lift.
  destruct (if cache then cache_image w (asin p) (image_url p)
            else io_ret (image_url p)) as [t [src|e]]; [|discriminate].
  destruct (if cache' then cache_image w' (asin p') (image_url p')
            else io_ret (image_url p')) as [t' [src'|e]]; [|discriminate].
  rewrite !io_bind_Ok. cbn [fst snd io_ret].
  intros H H' Hn. inversion H. inversion H'. clear H H'.
  rewrite !markup_of_app, !esc_no_markup.
  rewrite (tags_html_markup _ _ Hn). reflexivity.
Qed.

Lemma cards_of_spec (w : world) (cache : bool) (partner_tag : str)
      (products : list product) :
  (forall path text,
     ~ In (WriteText path text) (fst (cards_of w cache products partner_tag))) /\
  (forall cards,
     snd (cards_of w cache products partner_tag) = Ok cards ->
     Forall (fun c => amp_ok c = true) cards).
Proof.
  induction products as [|p ps [IHt IHc]].
  - split; [simpl; tauto|]. simpl. intros cards H. inversion H. constructor.
  - cbn [cards_of]. split.
    + intros path text H.
      apply io_bind_trace in H as [H | [c [_ H]]];
        [now apply card_no_write_text in H|].
      apply io_bind_trace in H as [H | [cs [_ H]]];
        [now apply IHt in H | destruct H].
    + intros cards H.
      destruct (card w cache p partner_tag) as [t [c|e]] eqn:Ec; [|discriminate].
      rewrite io_bind_Ok in H. cbn [fst snd] in H.
      destruct (cards_of w cache ps partner_tag) as [t' [cs|e]]; [|discriminate].
      rewrite io_bind_Ok in H. cbn [fst snd io_ret] in H. inversion H.
      constructor; [|now apply IHc].
      apply (card_amp_ok w cache p partner_tag). now rewrite Ec.
Qed.

Lemma intro_parts_amp_ok (l : list json) :
  Forall (fun s => amp_ok s = true) (intro_parts l).
Proof.
  unfold intro_parts. apply Forall_forall. intros x Hx.
  apply in_flat_map in Hx as [j [_ Hx]].
  destruct (is_empty (strip (py_str j))); [destruct Hx|].
  destruct Hx as [<- | []]. amp_ok_pieces.
Qed.

Lemma build_intro_amp_ok (a b : json) (intro : str) :
  build_intro a b = Ok intro -> amp_ok intro = true.
Proof.
  unfold build_intro. intros H. bind_named H l. inversion H. clear H.
  apply amp_ok_join; [reflexivity|].
  destruct (truthy b && negb (is_empty (strip (py_str b))));
    [|apply intro_parts_amp_ok].
  apply Forall_app. split; [apply intro_parts_amp_ok|].
  constructor; [|constructor]. amp_ok_pieces.
Qed.

Lemma strftime_amp_ok (d : datetime) : amp_ok (strftime d) = true.
Proof.
  apply amp_ok_no_amp. unfold strftime.
  assert (K : forall n, (38 =? digit n) = false).
  { intros n. unfold digit. apply N.eqb_neq. generalize (n mod 10). lia. }
  rewrite !has_char_app, !has_char_cons, !K.
  vm_compute. reflexivity.
Qed.

Lemma HTML_text_amp_ok :
  forallb amp_ok (map HTML_text [0; 2; 4; 6; 8; 10; 12]%nat) = true.
Proof. vm_compute. reflexivity. Qed.

Lemma page_amp_ok (title desc intro cards : str) (d : datetime) :
  amp_ok intro = true -> amp_ok cards = true ->
  amp_ok (page (esc title) (esc desc) (esc title) intro (strftime d) cards) = true.
Proof.
  intros Hi Hc. pose proof (strftime_amp_ok d) as Hs.
  pose proof HTML_text_amp_ok as Ht. cbn [forallb map] in Ht.
  repeat (apply andb_true_iff in Ht; destruct Ht as [? Ht]).
  unfold page. amp_ok_pieces.
Qed.


End Renderer.

(** ** UTF-8 *)

Ltac Zify.zify_post_hook ::= Z.to_euclidean_division_equations.

(** Settles the comparisons of numbers in the goal that [lia] can settle. *)
Ltac decide_cmp :=
  repeat match goal with
         | |- context [?a <? ?b] =>
             first [ replace (a <? b) with true by (symmetry; apply N.ltb_lt; lia)
                   | replace (a <? b) with false by (symmetry; apply N.ltb_ge; lia) ]
         | |- context [?a <=? ?b] =>
             first [ replace (a <=? b) with true by (symmetry; apply N.leb_le; lia)
                   | replace (a <=? b) with false by (symmetry; apply N.leb_gt; lia) ]
         | |- context [?a =? ?b] =>
             first [ replace (a =? b) with true by (symmetry; apply N.eqb_eq; lia)
                   | replace (a =? b) with false by (symmetry; apply N.eqb_neq; lia) ]
         end.

Lemma Some_inj {A} (a b : A) : Some a = Some b -> a = b.
Proof. congruence. Qed.

Module Utf8Facts.

Import Utf8.

Lemma decode_from_None_cons (b : N) (bs : bytes) :
  decode_from None (b :: bs) =
  match classify b with
  | Single c => c :: decode_from None bs
  | Lead p => decode_from (Some p) bs
  | Invalid => REPLACEMENT :: decode_from None bs
  end.
Proof. reflexivity. Qed.

Lemma decode_from_Some_cons (p : pending) (b : N) (bs : bytes) :
  (lo p <=? b) && (b <=? hi p) = true ->
  decode_from (Some p) (b :: bs) =
  match more p with
  | O => (acc p * 64 + (b - 128)) :: decode_from None bs
  | S m => decode_from (Some (Pending (acc p * 64 + (b - 128)) m 128 191)) bs
  end.
Proof. intros H. cbn [decode_from]. now rewrite H. Qed.

(** Decoding reads back the character that was encoded. *)
Lemma decode_encode_char (c : N) (b rest : bytes) :
  encode_char c = Some b ->
  decode_from None (b ++ rest) = c :: decode_from None rest.
Proof.
  unfold encode_char, is_surrogate.
  destruct (N.ltb_spec c 128) as [H1 | H1].
  { intros E. apply Some_inj in E. subst b. cbn [app].
    rewrite decode_from_None_cons. unfold classify. decide_cmp. cbv beta iota. reflexivity. }
  destruct (N.ltb_spec c 2048) as [H2 | H2].
  { intros E. apply Some_inj in E. subst b. cbn [app].
    rewrite decode_from_None_cons. unfold classify. decide_cmp. cbv beta iota.
    rewrite decode_from_Some_cons by (cbn [lo hi]; decide_cmp; reflexivity).
    cbn [more acc]. f_equal. lia. }
  destruct (N.ltb_spec c 65536) as [H3 | H3].
  { destruct ((55296 <=? c) && (c <=? 57343)) eqn:Hs; [discriminate|].
    assert (Hns : c < 55296 \/ 57343 < c).
    { apply andb_false_iff in Hs as [Hs | Hs];
        [left; now apply N.leb_gt | right; now apply N.leb_gt]. }
    intros E. apply Some_inj in E. subst b. cbn [app].
    rewrite decode_from_None_cons. unfold classify.
    destruct (N.eq_dec (c / 4096) 0) as [E0 | E0];
      [|destruct (N.eq_dec (c / 4096) 13) as [E13 | E13]];
      decide_cmp; cbv beta iota;
      (rewrite decode_from_Some_cons by (cbn [lo hi]; decide_cmp; reflexivity));
      cbn [more acc];
      (rewrite decode_from_Some_cons by (cbn [lo hi]; decide_cmp; reflexivity));
      cbn [more acc]; f_equal; lia. }
  destruct (N.ltb_spec c 1114112) as [H4 | H4]; [|discriminate].
  intros E. apply Some_inj in E. subst b. cbn [app].
  rewrite decode_from_None_cons. unfold classify.
  destruct (N.eq_dec (c / 262144) 0) as [E0 | E0];
    [|destruct (N.eq_dec (c / 262144) 4) as [E4 | E4]];
    decide_cmp; cbv beta iota;
    (rewrite decode_from_Some_cons by (cbn [lo hi]; decide_cmp; reflexivity));
    cbn [more acc];
    (rewrite decode_from_Some_cons by (cbn [lo hi]; decide_cmp; reflexivity));
    cbn [more acc];
    (rewrite decode_from_Some_cons by (cbn [lo hi]; decide_cmp; reflexivity));
    cbn [more acc]; f_equal; lia.
Qed.

Lemma decode_encode (s : str) (bs : bytes) :
  encode s = Some bs -> decode bs = s.
Proof.
  unfold decode. revert bs. induction s as [|c s IH]; intros bs H.
  - injection H as <-. reflexivity.
  - cbn [encode] in H.
    destruct (encode_char c) as [b|] eqn:Ec; [|discriminate].
    destruct (encode s) as [bs'|] eqn:Es; [|discriminate].
    injection H as <-. rewrite (decode_encode_char c b bs' Ec).
    f_equal. now apply IH.
Qed.

Lemma encode_char_bytes (c : N) (b : bytes) :
  encode_char c = Some b -> Forall (fun x => x < 256) b.
Proof.
  unfold encode_char.
  destruct (N.ltb_spec c 128); [intros E; apply Some_inj in E; subst b; repeat constructor; lia|].
  destruct (N.ltb_spec c 2048); [intros E; apply Some_inj in E; subst b; repeat constructor; lia|].
  destruct (N.ltb_spec c 65536).
  { destruct (is_surrogate c); [discriminate|].
    intros E; apply Some_inj in E; subst b; repeat constructor; lia. }
  destruct (N.ltb_spec c 1114112); [|discriminate].
  intros E; apply Some_inj in E; subst b; repeat constructor; lia.
Qed.

Lemma encode_bytes (s : str) (bs : bytes) :
  encode s = Some bs -> Forall (fun x => x < 256) bs.
Proof.
  revert bs. induction s as [|c s IH]; intros bs H.
  - injection H as <-. constructor.
  - cbn [encode] in H.
    destruct (encode_char c) as [b|] eqn:Ec; [|discriminate].
    destruct (encode s) as [bs'|] eqn:Es; [|discriminate].
    injection H as <-. apply Forall_app. split.
    + now apply encode_char_bytes in Ec.
    + now apply IH.
Qed.

(** A byte 32 in an encoding is a space of the string, and a string whose
    encoding is all ASCII is that encoding. *)
Lemma encode_char_ascii (c : N) (b : bytes) :
  encode_char c = Some b ->
  (c < 128 /\ b = [c]) \/ (128 <= c /\ Forall (fun x => 128 <= x) b).
Proof.
  unfold encode_char.
  destruct (N.ltb_spec c 128); [intros E; apply Some_inj in E; subst b; left; auto|].
  right. split; [assumption|]. revert H0.
  destruct (N.ltb_spec c 2048); [intros E; apply Some_inj in E; subst b; repeat constructor; lia|].
  destruct (N.ltb_spec c 65536).
  { destruct (is_surrogate c); [discriminate|].
    intros E; apply Some_inj in E; subst b; repeat constructor; lia. }
  destruct (N.ltb_spec c 1114112); [|discriminate].
  intros E; apply Some_inj in E; subst b; repeat constructor; lia.
Qed.

End Utf8Facts.

(** ** Percent-encoding *)

Module QuoteFacts.

Import Urllib.

Lemma hexval_hexdigit (n : N) : n < 16 -> hexval (hexdigit n) = Some n.
Proof.
  intros H. unfold hexval, hexdigit, is_ascii_digit.
  destruct (N.ltb_spec n 10).
  - decide_cmp. cbn [andb]. f_equal. lia.
  - decide_cmp. cbn [andb]. f_equal. lia.
Qed.

Lemma hexdigit_safe (n : N) : n < 16 -> is_always_safe (hexdigit n) = true.
Proof.
  intros H. unfold hexdigit, is_always_safe, is_ascii_alpha, is_ascii_upper,
    is_ascii_lower, is_ascii_digit.
  destruct (N.ltb_spec n 10); decide_cmp; reflexivity.
Qed.

Lemma always_safe_bounds (c : N) :
  is_always_safe c = true -> 45 <= c /\ c <= 126 /\ c <> 61.
Proof.
  unfold is_always_safe, is_ascii_alpha, is_ascii_upper, is_ascii_lower,
    is_ascii_digit.
  intros H.
  repeat (apply orb_true_iff in H; destruct H as [H | H]);
    repeat (apply andb_true_iff in H; destruct H as [? H]);
    repeat match goal with
           | K : (_ <=? _) = true |- _ => apply N.leb_le in K
           | K : (_ =? _) = true |- _ => apply N.eqb_eq in K
           end; lia.
Qed.

Lemma quoter_chars (safe : N -> bool) (b : N) :
  b < 256 ->
  Forall (fun c => is_always_safe c = true \/ c = 37 \/ (safe b = true /\ c = b))
         (quoter safe b).
Proof.
  intros H. unfold quoter.
  destruct (is_always_safe b) eqn:E; cbn [orb].
  - constructor; [now left | constructor].
  - destruct (safe b) eqn:F.
    + constructor; [right; right; now split | constructor].
    + assert (b / 16 < 16) by lia. assert (b mod 16 < 16) by lia.
      constructor; [right; now left|].
      constructor; [left; now apply hexdigit_safe|].
      constructor; [left; now apply hexdigit_safe | constructor].
Qed.

Lemma forallb_rstrip_nil (f : N -> bool) (s : str) :
  rstrip_of f s = [] -> forallb f s = true.
Proof.
  unfold rstrip_of. intros H.
  destruct (lstrip_of_decompose f (rev s)) as [w [E Hw]].
  apply (f_equal (@rev N)) in H. rewrite rev_involutive in H. simpl in H.
  rewrite H, app_nil_r in E.
  apply (f_equal (@rev N)) in E. rewrite rev_involutive in E. subst s.
  rewrite forallb_forall in *. intros x Hx. apply Hw. now apply in_rev.
Qed.

(** The shortcut of [quote_from_bytes] changes nothing. *)
Lemma quote_from_bytes_flat_map (bs : bytes) (safe : N -> bool) :
  quote_from_bytes bs safe = flat_map (quoter safe) bs.
Proof.
  unfold quote_from_bytes.
  destruct bs as [|b bs]; [reflexivity|]. cbn [is_empty].
  destruct (is_empty (rstrip_of (fun b0 => is_always_safe b0 || safe b0) (b :: bs)))
    eqn:E; [|reflexivity].
  apply is_empty_nil, forallb_rstrip_nil in E.
  generalize dependent (b :: bs). clear. intros l H.
  induction l as [|x l IH]; [reflexivity|].
  cbn [forallb] in H. apply andb_true_iff in H as [Hx Hl].
  cbn [flat_map]. unfold quoter at 1. rewrite Hx. cbn [app]. f_equal. auto.
Qed.

Lemma encode_space (s : str) (bs : bytes) :
  Utf8.encode s = Some bs -> has_char 32 bs = has_char 32 s.
Proof.
  revert bs. induction s as [|c s IH]; intros bs H.
  - apply Some_inj in H. now subst bs.
  - cbn [Utf8.encode] in H.
    destruct (Utf8.encode_char c) as [b|] eqn:Ec; [|discriminate].
    destruct (Utf8.encode s) as [bs'|] eqn:Es; [|discriminate].
    apply Some_inj in H. subst bs.
    rewrite has_char_app, has_char_cons, (IH bs' eq_refl). f_equal.
    apply Utf8Facts.encode_char_ascii in Ec as [[Hc ->] | [Hc Hb]].
    + rewrite has_char_cons. cbn [has_char existsb]. apply orb_false_r.
    + replace (32 =? c) with false by (symmetry; apply N.eqb_neq; lia).
      destruct (has_char 32 b) eqn:F; [|reflexivity].
      apply has_char_In in F. rewrite Forall_forall in Hb.
      apply Hb in F. lia.
Qed.

(** [quote_plus] writes the bytes of the string one by one. *)
Lemma quote_plus_spec (s : str) :
  quote_plus s =
  match Utf8.encode s with
  | Some bs => Ok (flat_map quote_plus_byte bs)
  | None => Raise UnicodeEncodeError
  end.
Proof.
  unfold quote_plus, quote.
  destruct s as [|c s]; [reflexivity|]. cbn [is_empty].
  destruct (Utf8.encode (c :: s)) as [bs|] eqn:E.
  2:{ destruct (negb (has_char 32 (c :: s))); reflexivity. }
  pose proof (Utf8Facts.encode_bytes _ _ E) as Hb.
  pose proof (encode_space _ _ E) as Hs.
  rewrite !quote_from_bytes_flat_map.
  destruct (has_char 32 (c :: s)) eqn:F; cbn [negb bind]; f_equal.
  - rewrite replace_single, flat_map_flat_map.
    clear E Hs F. induction Hb as [|b bs Hb Hbs IH]; [reflexivity|].
    cbn [flat_map]. rewrite IH. f_equal.
    unfold quote_plus_byte, quoter.
    destruct (N.eqb_spec b 32) as [-> | Hn]; [reflexivity|].
    rewrite orb_false_r.
    pose proof (quoter_chars (fun _ => false) b Hb) as Hq. unfold quoter in Hq.
    cbn [orb] in Hq. rewrite orb_false_r in Hq.
    destruct (is_always_safe b) eqn:Es.
    + cbn [flat_map app]. apply N.eqb_neq in Hn. now rewrite Hn.
    + clear Hn.
      induction Hq as [|x l Hx Hl IHl]; [reflexivity|].
      cbn [flat_map]. rewrite IHl.
      replace (x =? 32) with false; [reflexivity|].
      symmetry. apply N.eqb_neq.
      destruct Hx as [Hx | [-> | [Hx _]]]; [|lia | discriminate].
      apply always_safe_bounds in Hx. lia.
  - clear E Hb.
    induction bs as [|b bs IH]; [reflexivity|].
    rewrite has_char_cons in Hs. apply orb_false_iff in Hs as [Hb Hs].
    cbn [flat_map]. rewrite (IH Hs). f_equal.
    unfold quote_plus_byte. rewrite N.eqb_sym, Hb. reflexivity.
Qed.

Lemma quote_plus_byte_chars (b : N) :
  b < 256 -> forallb is_quoted_char (quote_plus_byte b) = true.
Proof.
  intros H. unfold quote_plus_byte.
  destruct (b =? 32); [reflexivity|].
  pose proof (quoter_chars (fun _ => false) b H) as Hq.
  apply forallb_forall. intros x Hx. rewrite Forall_forall in Hq.
  unfold is_quoted_char.
  destruct (Hq x Hx) as [-> | [-> | [K _]]]; [reflexivity | | discriminate].
  now rewrite orb_true_r.
Qed.

Lemma quote_plus_chars (s q : str) :
  quote_plus s = Ok q -> forallb is_quoted_char q = true.
Proof.
  rewrite quote_plus_spec.
  destruct (Utf8.encode s) as [bs|] eqn:E; [|discriminate].
  intros H. injection H as <-.
  pose proof (Utf8Facts.encode_bytes _ _ E) as Hb. clear E.
  induction Hb as [|b l Hb Hl IH]; [reflexivity|].
  cbn [flat_map]. rewrite forallb_app, (quote_plus_byte_chars b Hb).
  apply IH.
Qed.

End QuoteFacts.

Module UnquoteFacts.

Import Urllib.

Lemma split_char_nonempty (c : N) (s : str) :
  exists p ps, split_char c s = p :: ps.
Proof.
  induction s as [|x s [p [ps E]]]; cbn [split_char]; [eauto|].
  rewrite E. destruct (x =? c); eauto.
Qed.

Lemma split_char_cons (c x : N) (s : str) :
  split_char c (x :: s) =
  match split_char c s with
  | p :: ps => if x =? c then [] :: p :: ps else (x :: p) :: ps
  | [] => [[]]
  end.
Proof. reflexivity. Qed.

Lemma unquote_to_bytes_cons (c : N) (s : str) :
  c <> 37 -> unquote_to_bytes (c :: s) = c :: unquote_to_bytes s.
Proof.
  intros H. unfold unquote_to_bytes. rewrite split_char_cons.
  destruct (split_char_nonempty 37 s) as [p [ps ->]].
  apply N.eqb_neq in H. rewrite H. reflexivity.
Qed.

Lemma unquote_to_bytes_escape (h1 h2 a b : N) (s : str) :
  hexval h1 = Some a -> hexval h2 = Some b -> h1 <> 37 -> h2 <> 37 ->
  unquote_to_bytes (37 :: h1 :: h2 :: s) = (16 * a + b) :: unquote_to_bytes s.
Proof.
  intros Ha Hb H1 H2. unfold unquote_to_bytes. rewrite !split_char_cons.
  destruct (split_char_nonempty 37 s) as [p [ps ->]].
  apply N.eqb_neq in H1, H2. rewrite H1, H2, N.eqb_refl.
  cbn [app flat_map unquote_item]. rewrite Ha, Hb. reflexivity.
Qed.

Lemma hexdigit_not_percent (n : N) : n < 16 -> hexdigit n <> 37.
Proof. unfold hexdigit. destruct (n <? 10); lia. Qed.

Lemma quoted_byte_cases (b : N) :
  b < 256 ->
  (quoted_byte b = [b] /\ b <> 37 /\ b < 128 /\ b <> 43) \/
  quoted_byte b = [37; hexdigit (b / 16); hexdigit (b mod 16)].
Proof.
  intros H. unfold quoted_byte, quoter.
  destruct (N.eqb_spec b 32) as [-> | Hn]; [left; repeat split; lia|].
  rewrite orb_false_r.
  destruct (is_always_safe b) eqn:E; [left | now right].
  apply QuoteFacts.always_safe_bounds in E.
  assert (b <> 43).
  { intros ->. lia. }
  repeat split; lia.
Qed.

(** Unquoting gives back the bytes that were quoted. *)
Lemma unquote_to_bytes_quoted (bs : bytes) :
  Forall (fun x => x < 256) bs ->
  unquote_to_bytes (flat_map quoted_byte bs) = bs.
Proof.
  induction 1 as [|b bs Hb Hbs IH]; [reflexivity|].
  cbn [flat_map].
  destruct (quoted_byte_cases b Hb) as [[-> [H37 _]] | ->].
  - cbn [app]. rewrite unquote_to_bytes_cons by assumption. now rewrite IH.
  - cbn [app].
    assert (b / 16 < 16) by lia. assert (b mod 16 < 16) by lia.
    rewrite (unquote_to_bytes_escape _ _ (b / 16) (b mod 16))
      by auto using QuoteFacts.hexval_hexdigit, hexdigit_not_percent.
    rewrite IH. f_equal. lia.
Qed.

Lemma quoted_byte_ascii (bs : bytes) :
  Forall (fun x => x < 256) bs ->
  forallb is_ascii (flat_map quoted_byte bs) = true.
Proof.
  induction 1 as [|b bs Hb Hbs IH]; [reflexivity|].
  cbn [flat_map]. rewrite forallb_app, IH, andb_true_r.
  destruct (quoted_byte_cases b Hb) as [[-> [_ [Hlt _]]] | ->].
  - cbn [forallb]. unfold is_ascii. apply N.ltb_lt in Hlt. now rewrite Hlt.
  - assert (b / 16 < 16) by lia. assert (b mod 16 < 16) by lia.
    assert (K : forall n, n < 16 -> is_ascii (hexdigit n) = true).
    { intros n Hn. unfold is_ascii, hexdigit. apply N.ltb_lt.
      destruct (n <? 10); lia. }
    cbn [forallb]. now rewrite !K.
Qed.

(** Where nothing had to be escaped the quoted text is the bytes
    themselves. *)
Lemma quoted_byte_plain (bs : bytes) :
  Forall (fun x => x < 256) bs ->
  has_char 37 (flat_map quoted_byte bs) = false ->
  flat_map quoted_byte bs = bs /\ forallb is_ascii bs = true.
Proof.
  induction 1 as [|b bs Hb Hbs IH]; [split; reflexivity|].
  cbn [flat_map]. rewrite has_char_app. intros H.
  apply orb_false_iff in H as [H1 H2]. destruct (IH H2) as [E Ha].
  destruct (quoted_byte_cases b Hb) as [[Eq [_ [Hlt _]]] | Eq]; rewrite Eq in *.
  - cbn [app forallb]. rewrite E, Ha. split; [reflexivity|].
    unfold is_ascii. apply N.ltb_lt in Hlt. now rewrite Hlt.
  - rewrite has_char_cons in H1. discriminate.
Qed.

Lemma ascii_runs_ascii (s : str) :
  s <> [] -> forallb is_ascii s = true -> ascii_runs s = [(true, s)].
Proof.
  induction s as [|c s IH]; [congruence|]. intros _ H.
  cbn [forallb] in H. apply andb_true_iff in H as [Hc Hs].
  cbn [ascii_runs]. destruct s as [|d s].
  - cbn [ascii_runs]. now rewrite Hc.
  - rewrite IH by (congruence || assumption). now rewrite Hc.
Qed.

Lemma decode_ascii (bs : bytes) :
  forallb is_ascii bs = true -> Utf8.decode bs = bs.
Proof.
  unfold Utf8.decode. induction bs as [|b bs IH]; [reflexivity|].
  cbn [forallb]. intros H. apply andb_true_iff in H as [Hb Hbs].
  rewrite Utf8Facts.decode_from_None_cons. unfold Utf8.classify.
  unfold is_ascii in Hb. rewrite Hb. now rewrite IH.
Qed.

Lemma unquote_quoted (bs : bytes) :
  Forall (fun x => x < 256) bs ->
  unquote (flat_map quoted_byte bs) = Utf8.decode bs.
Proof.
  intros Hb. unfold unquote.
  destruct (has_char 37 (flat_map quoted_byte bs)) eqn:E; cbn [negb].
  - assert (Hne : flat_map quoted_byte bs <> []).
    { intros K. rewrite K in E. discriminate. }
    rewrite (ascii_runs_ascii _ Hne (quoted_byte_ascii bs Hb)).
    cbn [flat_map fst snd]. rewrite app_nil_r.
    now rewrite unquote_to_bytes_quoted.
  - destruct (quoted_byte_plain bs Hb E) as [-> Ha].
    symmetry. now apply decode_ascii.
Qed.

Lemma plus_to_space (bs : bytes) :
  Forall (fun x => x < 256) bs ->
  replace [43] [32] (flat_map quote_plus_byte bs) = flat_map quoted_byte bs.
Proof.
  intros Hb. rewrite replace_single, flat_map_flat_map.
  induction Hb as [|b bs Hb Hbs IH]; [reflexivity|].
  cbn [flat_map]. rewrite IH. f_equal.
  unfold quote_plus_byte.
  destruct (N.eqb_spec b 32) as [-> | Hn].
  { reflexivity. }
  destruct (quoted_byte_cases b Hb) as [[Eq [_ [_ H43]]] | Eq]; rewrite Eq;
    unfold quoted_byte in Eq; apply N.eqb_neq in Hn; rewrite Hn in Eq;
    rewrite Eq.
  - cbn [flat_map app].
    apply N.eqb_neq in H43. now rewrite H43.
  - assert (b / 16 < 16) by lia. assert (b mod 16 < 16) by lia.
    assert (K : forall n, n < 16 -> (hexdigit n =? 43) = false).
    { intros n Hn'. unfold hexdigit. apply N.eqb_neq. destruct (n <? 10); lia. }
    cbn [flat_map app]. now rewrite !K.
Qed.

(** What [quote_plus] wrote, [parse_qsl] reads back. *)
Lemma unquote_plus_quote_plus (s q : str) :
  quote_plus s = Ok q -> unquote (replace [43] [32] q) = s.
Proof.
  rewrite QuoteFacts.quote_plus_spec.
  destruct (Utf8.encode s) as [bs|] eqn:E; [|discriminate].
  intros H. injection H as <-.
  pose proof (Utf8Facts.encode_bytes _ _ E) as Hb.
  rewrite plus_to_space, unquote_quoted by assumption.
  now apply Utf8Facts.decode_encode.
Qed.

End UnquoteFacts.

(** * Further properties of the code *)

(** ** Product Normalizer: what each emitted product is *)

Lemma trimmed_strip (s : str) : trimmed (strip s).
Proof. apply strip_idem. Qed.

(** A trimmed text that is not empty begins and ends with a character that
    is not white space. *)
Lemma trimmed_ends (s : str) :
  trimmed s -> s <> [] ->
  match s with [] => True | c :: _ => isspace c = false end /\
  match rev s with [] => False | c :: _ => isspace c = false end.
Proof.
  unfold trimmed, strip. intros H Hne. split.
  - rewrite <- H. apply rstrip_of_head, lstrip_of_head.
  - assert (E : rev s = lstrip_of isspace (rev (lstrip_of isspace s))).
    { rewrite <- H at 1. unfold rstrip_of. now rewrite rev_involutive. }
    pose proof (lstrip_of_head isspace (rev (lstrip_of isspace s))) as Hh.
    rewrite <- E in Hh. destruct (rev s) as [|c r] eqn:R; [|exact Hh].
    apply (f_equal (@rev N)) in R. rewrite rev_involutive in R. now apply Hne.
Qed.

Lemma trimmed_app (a b : str) :
  match a with [] => False | c :: _ => isspace c = false end ->
  trimmed b -> b <> [] -> trimmed (a ++ b).
Proof.
  intros Ha Hb Hne. destruct (trimmed_ends b Hb Hne) as [_ Hlast].
  unfold trimmed, strip.
  rewrite (lstrip_of_fix isspace (a ++ b)) by (destruct a; [destruct Ha | exact Ha]).
  unfold rstrip_of. rewrite rev_app_distr.
  rewrite (lstrip_of_fix isspace (rev b ++ rev a)).
  - now rewrite <- rev_app_distr, rev_involutive.
  - destruct (rev b) as [|c r]; [destruct Hlast | exact Hlast].
Qed.

Section NormalizerFacts.

Context {RT : PyRuntime}.

(** Every product the loop adds is the normalized form of the first record
    that has its identifier. *)
Lemma normalize_loop_first (items : list json) :
  forall out seen res,
    normalize_loop items out seen = Ok res ->
    forall p, In p res ->
      In p out \/
      exists pre it post,
        items = pre ++ it :: post /\
        asin p <> [] /\ ~ In (asin p) seen /\
        (forall it', In it' pre -> asin_of it' <> Ok (asin p)) /\
        asin_of it = Ok (asin p) /\
        normalized_record it (asin p) = Ok p.
Proof.
  induction items as [|it rest IH]; intros out seen res H p Hp.
  - simpl in H. inversion H. subst. now left.
  - rewrite normalize_loop_step in H. bind_named H a.
    destruct (is_empty a || mem a seen) eqn:E.
    + destruct (IH _ _ _ H p Hp)
        as [Ho | [pre [it' [post [-> [Hne [Hs [Hpre Hit]]]]]]]]; [now left|].
      right. exists (it :: pre), it', post. split_all; try assumption.
      * reflexivity.
      * intros x [<- | Hx]; [|now apply Hpre].
        rewrite Ha. intros K. inversion K. subst a.
        apply orb_true_iff in E as [E | E].
        -- apply is_empty_nil in E. now apply Hne.
        -- apply mem_In in E. now apply Hs.
      * apply Hit.
      * apply Hit.
    + bind_named H q. apply orb_false_iff in E as [E1 E2].
      destruct (IH _ _ _ H p Hp)
        as [Ho | [pre [it' [post [-> [Hne [Hs [Hpre Hit]]]]]]]].
      * apply in_app_or in Ho as [Ho | [Ho | []]]; [now left|].
        subst q. right. exists [], it, rest.
        rewrite (normalized_record_asin _ _ _ Hq).
        split_all; try assumption.
        -- reflexivity.
        -- intros K. subst a. discriminate.
        -- intros K. apply mem_In in K. congruence.
        -- intros x [].
      * right. exists (it :: pre), it', post. split_all; try assumption.
        -- reflexivity.
        -- intros K. apply Hs. now right.
        -- intros x [<- | Hx]; [|now apply Hpre].
           rewrite Ha. intros K. inversion K. subst a.
           apply Hs. now left.
        -- apply Hit.
        -- apply Hit.
Qed.

Lemma py_strip_trimmed (v : json) (s : str) : py_strip v = Ok s -> trimmed s.
Proof.
  destruct v; simpl; try discriminate. intros H. inversion H.
  apply trimmed_strip.
Qed.

Lemma asin_of_trimmed (it : json) (a : str) : asin_of it = Ok a -> trimmed a.
Proof.
  unfold asin_of. intros H. bind_inv H. now apply py_strip_trimmed in H.
Qed.

Lemma normalize_best_for_trimmed (v : json) :
  Forall (fun t => t <> [] /\ trimmed t) (normalize_best_for v).
Proof.
  unfold normalize_best_for. apply firstn_Forall.
  apply Forall_forall. intros t Ht.
  apply in_map_iff in Ht as [x [<- Hx]].
  apply filter_In in Hx as [_ Hx]. split; [|apply trimmed_strip].
  apply negb_true_iff in Hx. now apply is_empty_false.
Qed.

Lemma Product_trimmed : trimmed (py "Product") /\ py "Product" <> [].
Proof. split; [vm_compute; reflexivity | vm_compute; discriminate]. Qed.

Lemma normalized_record_fields (it : json) (a : str) (p : product) :
  normalized_record it a = Ok p ->
  name p <> [] /\ trimmed (name p) /\ trimmed (description p) /\
  trimmed (image_url p) /\ trimmed (amazon_url p) /\
  Forall (fun t => t <> [] /\ trimmed t) (best_for p).
Proof.
  unfold normalized_record. intros H.
  bind_named H bf. bind_named H v1. bind_named H n.
  bind_named H v2. bind_named H d. bind_named H v3. bind_named H i.
  bind_named H v4. bind_named H u.
  apply py_strip_trimmed in Hn, Hd, Hi, Hu.
  inversion H. subst p. cbn [name description image_url amazon_url best_for].
  split_all; try assumption.
  - destruct (is_empty n) eqn:E; [apply Product_trimmed|].
    now apply is_empty_false.
  - destruct (is_empty n); [apply Product_trimmed | assumption].
  - apply normalize_best_for_trimmed.
Qed.

(** The outbound link of a record, from its [amazon_url] entry. *)
Lemma normalized_record_url (d : list (str * json)) (a : str) (p : product) :
  normalized_record (JDict d) a = Ok p ->
  match lookup (py "amazon_url") d with
  | Some v =>
      if truthy v then exists s, v = JStr s /\ amazon_url p = strip s
      else amazon_url p = strip (default_amazon_url a)
  | None => amazon_url p = strip (default_amazon_url a)
  end.
Proof.
  unfold normalized_record. intros H.
  bind_named H bf. bind_named H v1. bind_named H n.
  bind_named H v2. bind_named H ds. bind_named H v3. bind_named H i.
  bind_named H v4. bind_named H u.
  inversion H. subst p. cbn [amazon_url]. clear H.
  cbn [py_get] in Hv4. inversion Hv4. subst v4. clear Hv4.
  unfold py_or in Hu. fold (default_amazon_url a) in Hu.
  destruct (lookup (py "amazon_url") d) as [v|].
  - destruct (truthy v) eqn:T.
    + destruct v; cbn [py_strip] in Hu; try discriminate.
      inversion Hu. eauto.
    + cbn [py_strip] in Hu. now inversion Hu.
  - cbn [truthy py_strip] in Hu. now inversion Hu.
Qed.

Lemma default_amazon_url_trimmed (a : str) :
  trimmed a -> a <> [] -> strip (default_amazon_url a) = default_amazon_url a.
Proof.
  intros Ha Hne. apply trimmed_app; try assumption.
  vm_compute. reflexivity.
Qed.

(** All exceptions of the loop are [AttributeError]. *)
Lemma py_get_raises (v : json) (k : str) (e : exn) :
  py_get v k = Raise e -> e = AttributeError.
Proof. destruct v; simpl; congruence. Qed.

Lemma py_strip_raises (v : json) (e : exn) :
  py_strip v = Raise e -> e = AttributeError.
Proof. destruct v; simpl; congruence. Qed.

Lemma text_field_raises (it : json) (k : str) (default : json) (e : exn) :
  (v <- py_get it k ;; py_strip (py_or v default)) = Raise e ->
  e = AttributeError.
Proof.
  destruct (py_get it k) as [v|e'] eqn:E; simpl.
  - apply py_strip_raises.
  - intros H. inversion H. subst. now apply py_get_raises in E.
Qed.

Lemma normalized_record_raises (it : json) (a : str) (e : exn) :
  normalized_record it a = Raise e -> e = AttributeError.
Proof.
  unfold normalized_record.
  destruct (py_get it (py "best_for")) as [bf|e0] eqn:E0; simpl;
    [|intros H; inversion H; subst; now apply py_get_raises in E0].
  destruct (py_get it (py "product_name")) as [v1|e1] eqn:E1; simpl;
    [|intros H; inversion H; subst; now apply py_get_raises in E1].
  destruct (py_strip (py_or v1 (JStr (py "")))) as [n|e1] eqn:F1; simpl;
    [|intros H; inversion H; subst; now apply py_strip_raises in F1].
  destruct (py_get it (py "description")) as [v2|e2] eqn:E2; simpl;
    [|intros H; inversion H; subst; now apply py_get_raises in E2].
  destruct (py_strip (py_or v2 (JStr (py "")))) as [ds|e2] eqn:F2; simpl;
    [|intros H; inversion H; subst; now apply py_strip_raises in F2].
  destruct (py_get it (py "image_url")) as [v3|e3] eqn:E3; simpl;
    [|intros H; inversion H; subst; now apply py_get_raises in E3].
  destruct (py_strip (py_or v3 (JStr (py "")))) as [i|e3] eqn:F3; simpl;
    [|intros H; inversion H; subst; now apply py_strip_raises in F3].
  destruct (py_get it (py "amazon_url")) as [v4|e4] eqn:E4; simpl;
    [|intros H; inversion H; subst; now apply py_get_raises in E4].
  destruct (py_strip (py_or v4 (JStr (py "https://www.amazon.com/dp/" ++ a))))
    as [u|e4] eqn:F4; simpl;
    [discriminate|intros H; inversion H; subst; now apply py_strip_raises in F4].
Qed.

Lemma normalize_loop_raises (items : list json) :
  forall out seen e,
    normalize_loop items out seen = Raise e -> e = AttributeError.
Proof.
  induction items as [|it rest IH]; intros out seen e H.
  - discriminate.
  - rewrite normalize_loop_step in H.
    destruct (asin_of it) as [a|e'] eqn:Ea; simpl in H.
    + destruct (is_empty a || mem a seen); [now apply IH in H|].
      destruct (normalized_record it a) as [p|e''] eqn:Ep; simpl in H.
      * now apply IH in H.
      * inversion H. subst. now apply normalized_record_raises in Ep.
    + inversion H. subst. unfold asin_of in Ea.
      now apply text_field_raises in Ea.
Qed.

(** X1. Every product that [normalize_products] returns has an identifier and
    a name that are not empty; its identifier, name, description, image URL
    and outbound link have no white space at either end; each of its
    [best_for] tags is not empty and has no white space at either end. *)
Theorem normalized_fields_trimmed (items : list json) (out : list product)
        (p : product) :
  normalize_products items = Ok out -> In p out ->
  asin p <> [] /\ name p <> [] /\
  Forall trimmed [asin p; name p; description p; image_url p; amazon_url p] /\
  Forall (fun t => t <> [] /\ trimmed t) (best_for p).
Proof.
  unfold normalize_products. intros H Hp.
  destruct (normalize_loop_first _ _ _ _ H p Hp)
    as [[] | [pre [it [post [_ [Hne [_ [_ [Ha Hr]]]]]]]]].
  apply asin_of_trimmed in Ha.
  destruct (normalized_record_fields _ _ _ Hr) as [Hn [Tn [Td [Ti [Tu Tb]]]]].
  split_all; try assumption.
  repeat constructor; assumption.
Qed.

(** X2. Each product that [normalize_products] returns is built from the
    first record of the input that has its identifier: the records before it
    have other identifiers, and the fields of later records with the same
    identifier are never read. *)
Theorem first_record_wins (items : list json) (out : list product) (p : product) :
  normalize_products items = Ok out -> In p out ->
  exists pre it post,
    items = pre ++ it :: post /\
    (forall it', In it' pre -> asin_of it' <> Ok (asin p)) /\
    asin_of it = Ok (asin p) /\
    normalized_record it (asin p) = Ok p.
Proof.
  unfold normalize_products. intros H Hp.
  destruct (normalize_loop_first _ _ _ _ H p Hp)
    as [[] | [pre [it [post [E [_ [_ [Hpre [Ha Hr]]]]]]]]].
  exists pre, it, post. split_all; assumption.
Qed.

(** X3. The outbound link of a returned product comes from the record the
    product is built from, the first one of the input with its identifier:
    it is the trimmed [amazon_url] of that record when that entry is a text
    that is not empty (a text of white space only gives an empty link, not
    the default), and [https://www.amazon.com/dp/] followed by the
    identifier when the entry is absent, null or empty.  The link of a later
    record with the same identifier is never used. *)
Theorem normalized_amazon_url (items : list json) (out : list product)
        (p : product) :
  normalize_products items = Ok out -> In p out ->
  exists pre d post,
    items = pre ++ JDict d :: post /\
    (forall it', In it' pre -> asin_of it' <> Ok (asin p)) /\
    asin_of (JDict d) = Ok (asin p) /\
    match lookup (py "amazon_url") d with
    | Some v =>
        if truthy v then exists s, v = JStr s /\ amazon_url p = strip s
        else amazon_url p = default_amazon_url (asin p)
    | None => amazon_url p = default_amazon_url (asin p)
    end.
Proof.
  unfold normalize_products. intros H Hp.
  destruct (normalize_loop_first _ _ _ _ H p Hp)
    as [[] | [pre [it [post [E [Hne [_ [Hpre [Ha Hr]]]]]]]]].
  destruct it as [| | | | | |d]; try discriminate.
  exists pre, d, post. split_all.
  - exact E.
  - exact Hpre.
  - assumption.
  - pose proof (normalized_record_url _ _ _ Hr) as Hu.
    rewrite default_amazon_url_trimmed in Hu
      by (assumption || now apply asin_of_trimmed in Ha).
    exact Hu.
Qed.

(** X4. A record that is not a JSON object, or whose [amazon_asin] is a
    value other than a text that counts as true (a number other than zero,
    [true], a list or an object that is not empty), is not skipped: with such
    a record anywhere in the input [normalize_products] raises
    [AttributeError] and returns no list. *)
Theorem normalize_products_bad_record (items : list json) (it : json) :
  In it items ->
  ((forall d, it <> JDict d) \/
   (exists d v, it = JDict d /\ lookup (py "amazon_asin") d = Some v /\
                truthy v = true /\ forall s, v <> JStr s)) ->
  normalize_products items = Raise AttributeError.
Proof.
  intros Hin Hbad.
  assert (Ha : forall a, asin_of it <> Ok a).
  { intros a. unfold asin_of.
    destruct Hbad as [Hn | [d [v [-> [Hl [Ht Hs]]]]]].
    - destruct it; try discriminate. now destruct (Hn d).
    - cbn [py_get]. rewrite Hl. cbn [bind]. unfold py_or. rewrite Ht.
      destruct v; try discriminate. now destruct (Hs s). }
  unfold normalize_products.
  destruct (normalize_loop items [] []) as [res|e] eqn:E.
  - destruct (normalize_loop_keys _ _ _ _ E) as [keys [Hk _]].
    apply (in_map asin_of) in Hin. rewrite Hk in Hin.
    apply in_map_iff in Hin as [k [Hk' _]]. symmetry in Hk'.
    now apply Ha in Hk'.
  - f_equal. now apply normalize_loop_raises in E.
Qed.

End NormalizerFacts.

Lemma normalized_fields_trimmed_witness :
  exists out,
    normalize_products (RT := cpython_3_11) sample_records = Ok out /\
    map name out = [py "Product"; py "Product"] /\
    Forall (fun p =>
              asin p <> [] /\ name p <> [] /\
              Forall trimmed [asin p; name p; description p; image_url p;
                              amazon_url p] /\
              Forall (fun t => t <> [] /\ trimmed t) (best_for p)) out.
Proof.
  eexists. split; [reflexivity|]. split; [reflexivity|].
  apply Forall_forall. intros p Hp.
  apply (normalized_fields_trimmed (RT := cpython_3_11) sample_records _ p
           eq_refl Hp).
Defined.

Lemma first_record_wins_witness :
  exists out p,
    normalize_products (RT := cpython_3_11) sample_records = Ok out /\
    In p out /\ asin p = py "B001" /\
    exists pre it post,
      sample_records = pre ++ it :: post /\
      (forall it', In it' pre -> asin_of it' <> Ok (asin p)) /\
      asin_of it = Ok (asin p) /\
      normalized_record (RT := cpython_3_11) it (asin p) = Ok p.
Proof.
  eexists. eexists. split; [reflexivity|].
  split; [left; reflexivity|]. split; [reflexivity|].
  apply (first_record_wins (RT := cpython_3_11) sample_records _ _ eq_refl).
  left. reflexivity.
Defined.

Lemma normalized_amazon_url_witness :
  exists out,
    normalize_products (RT := cpython_3_11) link_records = Ok out /\
    map amazon_url out
    = [py ""; py "https://example.com/p?x=1";
       py "https://www.amazon.com/dp/B003"; py "https://www.amazon.com/dp/B004"] /\
    Forall (fun p =>
              exists pre d post,
                link_records = pre ++ JDict d :: post /\
                (forall it', In it' pre -> asin_of it' <> Ok (asin p)) /\
                asin_of (JDict d) = Ok (asin p) /\
                match lookup (py "amazon_url") d with
                | Some v =>
                    if truthy v
                    then exists s, v = JStr s /\ amazon_url p = strip s
                    else amazon_url p = default_amazon_url (asin p)
                | None => amazon_url p = default_amazon_url (asin p)
                end) out.
Proof.
  pose (out := match normalize_products (RT := cpython_3_11) link_records with
               | Ok out => out
               | Raise _ => []
               end).
  assert (E : normalize_products (RT := cpython_3_11) link_records = Ok out)
    by (vm_compute; reflexivity).
  exists out. split; [exact E|]. split; [vm_compute; reflexivity|].
  apply Forall_forall. intros p Hp.
  exact (normalized_amazon_url (RT := cpython_3_11) link_records out p E Hp).
Defined.

Lemma normalize_products_bad_record_witness :
  normalize_products (RT := cpython_3_11)
    (sample_records ++ [JStr (py "B009")]) = Raise AttributeError /\
  normalize_products (RT := cpython_3_11)
    [JDict [(py "amazon_asin", JInt 42)]] = Raise AttributeError.
Proof.
  split.
  - apply (normalize_products_bad_record (RT := cpython_3_11) _ (JStr (py "B009"))).
    + apply in_or_app. right. left. reflexivity.
    + left. intros d. discriminate.
  - apply (normalize_products_bad_record (RT := cpython_3_11) _
             (JDict [(py "amazon_asin", JInt 42)])).
    + left. reflexivity.
    + right. exists [(py "amazon_asin", JInt 42)], (JInt 42).
      split_all; [reflexivity | reflexivity | reflexivity | intros s; discriminate].
Defined.

(** ** Config Loader *)

Lemma setdefault_app (d : list (str * json)) (k : str) (v : json) :
  setdefault d k v
  = d ++ (match lookup k d with Some _ => [] | None => [(k, v)] end).
Proof.
  unfold setdefault. destruct (lookup k d); [now rewrite app_nil_r | reflexivity].
Qed.

Lemma lookup_filter_absent (k : str) (d defaults : list (str * json)) :
  lookup k d = None ->
  lookup k (filter (fun kv => match lookup (fst kv) d with
                              | Some _ => false
                              | None => true
                              end) defaults)
  = lookup k defaults.
Proof.
  intros E. induction defaults as [|[k' v] l IH]; [reflexivity|].
  cbn [filter fst]. destruct (str_eqb k k') eqn:G.
  - apply str_eqb_eq in G. subst k'. rewrite E. cbn [lookup].
    now rewrite str_eqb_refl.
  - destruct (lookup k' d); cbn [lookup]; rewrite ?G; exact IH.
Qed.

(** The items of the configuration after [load_config]. *)
Lemma load_config_items (d : list (str * json)) :
  load_config (Ok (JDict d))
  = Ok (JDict (d ++ filter (fun kv => match lookup (fst kv) d with
                                      | Some _ => false
                                      | None => true
                                      end)
                           config_defaults)).
Proof.
  unfold load_config, config_defaults. cbn [bind filter fst].
  rewrite !setdefault_app, !lookup_app.
  destruct (lookup (py "title") d), (lookup (py "description") d),
    (lookup (py "intro_paragraphs") d), (lookup (py "meta_note") d),
    (lookup (py "products") d);
    cbn [lookup]; eval_literals; cbn [lookup];
    rewrite <- ?app_assoc, ?app_nil_r; reflexivity.
Qed.

(** X5. [load_config] passes on the exception of the read, and raises
    [AttributeError] on a document that is not an object.  On an object it
    returns the items of the document, in their order, followed by the
    defaults of those of the five keys [title], [description],
    [intro_paragraphs], [meta_note], [products] that the document does not
    have: a key that is present keeps its value, whatever it is (a null
    stays null), and every other key of the document is kept. *)
Theorem load_config_defaults :
  (forall e, load_config (Raise e) = Raise e) /\
  (forall v, (forall d, v <> JDict d) -> load_config (Ok v) = Raise AttributeError) /\
  (forall d,
     load_config (Ok (JDict d))
     = Ok (JDict (d ++ filter (fun kv => match lookup (fst kv) d with Some _ => false | None => true end)
                              config_defaults))) /\
  (forall d d',
     load_config (Ok (JDict d)) = Ok (JDict d') ->
     forall k, lookup k d' = match lookup k d with
                             | Some v => Some v
                             | None => lookup k config_defaults
                             end).
Proof.
  split_all.
  - reflexivity.
  - intros v Hv. destruct v; try reflexivity. now destruct (Hv d).
  - apply load_config_items.
  - intros d d' H k. rewrite load_config_items in H.
    apply (f_equal (fun r => match r with Ok (JDict x) => x | _ => [] end)) in H.
    cbv beta iota in H. subst d'.
    rewrite lookup_app. destruct (lookup k d) as [v|] eqn:E; [reflexivity|].
    now apply lookup_filter_absent.
Qed.

Lemma load_config_defaults_witness :
  load_config (Ok (JDict [(py "products", JNull); (py "theme", JStr (py "dark"))]))
  = Ok (JDict [(py "products", JNull); (py "theme", JStr (py "dark"));
               (py "title", JStr (py "Product shortlist"));
               (py "description", JStr (py "A simple shortlist of products."));
               (py "intro_paragraphs", JList []);
               (py "meta_note", JStr (py ""))]) /\
  load_config (Ok (JList [])) = Raise AttributeError /\
  (forall d',
     load_config (Ok (JDict [(py "products", JNull)])) = Ok (JDict d') ->
     lookup (py "products") d' = Some JNull /\
     lookup (py "meta_note") d' = Some (JStr (py ""))).
Proof.
  destruct load_config_defaults as [_ [Hbad [Hload Hlookup]]].
  split_all.
  - rewrite Hload. vm_compute. reflexivity.
  - apply Hbad. intros d. discriminate.
  - intros d' H. rewrite !(Hlookup _ _ H). split; vm_compute; reflexivity.
Defined.

(** ** Image Resolver *)

Section ImageCache.

Context {RT : PyRuntime}.

(** X6. [cache_image] makes at most one request, to the URL it was given,
    and writes at most one file, after the request: its calls to the outside
    world are none (the URL is empty), the creation of [assets/img] alone,
    that and the request, or those two and the writing of the body of a
    response with status 200 and a body that is not empty. *)
Theorem cache_image_effects (w : world) (asin remote_url : str) :
  let t := fst (cache_image w asin remote_url) in
  (t = [] /\ remote_url = []) \/
  t = [Mkdir (py "assets/img")] \/
  t = [Mkdir (py "assets/img"); HttpGet remote_url] \/
  exists content content_type,
    http_get w remote_url = Response 200 content content_type /\
    content <> [] /\
    t = [Mkdir (py "assets/img"); HttpGet remote_url;
         WriteBytes (cached_path asin remote_url content_type) content].
Proof.
  cbv zeta. unfold cache_image. rewrite IMG_DIR_str.
  destruct (is_empty remote_url) eqn:E.
  { left. apply is_empty_nil in E. now split. }
  right. unfold io_emit. rewrite io_bind_Ok. cbn [fst snd].
  destruct (mkdir_ok w (py "assets/img")); cbn [negb]; [|now left].
  right. rewrite io_bind_Ok. cbn [fst snd].
  destruct (http_get w remote_url) as [|st content ct]; [now left|].
  destruct (Z.eqb_spec st 200) as [-> | Hst]; cbn [negb orb]; [|now left].
  destruct (is_empty content) eqn:Ec; [now left|].
  right. exists content, ct. apply is_empty_false in Ec.
  split_all; [reflexivity | assumption |].
  cbv zeta. rewrite io_bind_Ok. cbn [fst snd].
  fold (cached_path asin remote_url ct).
  destruct (write_ok w _); reflexivity.
Qed.

(** X7. The images directory is created before the request, outside the
    [try]: for a URL that is not empty, when [assets/img] cannot be created
    [cache_image] raises [OSError] and makes no request.  For an empty URL
    it returns the placeholder path without touching anything. *)
Theorem cache_image_mkdir_failure (w : world) (asin remote_url : str) :
  cache_image w asin [] = ([], Ok PLACEHOLDER) /\
  (remote_url <> [] -> mkdir_ok w (py "assets/img") = false ->
   cache_image w asin remote_url = ([Mkdir (py "assets/img")], Raise OSError)).
Proof.
  split; [reflexivity|]. intros Hne Hm.
  unfold cache_image. rewrite IMG_DIR_str, Hm.
  apply is_empty_false in Hne. rewrite Hne. reflexivity.
Qed.

(** X8. When the body of a good response cannot be written to its file,
    [cache_image] returns the remote URL and raises nothing: the file was
    opened for writing, and the page will point at the remote image. *)
Theorem cache_image_write_failure (w : world) (asin remote_url : str)
        (content : bytes) (content_type : option str) :
  remote_url <> [] ->
  mkdir_ok w (py "assets/img") = true ->
  http_get w remote_url = Response 200 content content_type ->
  content <> [] ->
  write_ok w (cached_path asin remote_url content_type) = false ->
  cache_image w asin remote_url
  = ([Mkdir (py "assets/img"); HttpGet remote_url;
      WriteBytes (cached_path asin remote_url content_type) content],
     Ok remote_url).
Proof.
  intros Hne Hm Hg Hc Hw.
  unfold cache_image. rewrite IMG_DIR_str, Hm, Hg.
  apply is_empty_false in Hne, Hc. rewrite Hne, Hc.
  cbn [negb Z.eqb Pos.eqb orb]. cbv zeta.
  fold (cached_path asin remote_url content_type). rewrite Hw. reflexivity.
Qed.

(** X9. The file name is joined to the images directory as [pathlib] joins
    paths: an identifier that begins with a slash is an absolute path, which
    replaces the directory.  The body is then written outside [assets/img],
    to the path the identifier and the extension spell. *)
Theorem cache_image_absolute_asin (w : world) (asin remote_url : str)
        (content : bytes) (content_type : option str) :
  starts_with [47] asin = true ->
  cached_path asin remote_url content_type
  = path_str (path_of (asin ++ _safe_ext remote_url content_type)) /\
  starts_with [47] (cached_path asin remote_url content_type) = true /\
  (remote_url <> [] ->
   mkdir_ok w (py "assets/img") = true ->
   http_get w remote_url = Response 200 content content_type ->
   content <> [] ->
   In (WriteBytes (cached_path asin remote_url content_type) content)
      (fst (cache_image w asin remote_url))).
Proof.
  intros Ha.
  destruct asin as [|c r]; [discriminate|].
  rewrite starts_with_cons in Ha. apply andb_true_iff in Ha as [Hc _].
  apply N.eqb_eq in Hc. subst c.
  set (ext := _safe_ext remote_url content_type).
  assert (Hroot : root (path_of ((47 :: r) ++ ext)) = [47; 47]
                  \/ root (path_of ((47 :: r) ++ ext)) = [47]).
  { unfold path_of. cbn [root app]. rewrite (starts_with_cons 47 47 []).
    change (starts_with [] (r ++ ext)) with true.
    destruct (starts_with [47; 47] (47 :: r ++ ext)
              && negb (starts_with [47; 47; 47] (47 :: r ++ ext)));
      [now left | now right]. }
  assert (Hp : cached_path (47 :: r) remote_url content_type
               = path_str (path_of ((47 :: r) ++ ext))).
  { unfold cached_path, path_div. fold ext.
    destruct Hroot as [-> | ->]; reflexivity. }
  split_all.
  - exact Hp.
  - rewrite Hp. unfold path_str.
    destruct Hroot as [Hr | Hr]; rewrite Hr; reflexivity.
  - intros Hne Hm Hg Hcn.
    unfold cache_image. rewrite IMG_DIR_str, Hm, Hg.
    apply is_empty_false in Hne, Hcn. rewrite Hne, Hcn.
    cbn [negb Z.eqb Pos.eqb orb]. cbv zeta.
    fold (cached_path (47 :: r) remote_url content_type).
    unfold io_emit. repeat (rewrite io_bind_Ok; cbn [fst snd]).
    right. right. left. reflexivity.
Qed.

End ImageCache.

Lemma cache_image_mkdir_failure_witness :
  cache_image (RT := cpython_3_11) (readonly_world (py "tag123") (Ok JNull))
              (py "B002") (py "https://img.example.com/b002.png")
  = ([Mkdir (py "assets/img")], Raise OSError).
Proof.
  destruct (cache_image_mkdir_failure (RT := cpython_3_11)
              (readonly_world (py "tag123") (Ok JNull))
              (py "B002") (py "https://img.example.com/b002.png")) as [_ H].
  apply H.
  - vm_compute. discriminate.
  - reflexivity.
Defined.

Lemma cache_image_write_failure_witness :
  cache_image (RT := cpython_3_11) (png_world false)
              (py "B002") (py "https://img.example.com/b002")
  = ([Mkdir (py "assets/img"); HttpGet (py "https://img.example.com/b002");
      WriteBytes (py "assets/img/B002.png") [137; 80; 78; 71]],
     Ok (py "https://img.example.com/b002")).
Proof.
  rewrite (cache_image_write_failure (RT := cpython_3_11) (png_world false)
             (py "B002") (py "https://img.example.com/b002")
             [137; 80; 78; 71] (Some (py "image/png"))).
  - vm_compute. reflexivity.
  - vm_compute. discriminate.
  - reflexivity.
  - reflexivity.
  - discriminate.
  - vm_compute. reflexivity.
Defined.

Lemma cache_image_absolute_asin_witness :
  cached_path (RT := cpython_3_11) (py "/tmp/B002")
              (py "https://img.example.com/b002") (Some (py "image/png"))
  = py "/tmp/B002.png" /\
  In (WriteBytes (py "/tmp/B002.png") [137; 80; 78; 71])
     (fst (cache_image (RT := cpython_3_11) (png_world true) (py "/tmp/B002")
                       (py "https://img.example.com/b002"))).
Proof.
  destruct (cache_image_absolute_asin (RT := cpython_3_11) (png_world true)
              (py "/tmp/B002") (py "https://img.example.com/b002")
              [137; 80; 78; 71] (Some (py "image/png")))
    as [Hp [_ Hw]].
  - vm_compute. reflexivity.
  - assert (E : cached_path (RT := cpython_3_11) (py "/tmp/B002")
                  (py "https://img.example.com/b002") (Some (py "image/png"))
                = py "/tmp/B002.png") by (vm_compute; reflexivity).
    split; [exact E|]. rewrite <- E. apply Hw.
    + vm_compute. discriminate.
    + reflexivity.
    + reflexivity.
    + discriminate.
Defined.

(** ** The build: what it touches, and in which order *)

Lemma io_bind_raise {A B} (e : exn) (k : A -> io B) :
  io_bind (io_lift (Raise e)) k = ([], Raise e).
Proof. reflexivity. Qed.

Lemma forallb_is_image_event_app (a b : list event) :
  forallb is_image_event (a ++ b)
  = forallb is_image_event a && forallb is_image_event b.
Proof. apply forallb_app. Qed.

Section Build.

Context {RT : PyRuntime}.

Lemma cache_image_image_events (w : world) (asin remote_url : str) :
  forallb is_image_event (fst (cache_image w asin remote_url)) = true.
Proof.
  unfold cache_image.
  destruct (is_empty remote_url); [reflexivity|].
  unfold io_emit. rewrite io_bind_Ok. cbn [fst snd].
  destruct (mkdir_ok w (path_str IMG_DIR)); cbn [negb]; [|reflexivity].
  rewrite io_bind_Ok. cbn [fst snd].
  destruct (http_get w remote_url) as [|st content ct]; [reflexivity|].
  destruct (negb (Z.eqb st 200) || is_empty content); [reflexivity|].
  cbv zeta. rewrite io_bind_Ok. cbn [fst snd].
  destruct (write_ok w _); reflexivity.
Qed.

(** The calls of a card are those of the image cache, and there are none
    when caching is off or the product has no image. *)
Lemma card_trace (w : world) (cache : bool) (p : product) (partner_tag : str) :
  forallb is_image_event (fst (card w cache p partner_tag)) = true /\
  (cache = false \/ image_url p = [] -> fst (card w cache p partner_tag) = []).
Proof.
  unfold card.
  destruct (with_affiliate_tag (amazon_url p) partner_tag) as [url|e];
    [rewrite io_bind_lift | split; reflexivity].
  destruct cache.
  - pose proof (cache_image_image_events w (asin p) (image_url p)) as Hc.
    split.
    + destruct (cache_image w (asin p) (image_url p)) as [t [src|e]];
        [rewrite io_bind_Ok; cbn [fst snd io_ret] | exact Hc].
      cbn [fst] in Hc. now rewrite app_nil_r.
    + intros [H | H]; [discriminate|]. rewrite H.
      unfold cache_image. cbn [is_empty]. rewrite io_bind_ret. reflexivity.
  - rewrite io_bind_ret. split; reflexivity.
Qed.

Lemma cards_of_trace (w : world) (cache : bool) (partner_tag : str)
      (products : list product) :
  forallb is_image_event (fst (cards_of w cache products partner_tag)) = true /\
  (cache = false -> fst (cards_of w cache products partner_tag) = []).
Proof.
  induction products as [|p ps [IH1 IH2]]; [split; reflexivity|].
  cbn [cards_of].
  destruct (card_trace w cache p partner_tag) as [H1 H2].
  destruct (card w cache p partner_tag) as [t [c|e]]; cbn [fst] in H1, H2.
  - rewrite io_bind_Ok. cbn [fst snd].
    destruct (cards_of w cache ps partner_tag) as [t' [cs|e]]; cbn [fst] in IH1, IH2.
    + rewrite io_bind_Ok. cbn [fst snd io_ret]. rewrite app_nil_r.
      split; [now rewrite forallb_app, H1, IH1|].
      intros Hc. now rewrite H2, IH2 by auto.
    + cbn [io_bind fst].
      split; [now rewrite forallb_app, H1, IH1|].
      intros Hc. now rewrite H2, IH2 by auto.
  - cbn [io_bind fst]. split; [exact H1|]. intros Hc. apply H2. now left.
Qed.

(** The runs of [main] once the partner tag is there: it stops on the
    configuration, or in the cards, or before the page is written, or on one
    of the two files, or it ends. *)
Lemma main_cases (w : world) :
  partner_tag_of w <> [] ->
  (exists e, main w = ([ReadText CONFIG_FILE], Raise e)) \/
  exists products,
    let c := cards_of w (CACHE_IMAGES (environ w)) products (partner_tag_of w) in
    (exists e, main w = (ReadText CONFIG_FILE :: fst c, Raise e)) \/
    exists html js,
      ((write_ok w (py "index.html") = false \/ encodable html = false) /\
       exists e,
         main w = (ReadText CONFIG_FILE :: fst c ++ [WriteText (py "index.html") html],
                   Raise e)) \/
      (write_ok w (py "index.html") = true /\
       (write_ok w (py "products.json") = false \/ encodable js = false) /\
       exists e,
         main w = (ReadText CONFIG_FILE :: fst c
                     ++ [WriteText (py "index.html") html;
                         WriteText (py "products.json") js],
                   Raise e)) \/
      (write_ok w (py "index.html") = true /\
       write_ok w (py "products.json") = true /\
       main w = (ReadText CONFIG_FILE :: fst c
                   ++ [WriteText (py "index.html") html;
                       WriteText (py "products.json") js],
                 Ok tt)).
Proof.
  intros Htag. unfold main. cbv zeta. fold (partner_tag_of w).
  apply is_empty_false in Htag. rewrite Htag.
  unfold io_emit. rewrite io_bind_Ok. cbn [fst snd].
  destruct (load_config (read_json w CONFIG_FILE)) as [cfg|e];
    [rewrite io_bind_lift | left; exists e; reflexivity].
  match goal with
  | |- context [io_bind (io_lift ?r) _] => destruct r as [items|e]
  end; [rewrite io_bind_lift | left; exists e; reflexivity].
  destruct (normalize_products items) as [products|e];
    [rewrite io_bind_lift | left; exists e; reflexivity].
  right. exists products. cbv zeta.
  destruct (cards_of w (CACHE_IMAGES (environ w)) products (partner_tag_of w))
    as [t [cards|e]];
    [rewrite io_bind_Ok; cbn [fst snd] | left; exists e; reflexivity].
  match goal with
  | |- context [io_bind (io_lift ?r) _] => destruct r as [intro|e]
  end; [rewrite io_bind_lift
       | left; exists e; cbn [io_bind io_lift fst snd]; now rewrite app_nil_r].
  match goal with
  | |- context [io_bind (io_lift ?r) _] => destruct r as [title|e]
  end; [rewrite io_bind_lift
       | left; exists e; cbn [io_bind io_lift fst snd]; now rewrite app_nil_r].
  match goal with
  | |- context [io_bind (io_lift ?r) _] => destruct r as [desc|e]
  end; [rewrite io_bind_lift
       | left; exists e; cbn [io_bind io_lift fst snd]; now rewrite app_nil_r].
  rewrite format_HTML, io_bind_lift.
  right.
  match goal with
  | |- context [write_text w (py "index.html") ?h] => exists h
  end.
  match goal with
  | |- context [write_text w (py "products.json") ?j] => exists j
  end.
  rewrite !write_text_cases.
  match goal with
  | |- context [encodable ?h] => destruct (encodable h) eqn:Eh
  end.
  - destruct (write_ok w (py "index.html")).
    + match goal with
      | |- context [encodable ?j] => destruct (encodable j) eqn:Ej
      end; destruct (write_ok w (py "products.json")).
      * right. right. split_all; [reflexivity | reflexivity |].
        cbn [io_bind io_ret fst snd app]. reflexivity.
      * right. left. split_all; [reflexivity | now left |].
        eexists. cbn [io_bind io_lift fst snd app]. reflexivity.
      * right. left. split_all; [reflexivity | now right |].
        eexists. cbn [io_bind io_lift fst snd app]. reflexivity.
      * right. left. split_all; [reflexivity | now left |].
        eexists. cbn [io_bind io_lift fst snd app]. reflexivity.
    + left. split; [now left|].
      eexists. cbn [io_bind io_lift fst snd app]. reflexivity.
  - left. split; [now right|].
    destruct (write_ok w (py "index.html"));
      eexists; cbn [io_bind io_lift fst snd app]; reflexivity.
Qed.

Lemma main_no_tag (w : world) :
  partner_tag_of w = [] -> main w = ([], Raise (SystemExit missing_tag_message)).
Proof.
  intros H. unfold main. cbv zeta. fold (partner_tag_of w). rewrite H.
  reflexivity.
Qed.

Lemma image_event_not_text (t : list event) (path text : str) :
  forallb is_image_event t = true -> ~ In (WriteText path text) t.
Proof.
  intros H Hin. rewrite forallb_forall in H. apply H in Hin. discriminate.
Qed.

Lemma main_config_error (w : world) (e : exn) :
  partner_tag_of w <> [] ->
  load_config (read_json w CONFIG_FILE) = Raise e ->
  main w = ([ReadText CONFIG_FILE], Raise e).
Proof.
  intros Htag H. unfold main. cbv zeta. fold (partner_tag_of w).
  apply is_empty_false in Htag. rewrite Htag.
  unfold io_emit. rewrite io_bind_Ok. cbn [fst snd].
  rewrite H, io_bind_raise. reflexivity.
Qed.

Lemma main_products_error (w : world) (cfg : json) (e : exn) :
  partner_tag_of w <> [] ->
  load_config (read_json w CONFIG_FILE) = Ok cfg ->
  (v <- py_get_default cfg (py "products") (JList []) ;; py_iter v) = Raise e ->
  main w = ([ReadText CONFIG_FILE], Raise e).
Proof.
  intros Htag H He. unfold main. cbv zeta. fold (partner_tag_of w).
  apply is_empty_false in Htag. rewrite Htag.
  unfold io_emit. rewrite io_bind_Ok. cbn [fst snd].
  rewrite H, io_bind_lift, He, io_bind_raise. reflexivity.
Qed.

(** X10. A card touches the outside world through the image cache only, and
    not at all when caching is off or the product has no image; a product
    without image gets the same card whether caching is on or off. *)
Theorem card_without_image (w : world) (cache : bool) (p : product)
        (partner_tag : str) :
  forallb is_image_event (fst (card w cache p partner_tag)) = true /\
  (cache = false \/ image_url p = [] -> fst (card w cache p partner_tag) = []) /\
  (image_url p = [] -> card w cache p partner_tag = card w false p partner_tag).
Proof.
  destruct (card_trace w cache p partner_tag) as [H1 H2].
  split_all; [exact H1 | exact H2 |].
  intros H. destruct cache; [|reflexivity].
  unfold card. rewrite H. unfold cache_image. cbn [is_empty].
  destruct (with_affiliate_tag (amazon_url p) partner_tag) as [url|e];
    [|now rewrite !io_bind_raise].
  rewrite !io_bind_lift, !io_bind_ret. cbv zeta.
  replace (is_empty PLACEHOLDER) with false by (vm_compute; reflexivity).
  cbn [is_empty]. reflexivity.
Qed.

(** X11. Without a partner tag in the environment, or with one of white
    space only, [main] exits with its message before it reads the
    configuration: it touches nothing. *)
Theorem main_missing_tag (w : world) :
  partner_tag_of w = [] ->
  main w = ([], Raise (SystemExit missing_tag_message)).
Proof.
  intros H. unfold main, missing_tag_message. cbv zeta.
  fold (partner_tag_of w). rewrite H. cbn [is_empty].
  reflexivity.
Qed.

(** X12. With the partner tag set, a configuration that cannot be read or
    parsed, that is not an object, or whose [products] entry is null, a
    boolean or a number (an entry that is present is not replaced by the
    default) ends [main] with the exception of the read, [AttributeError]
    and [TypeError]: the configuration was read, nothing was fetched and
    nothing was written. *)
Theorem main_bad_config (w : world) :
  partner_tag_of w <> [] ->
  (forall e, read_json w CONFIG_FILE = Raise e ->
             main w = ([ReadText CONFIG_FILE], Raise e)) /\
  (forall v, read_json w CONFIG_FILE = Ok v -> (forall d, v <> JDict d) ->
             main w = ([ReadText CONFIG_FILE], Raise AttributeError)) /\
  (forall d v, read_json w CONFIG_FILE = Ok (JDict d) ->
               lookup (py "products") d = Some v ->
               py_iter v = Raise TypeError ->
               main w = ([ReadText CONFIG_FILE], Raise TypeError)).
Proof.
  intros Htag. split_all.
  - intros e He. apply main_config_error; [assumption|]. now rewrite He.
  - intros v Hv Hn. apply main_config_error; [assumption|]. rewrite Hv.
    destruct v; try reflexivity. now destruct (Hn d).
  - intros d v Hd Hl Hi.
    apply (main_products_error w _ _ Htag (eq_trans (f_equal load_config Hd)
                                                    (load_config_items d))).
    unfold py_get_default. rewrite lookup_app, Hl. cbn [bind]. exact Hi.
Qed.

Lemma main_success_trace_aux (w : world) :
  snd (main w) = Ok tt ->
  write_ok w (py "index.html") = true /\ write_ok w (py "products.json") = true.
Proof.
  intros H.
  destruct (partner_tag_of w) as [|c r] eqn:Htag.
  { rewrite (main_no_tag w Htag) in H. discriminate. }
  assert (Hne : partner_tag_of w <> []) by (rewrite Htag; discriminate).
  destruct (main_cases w Hne) as [[e E] | [products Hc]].
  { rewrite E in H. discriminate. }
  cbv zeta in Hc.
  destruct Hc as [[e E] | [html [js Hc]]].
  { rewrite E in H. discriminate. }
  destruct Hc as [[_ [e E]] | [[_ [_ [e E]]] | [H1 [H2 E]]]];
    try (rewrite E in H; discriminate).
  now split.
Qed.

(** X13. A build that ends well has read the configuration first, then made
    the calls of the image cache, then written [index.html], then written
    [products.json], and nothing else; both files could be written. *)
Theorem main_success_trace (w : world) :
  snd (main w) = Ok tt ->
  exists image_events html js,
    fst (main w)
    = ReadText CONFIG_FILE
      :: image_events ++ [WriteText (py "index.html") html;
                          WriteText (py "products.json") js] /\
    forallb is_image_event image_events = true /\
    write_ok w (py "index.html") = true /\
    write_ok w (py "products.json") = true.
Proof.
  intros H.
  destruct (partner_tag_of w) as [|c r] eqn:Htag.
  { rewrite (main_no_tag w Htag) in H. discriminate. }
  assert (Hne : partner_tag_of w <> []) by (rewrite Htag; discriminate).
  destruct (main_cases w Hne) as [[e E] | [products Hc]].
  { rewrite E in H. discriminate. }
  cbv zeta in Hc.
  destruct Hc as [[e E] | [html [js Hc]]].
  { rewrite E in H. discriminate. }
  destruct Hc as [[_ [e E]] | [[_ [_ [e E]]] | [H1 [H2 E]]]];
    try (rewrite E in H; discriminate).
  exists (fst (cards_of w (CACHE_IMAGES (environ w)) products (partner_tag_of w))),
         html, js.
  split_all; [now rewrite E | apply cards_of_trace | assumption | assumption].
Qed.

(** X14. With the caching flag off a build makes no request, creates no
    directory and writes no image, however it ends. *)
Theorem main_without_caching (w : world) :
  CACHE_IMAGES (environ w) = false ->
  forall e, In e (fst (main w)) -> is_image_event e = false.
Proof.
  intros Hoff e He.
  destruct (partner_tag_of w) as [|c r] eqn:Htag.
  { rewrite (main_no_tag w Htag) in He. destruct He. }
  assert (Hne : partner_tag_of w <> []) by (rewrite Htag; discriminate).
  destruct (main_cases w Hne) as [[x E] | [products Hc]].
  { rewrite E in He. destruct He as [<- | []]. reflexivity. }
  cbv zeta in Hc.
  destruct (cards_of_trace w (CACHE_IMAGES (environ w)) (partner_tag_of w) products)
    as [_ Hnil].
  rewrite (Hnil Hoff) in Hc. cbn [app] in Hc.
  destruct Hc as [[x E] | [html [js [[_ [x E]] | [[_ [_ [x E]]] | [_ [_ E]]]]]]];
    rewrite E in He; cbn [fst In] in He;
    repeat (destruct He as [<- | He]; [reflexivity|]); destruct He.
Qed.

(** X15. The page is written before the JSON document, and a file that
    cannot be written ends the build: when [index.html] cannot be written
    the writing of [products.json] is never attempted, and [main] does not
    end well when either of the two cannot be written. *)
Theorem main_write_failure (w : world) :
  (write_ok w (py "index.html") = false ->
   forall js, ~ In (WriteText (py "products.json") js) (fst (main w))) /\
  (write_ok w (py "index.html") = false \/
   write_ok w (py "products.json") = false ->
   snd (main w) <> Ok tt).
Proof.
  assert (Hpaths : forall html js,
            WriteText (py "index.html") html <> WriteText (py "products.json") js).
  { intros html js K.
    apply (f_equal (fun e => match e with WriteText p _ => p | _ => [] end)) in K.
    cbv beta iota in K. vm_compute in K. discriminate. }
  split.
  - intros Hw js Hin.
    destruct (partner_tag_of w) as [|c r] eqn:Htag.
    { rewrite (main_no_tag w Htag) in Hin. destruct Hin. }
    assert (Hne : partner_tag_of w <> []) by (rewrite Htag; discriminate).
    destruct (main_cases w Hne) as [[x E] | [products Hc]].
    { rewrite E in Hin. destruct Hin as [K | []]. discriminate. }
    cbv zeta in Hc.
    destruct (cards_of_trace w (CACHE_IMAGES (environ w)) (partner_tag_of w) products)
      as [Himg _].
    destruct Hc as [[x E] | [html [js' [[_ [x E]] | [[K _] | [K _]]]]]];
      try congruence; rewrite E in Hin; cbn [fst] in Hin.
    + destruct Hin as [K | Hin]; [discriminate|].
      now apply image_event_not_text in Hin.
    + destruct Hin as [K | Hin]; [discriminate|].
      apply in_app_or in Hin as [Hin | [K | []]].
      * now apply image_event_not_text in Hin.
      * now apply Hpaths in K.
  - intros Hw Hok.
    destruct (main_success_trace_aux w Hok) as [H1 H2].
    destruct Hw; congruence.
Qed.

End Build.

Lemma card_without_image_witness :
  image_url widget_product = [] /\
  fst (card (RT := cpython_3_11) sample_world true widget_product (py "tag123")) = [] /\
  card (RT := cpython_3_11) sample_world true widget_product (py "tag123")
  = card (RT := cpython_3_11) sample_world false widget_product (py "tag123").
Proof.
  assert (H : image_url widget_product = []) by (vm_compute; reflexivity).
  destruct (card_without_image (RT := cpython_3_11) sample_world true
              widget_product (py "tag123")) as [_ [H1 H2]].
  split_all; [exact H | apply H1; now right | now apply H2].
Defined.

Lemma main_missing_tag_witness :
  main (RT := cpython_3_11) (readonly_world (py "   ") (Ok JNull))
  = ([], Raise (SystemExit (py "Missing AMZ_PARTNER_TAG (set as GitHub Actions secret)."))).
Proof.
  apply (main_missing_tag (RT := cpython_3_11)).
  vm_compute. reflexivity.
Defined.

Lemma main_bad_config_witness :
  main (RT := cpython_3_11) (readonly_world (py "tag123") (Raise JSONDecodeError))
  = ([ReadText (py "site_config.json")], Raise JSONDecodeError) /\
  main (RT := cpython_3_11) (readonly_world (py "tag123") (Ok (JList [])))
  = ([ReadText (py "site_config.json")], Raise AttributeError) /\
  main (RT := cpython_3_11)
       (readonly_world (py "tag123") (Ok (JDict [(py "products", JNull)])))
  = ([ReadText (py "site_config.json")], Raise TypeError).
Proof.
  assert (Htag : forall c,
            partner_tag_of (readonly_world (py "tag123") c) <> [])
    by (intros c; vm_compute; discriminate).
  split_all.
  - destruct (main_bad_config (RT := cpython_3_11) _ (Htag (Raise JSONDecodeError)))
      as [H _].
    apply H. reflexivity.
  - destruct (main_bad_config (RT := cpython_3_11) _ (Htag (Ok (JList []))))
      as [_ [H _]].
    apply (H (JList [])); [reflexivity | intros d; discriminate].
  - destruct (main_bad_config (RT := cpython_3_11) _
                (Htag (Ok (JDict [(py "products", JNull)]))))
      as [_ [_ H]].
    apply (H [(py "products", JNull)] JNull); reflexivity.
Defined.

Lemma main_success_trace_witness :
  snd (main (RT := cpython_3_11) sample_world) = Ok tt /\
  exists image_events html js,
    fst (main (RT := cpython_3_11) sample_world)
    = ReadText CONFIG_FILE
      :: image_events ++ [WriteText (py "index.html") html;
                          WriteText (py "products.json") js] /\
    forallb is_image_event image_events = true /\
    write_ok sample_world (py "index.html") = true /\
    write_ok sample_world (py "products.json") = true.
Proof.
  assert (H : snd (main (RT := cpython_3_11) sample_world) = Ok tt)
    by (vm_compute; reflexivity).
  split; [exact H|].
  exact (main_success_trace (RT := cpython_3_11) sample_world H).
Defined.

Lemma main_without_caching_witness :
  CACHE_IMAGES (environ empty_world) = false /\
  forall e, In e (fst (main (RT := cpython_3_11) empty_world)) ->
            is_image_event e = false.
Proof.
  assert (H : CACHE_IMAGES (environ empty_world) = false)
    by (vm_compute; reflexivity).
  split; [exact H|].
  exact (main_without_caching (RT := cpython_3_11) empty_world H).
Defined.

Lemma main_write_failure_witness :
  write_ok (readonly_world (py "tag123") (Ok (JDict []))) (py "index.html") = false /\
  (forall js,
     ~ In (WriteText (py "products.json") js)
          (fst (main (RT := cpython_3_11)
                     (readonly_world (py "tag123") (Ok (JDict [])))))) /\
  snd (main (RT := cpython_3_11) (readonly_world (py "tag123") (Ok (JDict []))))
  <> Ok tt.
Proof.
  destruct (main_write_failure (RT := cpython_3_11)
              (readonly_world (py "tag123") (Ok (JDict [])))) as [H1 H2].
  split_all.
  - reflexivity.
  - apply H1. reflexivity.
  - apply H2. left. reflexivity.
Defined.

(** ** HTML escaping, character by character *)

Lemma esc_char_cases (c : N) :
  (is_html_special c = false /\ esc_char c = [c]) \/
  (c = 38 /\ esc_char c = [38; 97; 109; 112; 59]) \/
  (c = 60 /\ esc_char c = [38; 108; 116; 59]) \/
  (c = 62 /\ esc_char c = [38; 103; 116; 59]) \/
  (c = 34 /\ esc_char c = [38; 113; 117; 111; 116; 59]) \/
  (c = 39 /\ esc_char c = [38; 35; 51; 57; 59]).
Proof.
  unfold esc_char, is_html_special, is_markup.
  destruct (N.eqb_spec c 38) as [-> | H38].
  { right. left. split; [reflexivity | vm_compute; reflexivity]. }
  destruct (N.eqb_spec c 60) as [-> | H60].
  { right. right. left. split; [reflexivity | vm_compute; reflexivity]. }
  destruct (N.eqb_spec c 62) as [-> | H62].
  { do 3 right. left. split; [reflexivity | vm_compute; reflexivity]. }
  destruct (N.eqb_spec c 34) as [-> | H34].
  { do 4 right. left. split; [reflexivity | vm_compute; reflexivity]. }
  destruct (N.eqb_spec c 39) as [-> | H39].
  { do 5 right. split; [reflexivity | vm_compute; reflexivity]. }
  left. split; reflexivity.
Qed.

Lemma special_38 : is_html_special 38 = true.
Proof. reflexivity. Qed.

Lemma esc_char_inj (x y : N) (a b : str) :
  esc_char x ++ a = esc_char y ++ b -> x = y /\ a = b.
Proof.
  intros H.
  destruct (esc_char_cases x) as [[Hx Ex] | [[Hx Ex] | [[Hx Ex] | [[Hx Ex] | [[Hx Ex] | [Hx Ex]]]]]];
  destruct (esc_char_cases y) as [[Hy Ey] | [[Hy Ey] | [[Hy Ey] | [[Hy Ey] | [[Hy Ey] | [Hy Ey]]]]]];
    rewrite Ex, Ey in H; cbn [app] in H;
    try (apply (f_equal (firstn 2)) in H; cbn [firstn] in H; discriminate H);
    try (split; [congruence|];
         apply (f_equal (skipn 4)) in H; cbn [skipn] in H;
         first [ exact H
               | apply (f_equal (skipn 1)) in H; cbn [skipn] in H;
                 first [ exact H
                       | apply (f_equal (skipn 1)) in H; cbn [skipn] in H; exact H ] ]).
  - apply (f_equal (fun l => (hd 0 l, tl l))) in H. cbn [hd tl] in H.
    apply pair_equal_spec in H. exact H.
  - apply (f_equal (hd 0)) in H. cbn [hd] in H. subst x. discriminate Hx.
  - apply (f_equal (hd 0)) in H. cbn [hd] in H. subst x. discriminate Hx.
  - apply (f_equal (hd 0)) in H. cbn [hd] in H. subst x. discriminate Hx.
  - apply (f_equal (hd 0)) in H. cbn [hd] in H. subst x. discriminate Hx.
  - apply (f_equal (hd 0)) in H. cbn [hd] in H. subst x. discriminate Hx.
  - apply (f_equal (hd 0)) in H. cbn [hd] in H. subst y. discriminate Hy.
  - apply (f_equal (hd 0)) in H. cbn [hd] in H. subst y. discriminate Hy.
  - apply (f_equal (hd 0)) in H. cbn [hd] in H. subst y. discriminate Hy.
  - apply (f_equal (hd 0)) in H. cbn [hd] in H. subst y. discriminate Hy.
  - apply (f_equal (hd 0)) in H. cbn [hd] in H. subst y. discriminate Hy.
Qed.

Lemma esc_char_nonempty (c : N) : esc_char c <> [].
Proof.
  destruct (esc_char_cases c) as [[_ E] | [[_ E] | [[_ E] | [[_ E] | [[_ E] | [_ E]]]]]];
    rewrite E; discriminate.
Qed.

Lemma flat_map_esc_char_inj (a : str) :
  forall b, flat_map esc_char a = flat_map esc_char b -> a = b.
Proof.
  induction a as [|x a IH]; intros [|y b] H; cbn [flat_map] in H.
  - reflexivity.
  - symmetry in H. apply app_eq_nil in H as [H _]. now apply esc_char_nonempty in H.
  - apply app_eq_nil in H as [H _]. now apply esc_char_nonempty in H.
  - apply esc_char_inj in H as [-> H]. f_equal. now apply IH.
Qed.

Lemma esc_char_length (c : N) :
  (1 <= List.length (esc_char c))%nat /\
  (List.length (esc_char c) = 1%nat -> is_html_special c = false).
Proof.
  destruct (esc_char_cases c) as [[S E] | [[_ E] | [[_ E] | [[_ E] | [[_ E] | [_ E]]]]]];
    rewrite E; cbn [List.length]; split; try lia; intros; assumption.
Qed.

Lemma esc_length (s : str) :
  (List.length s <= List.length (esc s))%nat /\
  (List.length (esc s) = List.length s ->
   forallb (fun c => negb (is_html_special c)) s = true).
Proof.
  rewrite esc_flat_map. induction s as [|c s [IH1 IH2]]; [split; reflexivity|].
  cbn [flat_map forallb List.length]. rewrite length_app.
  destruct (esc_char_length c) as [H1 H2].
  split; [lia|]. intros H.
  rewrite H2 by lia. rewrite IH2 by lia. reflexivity.
Qed.

Lemma esc_plain (s : str) :
  forallb (fun c => negb (is_html_special c)) s = true -> esc s = s.
Proof.
  rewrite esc_flat_map. induction s as [|c s IH]; [reflexivity|].
  cbn [forallb flat_map]. intros H. apply andb_true_iff in H as [Hc Hs].
  rewrite (IH Hs). apply negb_true_iff in Hc.
  destruct (esc_char_cases c) as [[_ E] | [[K _] | [[K _] | [[K _] | [[K _] | [K _]]]]]];
    try (rewrite K in Hc; discriminate Hc).
  now rewrite E.
Qed.

(** X16. [esc] works character by character, whatever the order of its five
    replacements: the escaped form of a concatenation is the concatenation
    of the escaped forms, escaping never shortens a text, and it leaves a
    text as it is exactly when the text holds none of the five characters. *)
Theorem esc_textwise :
  (forall a b, esc (a ++ b) = esc a ++ esc b) /\
  (forall s, (List.length s <= List.length (esc s))%nat) /\
  (forall s, esc s = s <-> forallb (fun c => negb (is_html_special c)) s = true).
Proof.
  split_all.
  - intros a b. rewrite !esc_flat_map. apply flat_map_app.
  - intros s. apply esc_length.
  - intros s. split; [|apply esc_plain].
    intros H. apply esc_length. now rewrite H.
Qed.

Lemma esc_textwise_witness :
  esc (py "a<b" ++ py "&c") = py "a&lt;b" ++ py "&amp;c" /\
  esc (py "plain text") = py "plain text" /\
  forallb (fun c => negb (is_html_special c)) (py "plain text") = true.
Proof.
  destruct esc_textwise as [Happ [_ Hplain]].
  assert (H : forallb (fun c => negb (is_html_special c)) (py "plain text") = true)
    by (vm_compute; reflexivity).
  split_all.
  - rewrite Happ. vm_compute. reflexivity.
  - now apply Hplain.
  - exact H.
Defined.

(** X17. [esc] loses nothing: two different texts have different escaped
    forms.  So escaping twice is not escaping once: [esc (esc s)] is
    [esc s] only for a text without any of the five characters. *)
Theorem esc_injective :
  (forall a b, esc a = esc b -> a = b) /\
  (forall s, esc (esc s) = esc s <->
             forallb (fun c => negb (is_html_special c)) s = true).
Proof.
  assert (Hinj : forall a b, esc a = esc b -> a = b).
  { intros a b. rewrite !esc_flat_map. apply flat_map_esc_char_inj. }
  split; [exact Hinj|]. intros s. split.
  - intros H. apply Hinj in H. apply esc_length. now rewrite H.
  - intros H. now rewrite !(esc_plain s H).
Qed.

Lemma esc_injective_witness :
  esc (py "Tom & Jerry") = esc (py "Tom & Jerry") /\
  (esc (esc (py "Tom & Jerry")) = esc (py "Tom & Jerry") -> False).
Proof.
  destruct esc_injective as [Hinj _].
  split; [reflexivity|]. intros H.
  apply Hinj in H. vm_compute in H. discriminate H.
Defined.

(** X18. Whatever the URL and the declared content type are, [_safe_ext]
    returns one of [.png], [.jpg], [.webp], [.avif], [.gif], [.img]: a dot
    and three or four letters or digits, never [.jpeg], never a slash. *)
Theorem safe_ext_range {RT : PyRuntime} (url : str) (content_type : option str) :
  In (_safe_ext url content_type) extensions /\
  has_char 47 (_safe_ext url content_type) = false /\
  _safe_ext url content_type <> py ".jpeg".
Proof.
  pose proof (safe_ext_in_extensions url content_type) as H.
  split; [exact H|].
  unfold extensions in H. cbn [map In] in H.
  repeat (destruct H as [<- | H];
          [split; vm_compute; [reflexivity | discriminate]|]).
  destruct H.
Qed.

(** ** dict *)

Lemma lookup_dict_set {A} (d : list (str * A)) (k k' : str) (v : A) :
  lookup k' (dict_set d k v) = if str_eqb k' k then Some v else lookup k' d.
Proof.
  induction d as [|[k0 v0] d IH]; cbn [dict_set lookup].
  - reflexivity.
  - destruct (str_eqb k k0) eqn:E; cbn [lookup].
    + apply str_eqb_eq in E. subst k0.
      destruct (str_eqb k' k); reflexivity.
    + destruct (str_eqb k' k0) eqn:F; [|exact IH].
      apply str_eqb_eq in F. subst k0.
      rewrite str_eqb_sym in E. now rewrite E.
Qed.

Lemma keys_dict_set {A} (d : list (str * A)) (k : str) (v : A) :
  keys (dict_set d k v) = if mem k (keys d) then keys d else keys d ++ [k].
Proof.
  unfold keys. induction d as [|[k0 v0] d IH]; cbn [dict_set map fst mem existsb].
  - reflexivity.
  - unfold mem in *. cbn [existsb].
    destruct (str_eqb k k0); cbn [map fst orb]; [reflexivity|].
    rewrite IH. now destruct (existsb _ _).
Qed.

Lemma dict_set_NoDup {A} (d : list (str * A)) (k : str) (v : A) :
  NoDup (keys d) -> NoDup (keys (dict_set d k v)).
Proof.
  intros H. rewrite keys_dict_set.
  destruct (mem k (keys d)) eqn:E; [exact H|].
  apply mem_not_In in E.
  apply NoDup_app; [exact H | repeat constructor; intros [] |].
  intros x Hx [<- | []]. contradiction.
Qed.

Lemma fold_dict_set_NoDup {A} (l acc : list (str * A)) :
  NoDup (keys acc) ->
  NoDup (keys (fold_left (fun d kv => dict_set d (fst kv) (snd kv)) l acc)).
Proof.
  revert acc. induction l as [|[k v] l IH]; intros acc H; [exact H|].
  cbn [fold_left]. apply IH. now apply dict_set_NoDup.
Qed.

Lemma dict_of_pairs_NoDup {A} (l : list (str * A)) : NoDup (keys (dict_of_pairs l)).
Proof. apply fold_dict_set_NoDup. constructor. Qed.

(** The value of a key in [dict(pairs)] is the one of its last pair. *)
Lemma lookup_fold_dict_set {A} (l acc : list (str * A)) (k : str) :
  lookup k (fold_left (fun d kv => dict_set d (fst kv) (snd kv)) l acc)
  = match lookup k (rev l) with
    | Some v => Some v
    | None => lookup k acc
    end.
Proof.
  revert acc. induction l as [|[k0 v0] l IH]; intros acc; [reflexivity|].
  cbn [fold_left rev fst snd]. rewrite IH, lookup_app, lookup_dict_set.
  destruct (lookup k (rev l)); [reflexivity|].
  cbn [lookup]. now destruct (str_eqb k k0).
Qed.

Lemma lookup_dict_of_pairs {A} (l : list (str * A)) (k : str) :
  lookup k (dict_of_pairs l) = lookup k (rev l).
Proof.
  unfold dict_of_pairs. rewrite lookup_fold_dict_set.
  now destruct (lookup k (rev l)).
Qed.

Lemma dict_set_same {A} (d : list (str * A)) (k : str) (v : A) :
  lookup k d = Some v -> dict_set d k v = d.
Proof.
  induction d as [|[k0 v0] d IH]; cbn [lookup dict_set]; [discriminate|].
  destruct (str_eqb k k0); intros H.
  - now inversion H.
  - now rewrite IH.
Qed.

Lemma dict_set_fresh {A} (d : list (str * A)) (k : str) (v : A) :
  ~ In k (keys d) -> dict_set d k v = d ++ [(k, v)].
Proof.
  unfold keys. induction d as [|[k0 v0] d IH]; cbn [dict_set map fst app];
    [reflexivity|].
  intros H. destruct (str_eqb k k0) eqn:E.
  - apply str_eqb_eq in E. subst. exfalso. apply H. now left.
  - rewrite IH; [reflexivity|]. intros K. apply H. now right.
Qed.

Lemma fold_dict_set_fresh {A} (l acc : list (str * A)) :
  NoDup (keys (acc ++ l)) ->
  fold_left (fun d kv => dict_set d (fst kv) (snd kv)) l acc = acc ++ l.
Proof.
  revert acc. induction l as [|[k v] l IH]; intros acc H.
  - now rewrite app_nil_r.
  - cbn [fold_left fst snd].
    assert (Hk : ~ In k (keys acc)).
    { unfold keys in *. rewrite map_app in H. cbn [map fst] in H.
      apply NoDup_remove_2 in H. intros K. apply H.
      apply in_or_app. now left. }
    rewrite (dict_set_fresh acc k v Hk).
    rewrite IH; rewrite <- app_assoc; [reflexivity | exact H].
Qed.

(** The items of a dict make the same dict again. *)
Lemma dict_of_pairs_id {A} (l : list (str * A)) :
  NoDup (keys l) -> dict_of_pairs l = l.
Proof. intros H. apply (fold_dict_set_fresh l []). exact H. Qed.

Lemma filter_key_absent {A} (d : list (str * A)) (k : str) :
  ~ In k (keys d) -> filter (fun kv => str_eqb (fst kv) k) d = [].
Proof.
  unfold keys. induction d as [|[k0 v0] d IH]; [reflexivity|].
  cbn [map fst filter In]. intros H.
  destruct (str_eqb k0 k) eqn:E.
  - apply str_eqb_eq in E. exfalso. apply H. now left.
  - apply IH. intros K. apply H. now right.
Qed.

(** In a dict a key has one item. *)
Lemma filter_key_NoDup {A} (d : list (str * A)) (k : str) (v : A) :
  NoDup (keys d) -> lookup k d = Some v ->
  filter (fun kv => str_eqb (fst kv) k) d = [(k, v)].
Proof.
  unfold keys. induction d as [|[k0 v0] d IH]; [discriminate|].
  cbn [map fst lookup filter]. intros Hn H.
  apply NoDup_cons_iff in Hn as [Hk Hn].
  rewrite (str_eqb_sym k0 k).
  destruct (str_eqb k k0) eqn:E.
  - apply str_eqb_eq in E. subst k0. inversion H. subst v0.
    now rewrite (filter_key_absent d k Hk).
  - now apply IH.
Qed.

(** ** The query string, written and read back *)

Module QueryFacts.

Import Urllib.

Lemma split_char_app (c : N) (p rest : str) :
  has_char c p = false ->
  split_char c (p ++ c :: rest) = p :: split_char c rest.
Proof.
  induction p as [|x p IH]; intros H.
  - cbn [app]. rewrite UnquoteFacts.split_char_cons.
    destruct (UnquoteFacts.split_char_nonempty c rest) as [q [qs ->]].
    now rewrite N.eqb_refl.
  - rewrite has_char_cons in H. apply orb_false_iff in H as [Hx Hp].
    cbn [app]. rewrite UnquoteFacts.split_char_cons, (IH Hp).
    rewrite N.eqb_sym, Hx. reflexivity.
Qed.

Lemma split_char_join (c : N) (l : list str) :
  l <> [] -> Forall (fun p => has_char c p = false) l ->
  split_char c (join [c] l) = l.
Proof.
  induction l as [|p l IH]; [congruence|]. intros _ H.
  apply Forall_cons_iff in H as [Hp Hl].
  destruct l as [|q l].
  - cbn [join]. now apply split_char_absent.
  - change (join [c] (p :: q :: l)) with (p ++ c :: join [c] (q :: l)).
    rewrite (split_char_app c p _ Hp). f_equal.
    apply IH; [discriminate | exact Hl].
Qed.

Lemma cut_app (c : N) (a b : str) :
  has_char c a = false -> cut c (a ++ c :: b) = Some (a, b).
Proof.
  induction a as [|x a IH]; intros H; cbn [app cut].
  - now rewrite N.eqb_refl.
  - rewrite has_char_cons in H. apply orb_false_iff in H as [Hx Ha].
    rewrite N.eqb_sym, Hx, (IH Ha). reflexivity.
Qed.

Lemma cut_None (c : N) (s : str) : has_char c s = false -> cut c s = None.
Proof.
  induction s as [|x s IH]; intros H; cbn [cut]; [reflexivity|].
  rewrite has_char_cons in H. apply orb_false_iff in H as [Hx Hs].
  rewrite N.eqb_sym, Hx, (IH Hs). reflexivity.
Qed.

Lemma cut_Some (c : N) (s a b : str) :
  cut c s = Some (a, b) -> s = a ++ c :: b /\ has_char c a = false.
Proof.
  revert a. induction s as [|x s IH]; intros a H; cbn [cut] in H; [discriminate|].
  destruct (N.eqb_spec x c) as [-> | Hx].
  - apply Some_inj in H. apply pair_equal_spec in H as [<- <-]. now split.
  - destruct (cut c s) as [[a' b']|]; [|discriminate].
    apply Some_inj in H. apply pair_equal_spec in H as [<- <-].
    destruct (IH a' eq_refl) as [-> Ha]. split; [reflexivity|].
    rewrite has_char_cons, Ha. apply N.eqb_neq in Hx.
    rewrite N.eqb_sym, Hx. reflexivity.
Qed.

Lemma cut_None_inv (c : N) (s : str) : cut c s = None -> has_char c s = false.
Proof.
  induction s as [|x s IH]; intros H; [reflexivity|]. cbn [cut] in H.
  rewrite has_char_cons. destruct (N.eqb_spec x c) as [-> | Hx]; [discriminate|].
  destruct (cut c s) as [[a b]|]; [discriminate|].
  apply N.eqb_neq in Hx. rewrite N.eqb_sym, Hx. now apply IH.
Qed.

Lemma quoted_char_bounds (c : N) :
  is_quoted_char c = true ->
  c <> 38 /\ c <> 61 /\ c <> 35 /\ c <> 63 /\ c <> 58 /\ c <> 59 /\ c <> 47 /\
  c <> 9 /\ c <> 10 /\ c <> 13 /\ c <> 32.
Proof.
  unfold is_quoted_char. intros H.
  apply orb_true_iff in H as [H | H]; [apply orb_true_iff in H as [H | H]|].
  - unfold is_always_safe, is_ascii_alpha, is_ascii_upper, is_ascii_lower,
      is_ascii_digit in H.
    rewrite !orb_true_iff, !andb_true_iff, !N.leb_le, !N.eqb_eq in H. lia.
  - apply N.eqb_eq in H. subst. split_all; discriminate.
  - apply N.eqb_eq in H. subst. split_all; discriminate.
Qed.

Lemma quoted_no_char (q : str) (c : N) :
  forallb is_quoted_char q = true -> is_quoted_char c = false ->
  has_char c q = false.
Proof.
  intros Hq Hc. destruct (has_char c q) eqn:E; [|reflexivity].
  apply has_char_In in E. rewrite forallb_forall in Hq.
  apply Hq in E. congruence.
Qed.

Lemma parse_qsl_pieces (qs : str) :
  parse_qsl qs = flat_map read_piece (if is_empty qs then [] else split_char 38 qs).
Proof. reflexivity. Qed.

Lemma urlencode_items_written (items : list (str * str)) :
  forall l, urlencode_items items = Ok l -> Forall2 written items l.
Proof.
  induction items as [|[k v] items IH]; intros l H; cbn [urlencode_items] in H.
  - apply (f_equal (fun r => match r with Ok x => x | Raise _ => [] end)) in H.
    cbv beta iota in H. subst l. constructor.
  - bind_named H k'. bind_named H v'. bind_named H r.
    apply (f_equal (fun r => match r with Ok x => x | Raise _ => [] end)) in H.
    cbv beta iota in H. subst l. constructor; [|now apply IH].
    exists k', v'. now split_all.
Qed.

Lemma written_read (kv : str * str) (piece : str) :
  written kv piece -> read_piece piece = [kv] /\ has_char 38 piece = false /\ piece <> [].
Proof.
  intros [k' [v' [Hk [Hv ->]]]].
  pose proof (QuoteFacts.quote_plus_chars _ _ Hk) as Ck.
  pose proof (QuoteFacts.quote_plus_chars _ _ Hv) as Cv.
  split_all.
  - unfold read_piece.
    replace (is_empty (k' ++ [61] ++ v')) with false by now destruct k'.
    cbn [app]. rewrite cut_app by (apply quoted_no_char; [assumption | reflexivity]).
    rewrite (UnquoteFacts.unquote_plus_quote_plus _ _ Hk).
    rewrite (UnquoteFacts.unquote_plus_quote_plus _ _ Hv).
    now destruct kv.
  - rewrite !has_char_app.
    rewrite (quoted_no_char k' 38 Ck eq_refl), (quoted_no_char v' 38 Cv eq_refl).
    reflexivity.
  - now destruct k'.
Qed.

Lemma written_pieces (items : list (str * str)) (l : list str) :
  Forall2 written items l ->
  flat_map read_piece l = items /\
  Forall (fun p => has_char 38 p = false) l /\
  (items <> [] -> l <> [] /\ join [38] l <> []).
Proof.
  induction 1 as [|kv p items l Hw Hf [IH1 [IH2 IH3]]].
  - split_all; [reflexivity | constructor | congruence].
  - destruct (written_read kv p Hw) as [Hr [Ha Hne]].
    split_all.
    + cbn [flat_map]. now rewrite Hr, IH1.
    + now constructor.
    + intros _. split; [discriminate|].
      destruct l as [|q l]; cbn [join]; [exact Hne|].
      destruct p; [congruence | discriminate].
Qed.

(** What [urlencode] wrote, [parse_qsl] reads back. *)
Lemma parse_qsl_urlencode (items : list (str * str)) (q : str) :
  urlencode items = Ok q -> parse_qsl q = items.
Proof.
  unfold urlencode. intros H. bind_named H l.
  apply (f_equal (fun r => match r with Ok x => x | Raise _ => [] end)) in H.
  cbv beta iota in H. subst q.
  apply urlencode_items_written in Hl.
  destruct (written_pieces _ _ Hl) as [H1 [H2 H3]].
  rewrite parse_qsl_pieces.
  destruct items as [|kv items].
  - inversion Hl. reflexivity.
  - destruct H3 as [Hne Hj]; [discriminate|].
    apply is_empty_false in Hj. rewrite Hj.
    now rewrite split_char_join.
Qed.

Lemma urlencode_chars (items : list (str * str)) (q : str) :
  urlencode items = Ok q ->
  forallb (fun c => is_quoted_char c || (c =? 61) || (c =? 38)) q = true.
Proof.
  unfold urlencode. intros H. bind_named H l.
  apply (f_equal (fun r => match r with Ok x => x | Raise _ => [] end)) in H.
  cbv beta iota in H. subst q.
  apply urlencode_items_written in Hl.
  induction Hl as [|kv p items l [k' [v' [Hk [Hv ->]]]] Hf IH]; [reflexivity|].
  assert (Hp : forallb (fun c => is_quoted_char c || (c =? 61) || (c =? 38))
                       (k' ++ [61] ++ v') = true).
  { apply QuoteFacts.quote_plus_chars in Hk, Hv.
    rewrite !forallb_app. cbn [forallb]. rewrite andb_true_r.
    rewrite forallb_forall in Hk, Hv.
    apply andb_true_iff. split; [|apply andb_true_iff; split; [reflexivity|]];
      apply forallb_forall; intros c Hc; [apply Hk in Hc | apply Hv in Hc];
      now rewrite Hc. }
  destruct l as [|q l]; [exact Hp|].
  change (join [38] ((k' ++ [61] ++ v') :: q :: l))
    with ((k' ++ [61] ++ v') ++ 38 :: join [38] (q :: l)).
  rewrite forallb_app, Hp. cbn [forallb andb].
  rewrite IH. reflexivity.
Qed.

End QueryFacts.

(** ** Affiliate URL Builder: the query *)

Section TaggedQuery.

Context {RT : PyRuntime}.

Lemma tagged_items_facts (qs tag : str) :
  NoDup (keys (tagged_items qs tag)) /\
  lookup (py "tag") (tagged_items qs tag) = Some tag /\
  filter (fun kv => str_eqb (fst kv) (py "tag")) (tagged_items qs tag)
  = [(py "tag", tag)] /\
  (forall k, k <> py "tag" ->
             lookup k (tagged_items qs tag) = lookup k (rev (Urllib.parse_qsl qs))).
Proof.
  unfold tagged_items.
  assert (Hn : NoDup (keys (dict_set (dict_of_pairs (Urllib.parse_qsl qs))
                                     (py "tag") tag)))
    by apply dict_set_NoDup, dict_of_pairs_NoDup.
  assert (Hl : lookup (py "tag") (dict_set (dict_of_pairs (Urllib.parse_qsl qs))
                                           (py "tag") tag) = Some tag)
    by now rewrite lookup_dict_set, str_eqb_refl.
  split_all.
  - exact Hn.
  - exact Hl.
  - now apply filter_key_NoDup.
  - intros k Hk. rewrite lookup_dict_set, lookup_dict_of_pairs.
    apply str_eqb_neq in Hk. now rewrite Hk.
Qed.

(** The steps of [with_affiliate_tag]. *)
Lemma with_affiliate_tag_steps (url tag r : str) :
  with_affiliate_tag url tag = Ok r ->
  exists c new_query,
    Urllib.urlparse url = Ok c /\
    Urllib.urlencode (tagged_items (Urllib.query c) tag) = Ok new_query /\
    r = Urllib.urlunparse (set_query c new_query).
Proof.
  unfold with_affiliate_tag. intros H. bind_named H c.
  fold (tagged_items (Urllib.query c) tag) in H. bind_named H q.
  fold (set_query c q) in H.
  apply (f_equal (fun r => match r with Ok x => x | Raise _ => [] end)) in H.
  cbv beta iota in H. exists c, q. now split_all.
Qed.

End TaggedQuery.

(** X19. The quoting of [urlencode] and the unquoting of [parse_qsl] undo
    each other: a text that [quote_plus] accepts is written with letters,
    digits, [_.-~], [+] and [%] only, and unquoting gives the text back;
    a list of pairs that [urlencode] accepts is read back by [parse_qsl] as
    the same list, in the same order, blank values and repeated keys
    included. *)
Theorem query_round_trip :
  (forall s q, Urllib.quote_plus s = Ok q ->
               forallb is_quoted_char q = true /\ Urllib.unquote_plus q = s) /\
  (forall items q, Urllib.urlencode items = Ok q -> Urllib.parse_qsl q = items).
Proof.
  split.
  - intros s q H. split.
    + now apply QuoteFacts.quote_plus_chars in H.
    + now apply UnquoteFacts.unquote_plus_quote_plus.
  - apply QueryFacts.parse_qsl_urlencode.
Qed.

Lemma query_round_trip_witness :
  Urllib.urlencode [(py "q", py "caf" ++ [233] ++ py " & tea"); (py "x", py "");
                    (py "q", py "a=b+c")]
  = Ok (py "q=caf%C3%A9+%26+tea&x=&q=a%3Db%2Bc") /\
  Urllib.parse_qsl (py "q=caf%C3%A9+%26+tea&x=&q=a%3Db%2Bc")
  = [(py "q", py "caf" ++ [233] ++ py " & tea"); (py "x", py "");
     (py "q", py "a=b+c")].
Proof.
  assert (E : Urllib.urlencode
                [(py "q", py "caf" ++ [233] ++ py " & tea"); (py "x", py "");
                 (py "q", py "a=b+c")]
              = Ok (py "q=caf%C3%A9+%26+tea&x=&q=a%3Db%2Bc"))
    by (vm_compute; reflexivity).
  split; [exact E|].
  destruct query_round_trip as [_ H]. exact (H _ _ E).
Defined.

(** X20. In the URL that [with_affiliate_tag] returns, for every URL and
    every tag it accepts: the query string is the encoding of a mapping, so
    that it reads back with every key once; the key [tag] has the partner
    tag as its value, whatever its value was and however often it occurred;
    every other key has the value of its last occurrence in the query string
    of the URL given, blank values included. *)
Theorem with_affiliate_tag_query {RT : PyRuntime} (url tag r : str) :
  with_affiliate_tag url tag = Ok r ->
  exists c new_query,
    Urllib.urlparse url = Ok c /\
    r = Urllib.urlunparse (set_query c new_query) /\
    NoDup (keys (Urllib.parse_qsl new_query)) /\
    filter (fun kv => str_eqb (fst kv) (py "tag")) (Urllib.parse_qsl new_query)
    = [(py "tag", tag)] /\
    (forall k, k <> py "tag" ->
               lookup k (Urllib.parse_qsl new_query)
               = lookup k (rev (Urllib.parse_qsl (Urllib.query c)))).
Proof.
  intros H.
  destruct (with_affiliate_tag_steps _ _ _ H) as [c [q [Hc [Hq ->]]]].
  exists c, q.
  rewrite (QueryFacts.parse_qsl_urlencode _ _ Hq).
  destruct (tagged_items_facts (Urllib.query c) tag) as [Hn [_ [Hf Hk]]].
  now split_all.
Qed.

Lemma with_affiliate_tag_query_witness :
  with_affiliate_tag (RT := cpython_3_11)
    (py "https://www.amazon.com/dp/B001?tag=old&th=1&tag=older&psc=&th=2#reviews")
    (py "new tag")
  = Ok (py "https://www.amazon.com/dp/B001?tag=new+tag&th=2&psc=#reviews") /\
  exists c new_query,
    Urllib.urlparse (RT := cpython_3_11)
      (py "https://www.amazon.com/dp/B001?tag=old&th=1&tag=older&psc=&th=2#reviews")
    = Ok c /\
    py "https://www.amazon.com/dp/B001?tag=new+tag&th=2&psc=#reviews"
    = Urllib.urlunparse (RT := cpython_3_11) (set_query c new_query) /\
    NoDup (keys (Urllib.parse_qsl new_query)) /\
    filter (fun kv => str_eqb (fst kv) (py "tag")) (Urllib.parse_qsl new_query)
    = [(py "tag", py "new tag")] /\
    (forall k, k <> py "tag" ->
               lookup k (Urllib.parse_qsl new_query)
               = lookup k (rev (Urllib.parse_qsl (Urllib.query c)))).
Proof.
  assert (E : with_affiliate_tag (RT := cpython_3_11)
                (py "https://www.amazon.com/dp/B001?tag=old&th=1&tag=older&psc=&th=2#reviews")
                (py "new tag")
              = Ok (py "https://www.amazon.com/dp/B001?tag=new+tag&th=2&psc=#reviews"))
    by (vm_compute; reflexivity).
  split; [exact E|].
  exact (with_affiliate_tag_query (RT := cpython_3_11) _ _ _ E).
Defined.

(** ** Affiliate URL Builder: the URL, rebuilt and parsed again *)

(** Turns the comparisons of numbers in the context and the goal into
    propositions. *)
Ltac b2p :=
  repeat (rewrite ?orb_true_iff, ?orb_false_iff, ?andb_true_iff, ?andb_false_iff,
      ?negb_true_iff, ?negb_false_iff, ?N.eqb_eq, ?N.eqb_neq, ?N.leb_le, ?N.leb_gt,
      ?N.ltb_lt, ?N.ltb_ge in * ).

Module UrlFacts.

Import Urllib.

Section WithRuntime.

Context {RT : PyRuntime}.

Lemma urlsplit_steps (url : str) :
  urlsplit url =
  (let (scheme, u) := split_scheme (sanitize url) in
   r <- split_authority u ;;
   let (netloc, u) := r in
   let '(p, q, f) := split_tail u in
   if _checknetloc netloc then Ok (scheme, netloc, p, q, f)
   else Raise ValueError).
Proof.
  unfold urlsplit, split_scheme, split_authority, split_tail, sanitize.
  destruct (cut 58 _) as [[[|c pre] post]|]; cbv zeta;
    try destruct (is_ascii c && is_ascii_alpha c && forallb is_scheme_char (c :: pre));
    match goal with
    | |- context [starts_with [47; 47] ?u] => destruct (starts_with [47; 47] u)
    end;
    try match goal with
        | |- context [_splitnetloc ?u] => destruct (_splitnetloc u) as [nl u']
        end;
    repeat match goal with
           | |- context [if ?b then Raise ValueError else _] => destruct b
           end;
    cbn [bind]; try reflexivity;
    match goal with
    | |- context [cut 35 ?u] => destruct (cut 35 u) as [[a b]|]
    end;
    match goal with
    | |- context [cut 63 ?u] => destruct (cut 63 u) as [[a' b']|]
    end; reflexivity.
Qed.

Lemma urlparse_steps (url : str) :
  urlparse url =
  (r <- urlsplit url ;;
   let '(scheme, netloc, u, query, fragment) := r in
   let (p, params) := split_params scheme u in
   Ok {| scheme := scheme; netloc := netloc; path := p; params := params;
         query := query; fragment := fragment |}).
Proof. reflexivity. Qed.

(** *** Characters *)

Lemma forallb_In {A} (f : A -> bool) (l : list A) (x : A) :
  forallb f l = true -> In x l -> f x = true.
Proof. intros H. now apply forallb_forall. Qed.

Lemma forallb_map_comp {A B} (f : B -> bool) (g : A -> B) (l : list A) :
  forallb f (map g l) = forallb (fun x => f (g x)) l.
Proof. induction l as [|x l IH]; [reflexivity|]. cbn [map forallb]. now rewrite IH. Qed.

Lemma existsb_map_comp {A B} (f : B -> bool) (g : A -> B) (l : list A) :
  existsb f (map g l) = existsb (fun x => f (g x)) l.
Proof. induction l as [|x l IH]; [reflexivity|]. cbn [map existsb]. now rewrite IH. Qed.

Lemma forallb_has_char (f : N -> bool) (c : N) (s : str) :
  forallb f s = true -> f c = false -> has_char c s = false.
Proof.
  intros Hf Hc. destruct (has_char c s) eqn:E; [|reflexivity].
  apply has_char_In in E. apply (forallb_In _ _ _ Hf) in E. congruence.
Qed.

Lemma forallb_impl (f g : N -> bool) (s : str) :
  (forall c, f c = true -> g c = true) ->
  forallb f s = true -> forallb g s = true.
Proof.
  intros H Hf. apply forallb_forall. intros c Hc.
  apply H. now apply (forallb_In f s).
Qed.

Lemma scheme_char_facts (c : N) :
  is_scheme_char c = true ->
  is_ascii c = true /\ is_kept c = true /\ c <> 58 /\ 32 < c /\
  is_scheme_char (ascii_lower c) = true /\ is_ascii_upper (ascii_lower c) = false /\
  (is_ascii_alpha c = true -> is_ascii_alpha (ascii_lower c) = true) /\
  (is_ascii_upper c = false -> ascii_lower c = c).
Proof.
  unfold is_scheme_char, is_ascii, is_kept, ascii_lower, is_ascii_alpha,
    is_ascii_upper, is_ascii_lower, is_ascii_digit.
  intros H.
  destruct ((65 <=? c) && (c <=? 90)) eqn:U; b2p;
    split_all; try lia; intros; b2p; try lia; try discriminate.
Qed.

(** *** Tabs and line ends *)

Lemma remove_char (b : N) (s : str) :
  replace [b] [] s = filter (fun c => negb (c =? b)) s.
Proof.
  rewrite replace_single. induction s as [|c s IH]; [reflexivity|].
  cbn [flat_map filter]. rewrite IH. now destruct (c =? b).
Qed.

Lemma sanitize_filter (url : str) :
  sanitize url
  = filter (fun c => negb (c =? 10))
      (filter (fun c => negb (c =? 13))
         (filter (fun c => negb (c =? 9))
            (lstrip_of is_c0_control_or_space url))).
Proof.
  unfold sanitize, _UNSAFE_URL_BYTES_TO_REMOVE. cbn [fold_left].
  now rewrite !remove_char.
Qed.

Lemma sanitize_kept (url : str) : forallb is_kept (sanitize url) = true.
Proof.
  rewrite sanitize_filter. apply forallb_forall. intros c Hc.
  apply filter_In in Hc as [Hc H10]. apply filter_In in Hc as [Hc H13].
  apply filter_In in Hc as [_ H9].
  unfold is_kept. apply negb_true_iff in H9, H13, H10.
  now rewrite H9, H13, H10.
Qed.

Lemma filter_all {A} (f : A -> bool) (l : list A) :
  forallb f l = true -> filter f l = l.
Proof.
  induction l as [|x l IH]; [reflexivity|]. cbn [forallb filter].
  intros H. apply andb_true_iff in H as [Hx Hl]. now rewrite Hx, IH.
Qed.

(** A URL without tabs and line ends that does not begin with a control
    character or a space is left as it is. *)
Lemma sanitize_fix (url : str) :
  forallb is_kept url = true ->
  match url with [] => True | c :: _ => 32 < c end ->
  sanitize url = url.
Proof.
  intros Hk Hh. rewrite sanitize_filter.
  rewrite lstrip_of_fix.
  - assert (K : forall b, b = 9 \/ b = 13 \/ b = 10 ->
                        filter (fun c => negb (c =? b)) url = url).
    { intros b Hb. apply filter_all. refine (forallb_impl _ _ _ _ Hk).
      unfold is_kept. intros c Hc. b2p. lia. }
    rewrite (K 9), (K 13), (K 10) by lia. reflexivity.
  - destruct url as [|c r]; [exact I|].
    unfold is_c0_control_or_space. apply N.leb_gt. exact Hh.
Qed.

(** *** The scheme *)

Lemma lower_ascii (s : str) :
  forallb is_ascii s = true -> lower s = map ascii_lower s.
Proof. intros H. unfold lower. now rewrite H. Qed.

Lemma scheme_ok_kept (s : str) :
  scheme_ok s = true ->
  forallb is_kept s = true /\ has_char 58 s = false /\
  match s with [] => True | c :: _ => 32 < c end.
Proof.
  destruct s as [|c r]; [now split_all|].
  unfold scheme_ok. intros H.
  apply andb_true_iff in H as [H _]. apply andb_true_iff in H as [_ H].
  split_all.
  - refine (forallb_impl _ _ _ _ H). intros x Hx. now apply scheme_char_facts.
  - apply (forallb_has_char _ _ _ H).
    destruct (is_scheme_char 58) eqn:E; [|reflexivity].
    apply scheme_char_facts in E. lia.
  - cbn [forallb] in H. apply andb_true_iff in H as [H _].
    now apply scheme_char_facts.
Qed.

Lemma lower_scheme_ok (c : N) (pre : str) :
  is_ascii c && is_ascii_alpha c && forallb is_scheme_char (c :: pre) = true ->
  scheme_ok (lower (c :: pre)) = true.
Proof.
  intros H. apply andb_true_iff in H as [H Hs].
  apply andb_true_iff in H as [_ Ha].
  rewrite lower_ascii
    by (refine (forallb_impl _ _ _ _ Hs); intros x Hx; now apply scheme_char_facts).
  cbn [map]. unfold scheme_ok.
  pose proof Hs as Hs'. cbn [forallb] in Hs'.
  apply andb_true_iff in Hs' as [Hc _].
  destruct (scheme_char_facts c Hc) as [_ [_ [_ [_ [_ [_ [Hal _]]]]]]].
  rewrite (Hal Ha). cbn [andb].
  change (ascii_lower c :: map ascii_lower pre) with (map ascii_lower (c :: pre)).
  apply andb_true_iff. split.
  - rewrite forallb_map_comp. refine (forallb_impl _ _ _ _ Hs).
    intros x Hx. now apply scheme_char_facts.
  - apply negb_true_iff. rewrite existsb_map_comp.
    destruct (existsb _ (c :: pre)) eqn:E; [|reflexivity].
    apply existsb_exists in E as [x [Hx Hu]].
    apply (forallb_In _ _ _ Hs) in Hx.
    apply scheme_char_facts in Hx. destruct Hx as [_ [_ [_ [_ [_ [Hx _]]]]]].
    congruence.
Qed.

Lemma scheme_ok_lower (s : str) :
  scheme_ok s = true -> s <> [] ->
  exists c pre,
    s = c :: pre /\
    is_ascii c && is_ascii_alpha c && forallb is_scheme_char (c :: pre) = true /\
    lower (c :: pre) = c :: pre.
Proof.
  destruct s as [|c pre]; [congruence|]. intros H _.
  exists c, pre. unfold scheme_ok in H.
  apply andb_true_iff in H as [H Hu]. apply andb_true_iff in H as [Ha Hs].
  assert (Hascii : forallb is_ascii (c :: pre) = true)
    by (refine (forallb_impl _ _ _ _ Hs); intros x Hx; now apply scheme_char_facts).
  split_all; [reflexivity | |].
  - rewrite Ha, Hs. cbn [forallb] in Hascii.
    apply andb_true_iff in Hascii as [-> _]. reflexivity.
  - rewrite (lower_ascii _ Hascii).
    apply negb_true_iff in Hu.
    assert (K : forall l, forallb is_scheme_char l = true ->
                          existsb is_ascii_upper l = false ->
                          map ascii_lower l = l).
    { induction l as [|x l IH]; [reflexivity|]. cbn [forallb existsb map].
      intros H1 H2. apply andb_true_iff in H1 as [Hx Hl].
      apply orb_false_iff in H2 as [Hxu Hlu].
      rewrite (IH Hl Hlu). f_equal. now apply scheme_char_facts. }
    now apply K.
Qed.

Lemma split_scheme_inv (s sch u : str) :
  split_scheme s = (sch, u) -> forallb is_kept s = true ->
  scheme_ok sch = true /\ forallb is_kept u = true.
Proof.
  unfold split_scheme. intros H Hk.
  destruct (cut 58 s) as [[[|c pre] post]|] eqn:E;
    try (apply pair_equal_spec in H as [<- <-]; now split).
  destruct (is_ascii c && is_ascii_alpha c && forallb is_scheme_char (c :: pre)) eqn:V;
    apply pair_equal_spec in H as [<- <-]; [|now split].
  split; [now apply lower_scheme_ok|].
  apply QueryFacts.cut_Some in E as [-> _].
  rewrite forallb_app in Hk. apply andb_true_iff in Hk as [_ Hk].
  cbn [forallb] in Hk. now apply andb_true_iff in Hk as [_ Hk].
Qed.

Lemma split_scheme_build (sch rest : str) :
  scheme_ok sch = true -> sch <> [] ->
  split_scheme (sch ++ 58 :: rest) = (sch, rest).
Proof.
  intros H Hne. unfold split_scheme.
  destruct (scheme_ok_kept sch H) as [_ [H58 _]].
  rewrite (QueryFacts.cut_app 58 sch rest H58).
  destruct (scheme_ok_lower sch H Hne) as [c [pre [-> [V L]]]].
  now rewrite V, L.
Qed.

Lemma split_scheme_slash (rest : str) :
  split_scheme (47 :: rest) = ([], 47 :: rest).
Proof.
  unfold split_scheme. cbn [cut]. change (47 =? 58) with false. cbv iota.
  destruct (cut 58 rest) as [[a b]|]; reflexivity.
Qed.

(** *** The authority *)

Lemma span_until_spec (f : N -> bool) (s : str) :
  s = fst (span_until f s) ++ snd (span_until f s) /\
  forallb (fun c => negb (f c)) (fst (span_until f s)) = true /\
  match snd (span_until f s) with [] => True | c :: _ => f c = true end.
Proof.
  induction s as [|c s [IH1 [IH2 IH3]]]; [now split_all|].
  cbn [span_until]. destruct (f c) eqn:E.
  - now split_all.
  - destruct (span_until f s) as [a b]. cbn [fst snd] in *.
    split_all; [cbn [app]; now f_equal | cbn [forallb]; now rewrite E | exact IH3].
Qed.

Lemma span_until_build (f : N -> bool) (a b : str) :
  forallb (fun c => negb (f c)) a = true ->
  match b with [] => True | c :: _ => f c = true end ->
  span_until f (a ++ b) = (a, b).
Proof.
  intros Ha Hb. induction a as [|x a IH]; cbn [app].
  - destruct b as [|c b]; [reflexivity|]. cbn [span_until]. now rewrite Hb.
  - cbn [forallb] in Ha. apply andb_true_iff in Ha as [Hx Ha].
    apply negb_true_iff in Hx. cbn [span_until]. now rewrite Hx, IH.
Qed.

Lemma forallb_skipn {A} (f : A -> bool) (n : nat) (l : list A) :
  forallb f l = true -> forallb f (skipn n l) = true.
Proof.
  intros H. apply forallb_forall. intros x Hx.
  apply (forallb_In _ _ _ H). rewrite <- (firstn_skipn n l).
  apply in_or_app. now right.
Qed.

Lemma split_authority_inv (u nl u' : str) :
  split_authority u = Ok (nl, u') -> nl <> [] -> forallb is_kept u = true ->
  (_checknetloc nl = true -> netloc_ok nl = true) /\
  forallb is_kept u' = true /\
  match u' with [] => True | c :: _ => is_netloc_delim c = true end.
Proof.
  unfold split_authority. intros H Hne Hk.
  destruct (starts_with [47; 47] u);
    [|apply (f_equal (fun r => match r with Ok (x, _) => x | _ => [] end)) in H;
      cbv beta iota in H; congruence].
  unfold _splitnetloc in H.
  pose proof (span_until_spec is_netloc_delim (skipn 2 u)) as [S1 [S2 S3]].
  pose proof (forallb_skipn is_kept 2 u Hk) as Hk2.
  destruct (span_until is_netloc_delim (skipn 2 u)) as [a b].
  cbn [fst snd] in *.
  destruct ((has_char 91 a && negb (has_char 93 a))
            || (has_char 93 a && negb (has_char 91 a))) eqn:B1; [discriminate|].
  destruct (has_char 91 a && has_char 93 a && negb (check_bracketed_netloc a)) eqn:B2;
    [discriminate|].
  apply (f_equal (fun r => match r with Ok x => x | _ => ([], []) end)) in H.
  cbv beta iota in H. apply pair_equal_spec in H as [<- <-].
  rewrite S1, forallb_app in Hk2. apply andb_true_iff in Hk2 as [Ka Kb].
  split_all; [|exact Kb | exact S3].
  intros Hc. unfold netloc_ok. now rewrite S2, Ka, B1, B2, Hc.
Qed.

Lemma split_authority_build (nl tail : str) :
  netloc_ok nl = true ->
  match tail with [] => True | c :: _ => is_netloc_delim c = true end ->
  split_authority (47 :: 47 :: nl ++ tail) = Ok (nl, tail).
Proof.
  unfold netloc_ok. intros H Ht.
  apply andb_true_iff in H as [H _]. apply andb_true_iff in H as [H B2].
  apply andb_true_iff in H as [H B1]. apply andb_true_iff in H as [Hd _].
  apply negb_true_iff in B1, B2.
  unfold split_authority. rewrite !starts_with_cons.
  change (47 =? 47) with true. cbn [andb starts_with].
  unfold _splitnetloc. cbn [skipn].
  rewrite (span_until_build _ _ _ Hd Ht). now rewrite B1, B2.
Qed.

(** *** The path, the query and the fragment *)

Lemma forallb_cut (f : N -> bool) (c : N) (s a b : str) :
  cut c s = Some (a, b) -> forallb f s = true ->
  forallb f a = true /\ forallb f b = true.
Proof.
  intros H Hf. apply QueryFacts.cut_Some in H as [-> _].
  rewrite forallb_app in Hf. apply andb_true_iff in Hf as [Ha Hb].
  cbn [forallb] in Hb. apply andb_true_iff in Hb as [_ Hb]. now split.
Qed.

Lemma has_char_cut (x c : N) (s a b : str) :
  cut c s = Some (a, b) -> has_char x s = false ->
  has_char x a = false /\ has_char x b = false.
Proof.
  intros H Hf. apply QueryFacts.cut_Some in H as [-> _].
  rewrite has_char_app, has_char_cons in Hf.
  apply orb_false_iff in Hf as [Ha Hb].
  apply orb_false_iff in Hb as [_ Hb]. now split.
Qed.

Lemma cut_head (c : N) (s a b : str) :
  cut c s = Some (a, b) ->
  match a with
  | [] => True
  | x :: _ => match s with [] => False | y :: _ => x = y end
  end.
Proof.
  intros H. apply QueryFacts.cut_Some in H as [-> _]. now destruct a.
Qed.

Lemma split_tail_inv (u p q f : str) :
  split_tail u = (p, q, f) ->
  has_char 35 p = false /\ has_char 63 p = false /\
  (forallb is_kept u = true -> forallb is_kept p = true /\ forallb is_kept f = true) /\
  (match u with [] => True | c :: _ => is_netloc_delim c = true end ->
   p = [] \/ starts_with [47] p = true).
Proof.
  unfold split_tail. intros H.
  assert (Hhead : forall x r,
            match u with [] => True | c :: _ => is_netloc_delim c = true end ->
            has_char 35 (x :: r) = false -> has_char 63 (x :: r) = false ->
            (exists t, u = (x :: r) ++ t) ->
            starts_with [47] (x :: r) = true).
  { intros x r Hd H35 H63 [t ->]. cbn [app] in Hd. unfold is_netloc_delim in Hd.
    rewrite has_char_cons in H35, H63. rewrite starts_with_cons.
    cbn [starts_with]. b2p. lia. }
  destruct (cut 35 u) as [[a b]|] eqn:E35;
    destruct (cut 63 _) as [[a' b']|] eqn:E63;
    apply pair_equal_spec in H as [H Hf];
    apply pair_equal_spec in H as [Hp Hq]; subst p q f.
  - pose proof (QueryFacts.cut_Some _ _ _ _ E35) as [Eu H35].
    pose proof (QueryFacts.cut_Some _ _ _ _ E63) as [Ea H63].
    destruct (has_char_cut 35 63 a a' b' E63 H35) as [K35 _].
    split_all; try assumption.
    + intros Hk. destruct (forallb_cut _ _ _ _ _ E35 Hk) as [Ka Kb].
      destruct (forallb_cut _ _ _ _ _ E63 Ka) as [Kp _]. now split.
    + intros Hd. destruct a' as [|x r]; [now left|]. right.
      apply (Hhead x r Hd K35 H63). subst a u.
      eexists. rewrite <- app_assoc. reflexivity.
  - pose proof (QueryFacts.cut_Some _ _ _ _ E35) as [Eu H35].
    pose proof (QueryFacts.cut_None_inv _ _ E63) as H63.
    split_all; try assumption.
    + intros Hk. now apply (forallb_cut _ _ _ _ _ E35 Hk).
    + intros Hd. destruct a as [|x r]; [now left|]. right.
      apply (Hhead x r Hd H35 H63). subst u. eexists. reflexivity.
  - pose proof (QueryFacts.cut_None_inv _ _ E35) as H35.
    pose proof (QueryFacts.cut_Some _ _ _ _ E63) as [Ea H63].
    destruct (has_char_cut 35 63 u a' b' E63 H35) as [K35 _].
    split_all; try assumption.
    + intros Hk. destruct (forallb_cut _ _ _ _ _ E63 Hk) as [Kp _]. now split.
    + intros Hd. destruct a' as [|x r]; [now left|]. right.
      apply (Hhead x r Hd K35 H63). subst u. eexists. reflexivity.
  - pose proof (QueryFacts.cut_None_inv _ _ E35) as H35.
    pose proof (QueryFacts.cut_None_inv _ _ E63) as H63.
    split_all; try assumption.
    + intros Hk. now split.
    + intros Hd. destruct u as [|x r]; [now left|]. right.
      apply (Hhead x r Hd H35 H63). exists []. now rewrite app_nil_r.
Qed.

Lemma split_tail_build (p q f : str) :
  has_char 35 p = false -> has_char 63 p = false -> has_char 35 q = false ->
  split_tail (p ++ 63 :: q ++ (if is_empty f then [] else 35 :: f)) = (p, q, f).
Proof.
  intros Hp35 Hp63 Hq35. unfold split_tail.
  destruct f as [|x f]; cbn [is_empty].
  - rewrite app_nil_r.
    rewrite (QueryFacts.cut_None 35)
      by (rewrite has_char_app, has_char_cons, Hp35, Hq35; reflexivity).
    now rewrite (QueryFacts.cut_app 63 p q Hp63).
  - replace (p ++ 63 :: q ++ 35 :: x :: f) with ((p ++ 63 :: q) ++ 35 :: x :: f)
      by (rewrite <- app_assoc; reflexivity).
    rewrite (QueryFacts.cut_app 35)
      by (rewrite has_char_app, has_char_cons, Hp35, Hq35; reflexivity).
    now rewrite (QueryFacts.cut_app 63 p q Hp63).
Qed.

(** *** The parameters of the last segment *)

Lemma has_char_rev (c : N) (s : str) : has_char c (rev s) = has_char c s.
Proof.
  destruct (has_char c s) eqn:E.
  - apply has_char_In. apply has_char_In in E. now apply in_rev in E.
  - destruct (has_char c (rev s)) eqn:F; [|reflexivity].
    apply has_char_In in F. apply in_rev in F. apply has_char_In in F. congruence.
Qed.

Lemma cut_last_app (c : N) (a b : str) :
  has_char c b = false -> cut_last c (a ++ c :: b) = Some (a, b).
Proof.
  intros H. unfold cut_last.
  rewrite rev_app_distr. cbn [rev]. rewrite <- app_assoc. cbn [app].
  rewrite QueryFacts.cut_app by now rewrite has_char_rev.
  now rewrite !rev_involutive.
Qed.

Lemma cut_last_Some (c : N) (s a b : str) :
  cut_last c s = Some (a, b) -> s = a ++ c :: b /\ has_char c b = false.
Proof.
  unfold cut_last. destruct (cut c (rev s)) as [[x y]|] eqn:E; [|discriminate].
  intros H. apply Some_inj in H. apply pair_equal_spec in H as [<- <-].
  apply QueryFacts.cut_Some in E as [E Hx].
  apply (f_equal (@rev N)) in E. rewrite rev_involutive, rev_app_distr in E.
  cbn [rev] in E. rewrite <- app_assoc in E. cbn [app] in E.
  split; [exact E | now rewrite has_char_rev].
Qed.

Lemma cut_last_None (c : N) (s : str) :
  cut_last c s = None -> has_char c s = false.
Proof.
  unfold cut_last. destruct (cut c (rev s)) as [[x y]|] eqn:E; [discriminate|].
  intros _. apply QueryFacts.cut_None_inv in E. now rewrite has_char_rev in E.
Qed.

Lemma starts_with_has_char (c : N) (s : str) :
  starts_with [c] s = true -> has_char c s = true.
Proof.
  destruct s as [|x s]; [discriminate|]. rewrite starts_with_cons, has_char_cons.
  intros H. apply andb_true_iff in H as [H _]. now rewrite H.
Qed.

(** The path and the parameters that [urlparse] returns are found again in
    the path that [urlunparse] joins them to. *)
Lemma split_params_stable (sch ps p pa : str) :
  split_params sch ps = (p, pa) ->
  ps = [] \/ starts_with [47] ps = true ->
  split_params sch (path_with_params p pa) = (p, pa) /\
  (path_with_params p pa = ps \/ ps = path_with_params p pa ++ [59]).
Proof.
  intros H Hs.
  assert (Hsame : path_with_params p pa = ps ->
                  split_params sch (path_with_params p pa) = (p, pa) /\
                  (path_with_params p pa = ps \/ ps = path_with_params p pa ++ [59])).
  { intros E. rewrite E. split; [exact H | now left]. }
  unfold split_params in H.
  destruct (mem sch uses_params && has_char 59 ps) eqn:C.
  - apply andb_true_iff in C as [Cm C59].
    destruct Hs as [-> | Hs]; [discriminate|].
    unfold _splitparams in H.
    destruct (cut_last 47 ps) as [[before after]|] eqn:E47.
    + apply cut_last_Some in E47 as [Eps Ha47].
      destruct (cut 59 after) as [[a b]|] eqn:E59.
      * apply pair_equal_spec in H as [<- <-].
        pose proof (QueryFacts.cut_Some _ _ _ _ E59) as [Eafter Ha59].
        destruct b as [|y b].
        -- unfold path_with_params. cbn [is_empty negb].
           split.
           ++ unfold split_params. rewrite Cm. cbn [andb].
              destruct (has_char 59 (before ++ [47] ++ a)); [|reflexivity].
              unfold _splitparams. cbn [app].
              rewrite Eafter, has_char_app in Ha47.
              apply orb_false_iff in Ha47 as [Ha47 _].
              rewrite (cut_last_app 47 before a Ha47).
              now rewrite (QueryFacts.cut_None 59 a Ha59).
           ++ right. rewrite Eps, Eafter. rewrite <- !app_assoc. reflexivity.
        -- apply Hsame. unfold path_with_params. cbn [is_empty negb].
           rewrite Eps, Eafter. rewrite <- !app_assoc. reflexivity.
      * apply pair_equal_spec in H as [<- <-]. now apply Hsame.
    + apply cut_last_None in E47. apply starts_with_has_char in Hs. congruence.
  - apply pair_equal_spec in H as [<- <-]. now apply Hsame.
Qed.

(** *** The URL put together again *)

Lemma urlunparse_authority (c : ParseResult) :
  netloc c <> [] ->
  path_with_params (path c) (params c) = [] \/
  starts_with [47] (path_with_params (path c) (params c)) = true ->
  urlunparse c
  = url_with_authority (scheme c) (netloc c)
      (path_with_params (path c) (params c)) (query c) (fragment c).
Proof.
  intros Hn Hp. unfold urlunparse.
  set (u := path_with_params (path c) (params c)) in *.
  unfold urlunsplit, add_authority_legacy, add_authority, url_with_authority.
  cbv zeta.
  change (if negb (is_empty (params c)) then path c ++ [59] ++ params c else path c)
    with u.
  apply is_empty_false in Hn. rewrite Hn. cbn [negb orb].
  assert (Hu : (if negb (is_empty u) && negb (starts_with [47] u)
                then [47] ++ u else u) = u).
  { destruct Hp as [-> | ->]; [reflexivity|]. now rewrite andb_false_r. }
  rewrite Hu.
  destruct legacy_urlunsplit;
    destruct (is_empty (scheme c)), (is_empty (query c)), (is_empty (fragment c));
    cbn [negb]; repeat first [rewrite <- app_assoc | progress cbn [app]];
    rewrite ?app_nil_r; reflexivity.
Qed.

Lemma query_char_facts (c : N) :
  is_query_char c = true -> is_kept c = true /\ c <> 35.
Proof.
  unfold is_query_char. intros H.
  apply orb_true_iff in H as [H | H]; [apply orb_true_iff in H as [H | H]|].
  - apply QueryFacts.quoted_char_bounds in H. unfold is_kept. b2p. lia.
  - apply N.eqb_eq in H. subst. now split.
  - apply N.eqb_eq in H. subst. now split.
Qed.

Lemma netloc_ok_facts (nl : str) :
  netloc_ok nl = true -> forallb is_kept nl = true /\ _checknetloc nl = true.
Proof.
  unfold netloc_ok. intros H.
  apply andb_true_iff in H as [H Hc]. apply andb_true_iff in H as [H _].
  apply andb_true_iff in H as [H _]. apply andb_true_iff in H as [_ Hk].
  now split.
Qed.

(** What [urlsplit] returns for a URL with an authority. *)
Lemma urlsplit_inv (url sch nl ps qu fr : str) :
  urlsplit url = Ok (sch, nl, ps, qu, fr) -> nl <> [] ->
  scheme_ok sch = true /\ netloc_ok nl = true /\
  (ps = [] \/ starts_with [47] ps = true) /\
  has_char 35 ps = false /\ has_char 63 ps = false /\
  forallb is_kept ps = true /\ forallb is_kept fr = true.
Proof.
  rewrite urlsplit_steps. intros H Hne.
  pose proof (sanitize_kept url) as Hk.
  destruct (split_scheme (sanitize url)) as [sch' s2] eqn:Es.
  destruct (split_scheme_inv _ _ _ Es Hk) as [Hsch Hk2].
  bind_named H r. destruct r as [nl' s3].
  destruct (split_tail s3) as [[p q] f] eqn:Et.
  destruct (_checknetloc nl') eqn:Ec; [|discriminate].
  apply (f_equal (fun r => match r with Ok x => x | _ => ([], [], [], [], []) end)) in H.
  cbv beta iota in H.
  apply pair_equal_spec in H as [H Hf]. apply pair_equal_spec in H as [H Hq].
  apply pair_equal_spec in H as [H Hp]. apply pair_equal_spec in H as [Hs Hn].
  subst sch' nl' p q f.
  destruct (split_authority_inv _ _ _ Hr Hne Hk2) as [Hnl [Hk3 Hd]].
  destruct (split_tail_inv _ _ _ _ Et) as [H35 [H63 [Hkt Hhead]]].
  destruct (Hkt Hk3) as [Kp Kf].
  split_all; auto.
Qed.

(** A URL put together from such components splits into them again. *)
Lemma urlsplit_build (sch nl u q fr : str) :
  scheme_ok sch = true -> netloc_ok nl = true ->
  u = [] \/ starts_with [47] u = true ->
  has_char 35 u = false -> has_char 63 u = false -> forallb is_kept u = true ->
  q <> [] -> forallb is_query_char q = true ->
  forallb is_kept fr = true ->
  urlsplit (url_with_authority sch nl u q fr) = Ok (sch, nl, u, q, fr).
Proof.
  intros Hsch Hnl Hu H35 H63 Ku Hq Cq Kf.
  destruct (scheme_ok_kept sch Hsch) as [Ksch [_ Hhead]].
  destruct (netloc_ok_facts nl Hnl) as [Knl Hc].
  assert (Kq : forallb is_kept q = true)
    by (refine (forallb_impl _ _ _ _ Cq); intros c Hcq; now apply query_char_facts).
  assert (Q35 : has_char 35 q = false).
  { apply (forallb_has_char _ _ _ Cq).
    destruct (is_query_char 35) eqn:E; [|reflexivity].
    apply query_char_facts in E. now destruct E. }
  set (tail := u ++ 63 :: q ++ (if is_empty fr then [] else 35 :: fr)).
  assert (Ktail : forallb is_kept tail = true).
  { unfold tail. rewrite forallb_app, Ku. cbn [forallb andb].
    rewrite forallb_app, Kq. cbn [andb].
    destruct fr; [reflexivity|]. exact Kf. }
  assert (Htail : match tail with [] => True | c :: _ => is_netloc_delim c = true end).
  { unfold tail. destruct Hu as [-> | Hu]; [reflexivity|].
    destruct u as [|x u]; [discriminate|]. cbn [app].
    rewrite starts_with_cons in Hu. apply andb_true_iff in Hu as [Hx _].
    apply N.eqb_eq in Hx. now subst x. }
  assert (E : url_with_authority sch nl u q fr
              = (if is_empty sch then [] else sch ++ [58]) ++ 47 :: 47 :: nl ++ tail).
  { unfold url_with_authority, tail.
    replace (is_empty q) with false by (now destruct q). reflexivity. }
  rewrite E, urlsplit_steps.
  assert (Kall : forallb is_kept (47 :: 47 :: nl ++ tail) = true).
  { cbn [forallb]. rewrite forallb_app, Knl, Ktail. reflexivity. }
  destruct sch as [|c pre].
  - cbn [is_empty app].
    rewrite sanitize_fix by (exact Kall || reflexivity).
    rewrite split_scheme_slash.
    rewrite (split_authority_build nl tail Hnl Htail). cbn [bind].
    unfold tail. rewrite (split_tail_build u q fr H35 H63 Q35).
    now rewrite Hc.
  - cbn [is_empty]. rewrite <- app_assoc. cbn [app].
    rewrite sanitize_fix.
    + change (c :: pre ++ 58 :: 47 :: 47 :: nl ++ tail)
        with ((c :: pre) ++ 58 :: 47 :: 47 :: nl ++ tail).
      rewrite (split_scheme_build (c :: pre) _ Hsch) by discriminate.
      rewrite (split_authority_build nl tail Hnl Htail). cbn [bind].
      unfold tail. rewrite (split_tail_build u q fr H35 H63 Q35).
      now rewrite Hc.
    + change (c :: pre ++ 58 :: 47 :: 47 :: nl ++ tail)
        with ((c :: pre) ++ 58 :: 47 :: 47 :: nl ++ tail).
      rewrite forallb_app, Ksch. cbn [forallb andb] in Kall |- *. exact Kall.
    + exact Hhead.
Qed.

(** The URL that [urlunparse] builds from the components of a URL with an
    authority, a query string written by [urlencode] in the place of its
    own, has these components. *)
Lemma urlparse_rebuilt (url q : str) (c : ParseResult) :
  urlparse url = Ok c -> netloc c <> [] ->
  q <> [] -> forallb is_query_char q = true ->
  urlparse (urlunparse (set_query c q)) = Ok (set_query c q).
Proof.
  rewrite urlparse_steps. intros H Hne Hq Cq.
  bind_named H r. destruct r as [[[[sch nl] ps] qu] fr].
  destruct (split_params sch ps) as [p pa] eqn:Ep.
  apply (f_equal (fun r => match r with Ok x => x | Raise _ => set_query c [] end)) in H.
  cbv beta iota in H. subst c. cbn [netloc] in Hne.
  destruct (urlsplit_inv _ _ _ _ _ _ Hr Hne) as [Hsch [Hnl [Hps [H35 [H63 [Kps Kfr]]]]]].
  destruct (split_params_stable _ _ _ _ Ep Hps) as [Hstable Hu1].
  unfold set_query. cbn [scheme netloc path params query fragment].
  set (u := path_with_params p pa) in *.
  assert (Hu : u = [] \/ starts_with [47] u = true).
  { destruct Hu1 as [-> | E]; [exact Hps|].
    destruct Hps as [-> | Hps]; [now destruct u|].
    rewrite E in Hps. destruct u as [|x u]; [now left | now right]. }
  assert (Hfacts : has_char 35 u = false /\ has_char 63 u = false /\
                   forallb is_kept u = true).
  { destruct Hu1 as [-> | E]; [now split_all|].
    rewrite E in H35, H63, Kps. rewrite has_char_app in H35, H63.
    rewrite forallb_app in Kps.
    apply orb_false_iff in H35 as [H35 _]. apply orb_false_iff in H63 as [H63 _].
    apply andb_true_iff in Kps as [Kps _]. now split_all. }
  destruct Hfacts as [U35 [U63 Ku]].
  rewrite urlunparse_authority; cbn [scheme netloc path params query fragment];
    fold u; [|exact Hne | exact Hu].
  rewrite urlparse_steps.
  rewrite (urlsplit_build sch nl u q fr Hsch Hnl Hu U35 U63 Ku Hq Cq Kfr).
  cbn [bind]. now rewrite Hstable.
Qed.

End WithRuntime.

End UrlFacts.

(** ** Affiliate URL Builder: applying it again *)

Section Idempotence.

Context {RT : PyRuntime}.

Lemma urlencode_nonempty (items : list (str * str)) (q : str) :
  items <> [] -> Urllib.urlencode items = Ok q -> q <> [].
Proof.
  intros Hne H. unfold Urllib.urlencode in H. bind_named H l.
  apply (f_equal (fun r => match r with Ok x => x | Raise _ => [] end)) in H.
  cbv beta iota in H. subst q.
  apply QueryFacts.urlencode_items_written in Hl.
  now apply QueryFacts.written_pieces in Hl as [_ [_ [_ H]]].
Qed.

Lemma tagged_items_nonempty (qs tag : str) : tagged_items qs tag <> [].
Proof.
  intros E. destruct (tagged_items_facts qs tag) as [_ [H _]].
  rewrite E in H. discriminate.
Qed.

(** The mapping read from a query string that [with_affiliate_tag] wrote
    is the mapping it was written from. *)
Lemma tagged_items_again (qs tag q : str) :
  Urllib.urlencode (tagged_items qs tag) = Ok q ->
  tagged_items q tag = tagged_items qs tag.
Proof.
  intros H. unfold tagged_items at 1.
  rewrite (QueryFacts.parse_qsl_urlencode _ _ H).
  destruct (tagged_items_facts qs tag) as [Hn [Hl _]].
  rewrite (dict_of_pairs_id _ Hn). now apply dict_set_same.
Qed.

(** Once the URL that [with_affiliate_tag] returned parses into the
    components it was built from, applying [with_affiliate_tag] to it
    returns it. *)
Lemma with_affiliate_tag_again (c : Urllib.ParseResult) (qs q tag : str) :
  Urllib.urlencode (tagged_items qs tag) = Ok q ->
  Urllib.urlparse (Urllib.urlunparse (set_query c q)) = Ok (set_query c q) ->
  with_affiliate_tag (Urllib.urlunparse (set_query c q)) tag
  = Ok (Urllib.urlunparse (set_query c q)).
Proof.
  intros Hq Hp. unfold with_affiliate_tag. rewrite Hp. cbn [bind].
  change (Urllib.query (set_query c q)) with q.
  fold (tagged_items q tag). rewrite (tagged_items_again _ _ _ Hq), Hq.
  reflexivity.
Qed.

End Idempotence.

(** X21. On a URL that has an authority (a host after [//]),
    [with_affiliate_tag] is idempotent, with either version of the
    library's [urlunsplit]: applied to the URL it returned, with the same
    tag, it returns that URL.  The URL it returns parses into the scheme,
    the authority, the path, the parameters and the fragment of the URL
    given (the scheme in lower case, as [urlparse] gives it), with the new
    query string in the place of the old one. *)
Theorem with_affiliate_tag_idempotent {RT : PyRuntime} (url tag r : str)
        (c : Urllib.ParseResult) :
  Urllib.urlparse url = Ok c -> Urllib.netloc c <> [] ->
  with_affiliate_tag url tag = Ok r ->
  with_affiliate_tag r tag = Ok r /\
  exists c',
    Urllib.urlparse r = Ok c' /\
    Urllib.scheme c' = Urllib.scheme c /\ Urllib.netloc c' = Urllib.netloc c /\
    Urllib.path c' = Urllib.path c /\ Urllib.params c' = Urllib.params c /\
    Urllib.fragment c' = Urllib.fragment c /\
    Urllib.parse_qsl (Urllib.query c') = tagged_items (Urllib.query c) tag.
Proof.
  intros Hc Hne H.
  destruct (with_affiliate_tag_steps _ _ _ H) as [c0 [q [Hc0 [Hq ->]]]].
  rewrite Hc in Hc0. apply (f_equal (fun r => match r with Ok x => x | Raise _ => c end)) in Hc0.
  cbv beta iota in Hc0. subst c0.
  assert (Hp : Urllib.urlparse (Urllib.urlunparse (set_query c q))
               = Ok (set_query c q)).
  { apply (UrlFacts.urlparse_rebuilt url q c Hc Hne).
    - apply (urlencode_nonempty _ _ (tagged_items_nonempty _ _) Hq).
    - exact (QueryFacts.urlencode_chars _ _ Hq). }
  split.
  - now apply (with_affiliate_tag_again c (Urllib.query c)).
  - exists (set_query c q). split_all; try reflexivity; [exact Hp|].
    exact (QueryFacts.parse_qsl_urlencode _ _ Hq).
Qed.

Lemma with_affiliate_tag_idempotent_witness :
  with_affiliate_tag (RT := cpython_3_11)
    (py " HTTP://Ex.com/a;p?x=1&tag=old&x=2&y&z=%C3%A9+1#frag") (py "t g&" ++ [233])
  = Ok (py "http://Ex.com/a;p?x=2&tag=t+g%26%C3%A9&y=&z=%C3%A9+1#frag") /\
  with_affiliate_tag (RT := cpython_3_11)
    (py "http://Ex.com/a;p?x=2&tag=t+g%26%C3%A9&y=&z=%C3%A9+1#frag") (py "t g&" ++ [233])
  = Ok (py "http://Ex.com/a;p?x=2&tag=t+g%26%C3%A9&y=&z=%C3%A9+1#frag").
Proof.
  pose (c := match Urllib.urlparse (RT := cpython_3_11)
                     (py " HTTP://Ex.com/a;p?x=1&tag=old&x=2&y&z=%C3%A9+1#frag") with
             | Ok c => c
             | Raise _ => set_query (Urllib.Build_ParseResult [] [] [] [] [] []) []
             end).
  assert (Hc : Urllib.urlparse (RT := cpython_3_11)
                 (py " HTTP://Ex.com/a;p?x=1&tag=old&x=2&y&z=%C3%A9+1#frag") = Ok c)
    by (vm_compute; reflexivity).
  assert (Hn : Urllib.netloc c <> []) by (vm_compute; discriminate).
  assert (E : with_affiliate_tag (RT := cpython_3_11)
                (py " HTTP://Ex.com/a;p?x=1&tag=old&x=2&y&z=%C3%A9+1#frag")
                (py "t g&" ++ [233])
              = Ok (py "http://Ex.com/a;p?x=2&tag=t+g%26%C3%A9&y=&z=%C3%A9+1#frag"))
    by (vm_compute; reflexivity).
  split; [exact E|].
  exact (proj1 (with_affiliate_tag_idempotent (RT := cpython_3_11) _ _ _ c Hc Hn E)).
Defined.

(** ** Affiliate URL Builder: a URL without authority, with the older
    [urlunsplit] *)

Section LegacyUnsplit.

Context {RT : PyRuntime}.

Lemma urlencode_tag (tag v : str) :
  Urllib.quote_plus tag = Ok v ->
  Urllib.urlencode [(py "tag", tag)] = Ok (py "tag=" ++ v).
Proof.
  intros H. unfold Urllib.urlencode. cbn [Urllib.urlencode_items].
  replace (Urllib.quote_plus (py "tag")) with (@Ok str (py "tag"))
    by (vm_compute; reflexivity).
  cbn [bind]. rewrite H. cbn [bind Urllib.urlencode_items join].
  f_equal; vm_compute; reflexivity.
Qed.

Lemma tagged_items_tag (q tag : str) :
  Urllib.parse_qsl q = [(py "tag", tag)] ->
  tagged_items q tag = [(py "tag", tag)].
Proof.
  intros H. unfold tagged_items. rewrite H.
  apply dict_set_same. unfold dict_of_pairs. cbn [fold_left dict_set fst snd lookup].
  now rewrite str_eqb_refl.
Qed.

(** The components of [prefix ?tag=v], for a prefix of slashes and letters
    that [urlsplit] reads as a path. *)
Lemma urlparse_slashes (v : str) :
  forallb is_quoted_char v = true ->
  Urllib.urlparse (py "////x?tag=" ++ v)
  = Ok {| Urllib.scheme := []; Urllib.netloc := []; Urllib.path := py "//x";
          Urllib.params := []; Urllib.query := py "tag=" ++ v;
          Urllib.fragment := [] |}.
Proof.
  intros Hv.
  assert (Kv : forallb is_kept v = true).
  { refine (UrlFacts.forallb_impl _ _ _ _ Hv). intros c Hc.
    apply QueryFacts.quoted_char_bounds in Hc. unfold is_kept. b2p. lia. }
  assert (V35 : has_char 35 v = false)
    by (apply (UrlFacts.forallb_has_char _ _ _ Hv); reflexivity).
  assert (E : py "////x?tag=" ++ v
              = 47 :: 47 :: 47 :: [47; 120] ++ 63 :: (py "tag=" ++ v)
                  ++ (if is_empty (@nil N) then [] else 35 :: [])).
  { cbn [is_empty]. rewrite app_nil_r.
    replace (py "////x?tag=") with ([47; 47; 47; 47; 120; 63] ++ py "tag=")
      by (vm_compute; reflexivity).
    rewrite <- app_assoc. reflexivity. }
  rewrite UrlFacts.urlparse_steps, UrlFacts.urlsplit_steps, E.
  rewrite UrlFacts.sanitize_fix.
  - rewrite UrlFacts.split_scheme_slash.
    unfold split_authority. rewrite !starts_with_cons.
    change (47 =? 47) with true. cbn [andb starts_with].
    unfold Urllib._splitnetloc. cbn [skipn app Urllib.span_until].
    change (Urllib.is_netloc_delim 47) with true. cbv iota.
    cbn [has_char existsb andb orb negb bind].
    change (47 :: 47 :: 120 :: 63 :: (py "tag=" ++ v)
              ++ (if is_empty (@nil N) then [] else 35 :: []))
      with ([47; 47; 120] ++ 63 :: (py "tag=" ++ v)
              ++ (if is_empty (@nil N) then [] else 35 :: [])).
    rewrite (UrlFacts.split_tail_build [47; 47; 120] (py "tag=" ++ v) []).
    + replace (py "//x") with [47; 47; 120] by (vm_compute; reflexivity).
      reflexivity.
    + reflexivity.
    + reflexivity.
    + rewrite has_char_app, V35. vm_compute. reflexivity.
  - cbn [is_empty app forallb]. rewrite app_nil_r, forallb_app, Kv.
    vm_compute. reflexivity.
  - reflexivity.
Qed.

(** X22. With the [urlunsplit] of CPython up to 3.12.3,
    [with_affiliate_tag] is not idempotent on a URL without authority whose
    path begins with two slashes: for every tag, [//////x] gives
    [////x?tag=...], and that URL gives [//x?tag=...], the path having lost
    two slashes each time. *)
Theorem with_affiliate_tag_legacy_slashes (tag v : str) :
  legacy_urlunsplit = true ->
  Urllib.quote_plus tag = Ok v ->
  with_affiliate_tag (py "//////x") tag = Ok (py "////x?tag=" ++ v) /\
  with_affiliate_tag (py "////x?tag=" ++ v) tag = Ok (py "//x?tag=" ++ v) /\
  py "////x?tag=" ++ v <> py "//x?tag=" ++ v /\
  (exists c, Urllib.urlparse (py "//////x") = Ok c /\ Urllib.path c = py "////x") /\
  (exists c, Urllib.urlparse (py "////x?tag=" ++ v) = Ok c /\
             Urllib.path c = py "//x").
Proof.
  intros Hlegacy Hv.
  pose proof (urlencode_tag tag v Hv) as Hq.
  assert (H0 : Urllib.urlparse (py "//////x")
               = Ok {| Urllib.scheme := []; Urllib.netloc := [];
                       Urllib.path := py "////x"; Urllib.params := [];
                       Urllib.query := []; Urllib.fragment := [] |})
    by (vm_compute; reflexivity).
  pose proof (urlparse_slashes v (QuoteFacts.quote_plus_chars _ _ Hv)) as H1.
  split_all.
  - unfold with_affiliate_tag. rewrite H0. cbn [bind Urllib.query].
    change (dict_set (dict_of_pairs (Urllib.parse_qsl [])) (py "tag") tag)
      with [(py "tag", tag)].
    rewrite Hq. cbn [bind]. unfold Urllib.urlunparse, Urllib.urlunsplit.
    rewrite Hlegacy. vm_compute. reflexivity.
  - unfold with_affiliate_tag. rewrite H1. cbn [bind Urllib.query].
    fold (tagged_items (py "tag=" ++ v) tag).
    rewrite (tagged_items_tag _ _ (QueryFacts.parse_qsl_urlencode _ _ Hq)).
    rewrite Hq. cbn [bind]. unfold Urllib.urlunparse, Urllib.urlunsplit.
    rewrite Hlegacy. vm_compute. reflexivity.
  - intros E. apply (f_equal (@List.length N)) in E.
    rewrite !length_app in E. vm_compute in E. lia.
  - eexists. split; [exact H0 | reflexivity].
  - eexists. split; [exact H1 | reflexivity].
Qed.

End LegacyUnsplit.

Lemma with_affiliate_tag_legacy_slashes_witness :
  with_affiliate_tag (RT := cpython_3_11) (py "//////x") (py "tag123")
  = Ok (py "////x?tag=tag123") /\
  with_affiliate_tag (RT := cpython_3_11) (py "////x?tag=tag123") (py "tag123")
  = Ok (py "//x?tag=tag123").
Proof.
  destruct (with_affiliate_tag_legacy_slashes (RT := cpython_3_11)
              (py "tag123") (py "tag123")) as [H1 [H2 _]].
  - reflexivity.
  - vm_compute. reflexivity.
  - split.
    + rewrite H1. vm_compute. reflexivity.
    + replace (py "////x?tag=tag123") with (py "////x?tag=" ++ py "tag123")
        by (vm_compute; reflexivity).
      rewrite H2. vm_compute. reflexivity.
Defined.

(** ** Affiliate URL Builder: a URL without authority, with the newer
    [urlunsplit] *)

Module UrlFactsNoAuthority.

Import Urllib.

Section WithRuntime.

Context {RT : PyRuntime}.

(** *** The scheme that is not there *)

Lemma split_scheme_none (s : str) :
  has_scheme s = false -> split_scheme s = ([], s).
Proof.
  unfold split_scheme, has_scheme.
  destruct (cut 58 s) as [[[|c pre] post]|]; try reflexivity.
  now intros ->.
Qed.

Lemma split_scheme_empty (s sch u : str) :
  split_scheme s = (sch, u) -> sch = [] -> has_scheme s = false /\ u = s.
Proof.
  unfold split_scheme, has_scheme. intros H ->.
  destruct (cut 58 s) as [[[|c pre] post]|];
    try (apply pair_equal_spec in H as [_ <-]; now split).
  destruct (is_ascii c && is_ascii_alpha c && forallb is_scheme_char (c :: pre)) eqn:V.
  - exfalso. apply pair_equal_spec in H as [H _].
    apply andb_true_iff in V as [_ Hs].
    rewrite UrlFacts.lower_ascii in H; [discriminate H|].
    refine (UrlFacts.forallb_impl _ _ _ _ Hs).
    intros x Hx. now apply UrlFacts.scheme_char_facts.
  - apply pair_equal_spec in H as [_ <-]. now split.
Qed.

Lemma has_scheme_slash (r : str) : has_scheme (47 :: r) = false.
Proof.
  unfold has_scheme. cbn [cut]. change (47 =? 58) with false. cbv iota.
  destruct (cut 58 r) as [[a b]|]; reflexivity.
Qed.

Lemma cut_app_present (c : N) (a b x y : str) :
  cut c a = Some (x, y) -> cut c (a ++ b) = Some (x, y ++ b).
Proof.
  intros H. apply QueryFacts.cut_Some in H as [-> Hx].
  rewrite <- app_assoc. cbn [app]. now apply QueryFacts.cut_app.
Qed.

Lemma cut_app_absent (c : N) (a b : str) :
  has_char c a = false ->
  cut c (a ++ b) = match cut c b with
                   | Some (x, y) => Some (a ++ x, y)
                   | None => None
                   end.
Proof.
  induction a as [|z a IH]; intros H; cbn [app].
  - now destruct (cut c b) as [[x y]|].
  - rewrite has_char_cons in H. apply orb_false_iff in H as [Hz Ha].
    cbn [cut]. rewrite N.eqb_sym, Hz, (IH Ha).
    now destruct (cut c b) as [[x y]|].
Qed.

Lemma has_scheme_app_colon (a b : str) :
  has_char 58 a = true -> has_scheme (a ++ b) = has_scheme a.
Proof.
  intros H. unfold has_scheme.
  destruct (cut 58 a) as [[x y]|] eqn:E.
  - now rewrite (cut_app_present 58 a b x y E).
  - apply QueryFacts.cut_None_inv in E. congruence.
Qed.

Lemma has_scheme_bad (a b : str) :
  has_char 58 a = false -> forallb is_scheme_char a = false ->
  has_scheme (a ++ b) = false.
Proof.
  intros H58 Hbad. unfold has_scheme. rewrite (cut_app_absent 58 a b H58).
  destruct (cut 58 b) as [[x y]|]; [|reflexivity].
  destruct (a ++ x) as [|c pre] eqn:E; [reflexivity|].
  rewrite <- E, forallb_app, Hbad. cbn [andb]. apply andb_false_r.
Qed.

Lemma sanitize_head (url : str) :
  match sanitize url with [] => True | c :: _ => 32 < c end.
Proof.
  rewrite UrlFacts.sanitize_filter.
  pose proof (lstrip_of_head is_c0_control_or_space url) as Hh.
  destruct (lstrip_of is_c0_control_or_space url) as [|c r]; [exact I|].
  unfold is_c0_control_or_space in Hh. apply N.leb_gt in Hh.
  cbn [filter].
  replace (c =? 9) with false by (symmetry; apply N.eqb_neq; lia).
  cbn [negb filter].
  replace (c =? 13) with false by (symmetry; apply N.eqb_neq; lia).
  cbn [negb filter].
  replace (c =? 10) with false by (symmetry; apply N.eqb_neq; lia).
  cbn [negb]. exact Hh.
Qed.

(** *** What [urlsplit] returns for a URL without authority *)

Lemma split_authority_none (u u' : str) :
  split_authority u = Ok ([], u') ->
  (starts_with [47; 47] u = false /\ u' = u) \/
  (u = 47 :: 47 :: u' /\
   match u' with [] => True | c :: _ => is_netloc_delim c = true end).
Proof.
  unfold split_authority.
  destruct (starts_with [47; 47] u) eqn:Es.
  - intros H. right. unfold _splitnetloc in H.
    pose proof (UrlFacts.span_until_spec is_netloc_delim (skipn 2 u)) as [S1 [_ S3]].
    destruct (span_until is_netloc_delim (skipn 2 u)) as [a b].
    cbn [fst snd] in *.
    destruct ((has_char 91 a && negb (has_char 93 a))
              || (has_char 93 a && negb (has_char 91 a))); [discriminate|].
    destruct (has_char 91 a && has_char 93 a && negb (check_bracketed_netloc a));
      [discriminate|].
    apply (f_equal (fun r => match r with Ok x => x | _ => ([], []) end)) in H.
    cbv beta iota in H. apply pair_equal_spec in H as [-> ->].
    cbn [app] in S1. split; [|exact S3].
    destruct u as [|x [|y u]]; try discriminate;
      rewrite !starts_with_cons in Es; cbn [starts_with] in Es;
      [rewrite andb_false_r in Es; discriminate|].
    cbn [skipn] in S1. b2p. destruct Es as [<- [<- _]]. now rewrite S1.
  - intros H. left.
    apply (f_equal (fun r => match r with Ok x => x | _ => ([], []) end)) in H.
    cbv beta iota in H. apply pair_equal_spec in H as [_ <-]. now split.
Qed.

Lemma split_tail_prefix (u p q f : str) :
  split_tail u = (p, q, f) -> exists rest, u = p ++ rest.
Proof.
  unfold split_tail. intros H.
  destruct (cut 35 u) as [[a b]|] eqn:E35;
    destruct (cut 63 _) as [[a' b']|] eqn:E63;
    apply pair_equal_spec in H as [H Hf];
    apply pair_equal_spec in H as [Hp Hq]; subst p q f.
  - apply QueryFacts.cut_Some in E35 as [-> _].
    apply QueryFacts.cut_Some in E63 as [-> _].
    eexists. rewrite <- app_assoc. reflexivity.
  - apply QueryFacts.cut_Some in E35 as [-> _]. eexists. reflexivity.
  - apply QueryFacts.cut_Some in E63 as [-> _]. eexists. reflexivity.
  - exists []. now rewrite app_nil_r.
Qed.

Lemma urlsplit_inv_any (url sch ps qu fr : str) :
  urlsplit url = Ok (sch, [], ps, qu, fr) ->
  scheme_ok sch = true /\
  has_char 35 ps = false /\ has_char 63 ps = false /\
  forallb is_kept ps = true /\ forallb is_kept fr = true /\
  (sch = [] ->
   (has_char 58 ps = true -> has_scheme ps = false) /\
   match ps with [] => True | c :: _ => 32 < c end).
Proof.
  rewrite UrlFacts.urlsplit_steps. intros H.
  pose proof (UrlFacts.sanitize_kept url) as Hk.
  pose proof (sanitize_head url) as Hhead.
  destruct (split_scheme (sanitize url)) as [sch' s2] eqn:Es.
  destruct (UrlFacts.split_scheme_inv _ _ _ Es Hk) as [Hsch Hk2].
  bind_named H r. destruct r as [nl' s3].
  destruct (split_tail s3) as [[p q] f] eqn:Et.
  destruct (_checknetloc nl') eqn:Ec; [|discriminate].
  apply (f_equal (fun r => match r with Ok x => x | _ => ([], [], [], [], []) end)) in H.
  cbv beta iota in H.
  apply pair_equal_spec in H as [H Hf]. apply pair_equal_spec in H as [H Hq].
  apply pair_equal_spec in H as [H Hp]. apply pair_equal_spec in H as [Hs Hn].
  subst sch' nl' p q f.
  destruct (UrlFacts.split_tail_inv _ _ _ _ Et) as [H35 [H63 [Hkt Hd]]].
  destruct (split_tail_prefix _ _ _ _ Et) as [rest Erest].
  assert (Hk3 : forallb is_kept s3 = true).
  { destruct (split_authority_none _ _ Hr) as [[_ ->] | [E _]]; [exact Hk2|].
    rewrite E in Hk2. cbn [forallb] in Hk2.
    apply andb_true_iff in Hk2 as [_ Hk2]. now apply andb_true_iff in Hk2 as [_ Hk2]. }
  destruct (Hkt Hk3) as [Kp Kf].
  split_all; auto.
  intros Hempty.
  destruct (split_scheme_empty _ _ _ Es Hempty) as [Hno ->].
  destruct (split_authority_none _ _ Hr) as [[_ ->] | [E Hdelim]].
  - split.
    + intros H58. rewrite <- (has_scheme_app_colon ps rest H58), <- Erest. exact Hno.
    + rewrite Erest in Hhead. destruct ps; [exact I | exact Hhead].
  - destruct (Hd Hdelim) as [-> | Hslash].
    + split; [discriminate | exact I].
    + destruct ps as [|x ps]; [discriminate|].
      rewrite starts_with_cons in Hslash. apply andb_true_iff in Hslash as [Hx _].
      apply N.eqb_eq in Hx. subst x. split; [|reflexivity].
      intros _. apply has_scheme_slash.
Qed.

(** *** The parameters of the last segment, for any path *)

Lemma split_params_stable_any (sch ps p pa : str) :
  split_params sch ps = (p, pa) ->
  split_params sch (path_with_params p pa) = (p, pa) /\
  (path_with_params p pa = ps \/ ps = path_with_params p pa ++ [59]).
Proof.
  intros H.
  destruct (has_char 47 ps) eqn:H47.
  - assert (Hsame : path_with_params p pa = ps ->
                    split_params sch (path_with_params p pa) = (p, pa) /\
                    (path_with_params p pa = ps \/ ps = path_with_params p pa ++ [59])).
    { intros E. rewrite E. split; [exact H | now left]. }
    unfold split_params in H.
    destruct (mem sch uses_params && has_char 59 ps) eqn:C;
      [|apply pair_equal_spec in H as [<- <-]; now apply Hsame].
    apply andb_true_iff in C as [Cm C59].
    unfold _splitparams in H.
    destruct (cut_last 47 ps) as [[before after]|] eqn:E47;
      [|apply UrlFacts.cut_last_None in E47; congruence].
    apply UrlFacts.cut_last_Some in E47 as [Eps Ha47].
    destruct (cut 59 after) as [[a b]|] eqn:E59;
      [|apply pair_equal_spec in H as [<- <-]; now apply Hsame].
    apply pair_equal_spec in H as [<- <-].
    pose proof (QueryFacts.cut_Some _ _ _ _ E59) as [Eafter Ha59].
    destruct b as [|y b].
    + unfold path_with_params. cbn [is_empty negb]. split.
      * unfold split_params. rewrite Cm. cbn [andb].
        destruct (has_char 59 (before ++ [47] ++ a)); [|reflexivity].
        unfold _splitparams. cbn [app].
        rewrite Eafter, has_char_app in Ha47.
        apply orb_false_iff in Ha47 as [Ha47 _].
        rewrite (UrlFacts.cut_last_app 47 before a Ha47).
        now rewrite (QueryFacts.cut_None 59 a Ha59).
      * right. rewrite Eps, Eafter. rewrite <- !app_assoc. reflexivity.
    + apply Hsame. unfold path_with_params. cbn [is_empty negb].
      rewrite Eps, Eafter. rewrite <- !app_assoc. reflexivity.
  - unfold split_params in H.
    destruct (mem sch uses_params && has_char 59 ps) eqn:C.
    + apply andb_true_iff in C as [Cm C59].
      unfold _splitparams in H.
      replace (cut_last 47 ps) with (@None (str * str)) in H.
      2:{ symmetry. unfold cut_last.
          rewrite QueryFacts.cut_None; [reflexivity|].
          now rewrite UrlFacts.has_char_rev. }
      destruct (cut 59 ps) as [[a b]|] eqn:E59;
        [|apply QueryFacts.cut_None_inv in E59; congruence].
      apply pair_equal_spec in H as [<- <-].
      pose proof (QueryFacts.cut_Some _ _ _ _ E59) as [Eps Ha59].
      destruct b as [|y b].
      * unfold path_with_params. cbn [is_empty negb]. split.
        -- unfold split_params. rewrite Ha59. now rewrite andb_false_r.
        -- right. exact Eps.
      * unfold path_with_params. cbn [is_empty negb]. cbn [app].
        rewrite <- Eps. split; [|now left].
        unfold split_params. rewrite Cm, C59. cbn [andb].
        unfold _splitparams.
        replace (cut_last 47 ps) with (@None (str * str)).
        2:{ symmetry. unfold cut_last.
            rewrite QueryFacts.cut_None; [reflexivity|].
            now rewrite UrlFacts.has_char_rev. }
        now rewrite E59.
    + apply pair_equal_spec in H as [<- <-].
      unfold path_with_params. cbn [is_empty negb].
      split; [|now left]. unfold split_params. now rewrite C.
Qed.

(** *** The URL put together again *)

Lemma urlunparse_no_authority (c : ParseResult) :
  legacy_urlunsplit = false -> netloc c = [] ->
  urlunparse c
  = url_without_authority (scheme c) (path_with_params (path c) (params c))
      (query c) (fragment c).
Proof.
  intros Hl Hn. unfold urlunparse.
  set (u := path_with_params (path c) (params c)).
  unfold urlunsplit, add_authority, url_without_authority, authority_mark.
  cbv zeta.
  change (if negb (is_empty (params c)) then path c ++ [59] ++ params c else path c)
    with u.
  rewrite Hl, Hn. cbn [is_empty negb].
  destruct (starts_with [47; 47] u);
    destruct (is_empty (scheme c)), (is_empty (query c)), (is_empty (fragment c));
    cbn [negb andb];
    try destruct (mem (scheme c) uses_netloc && (is_empty u || starts_with [47] u));
    repeat first [rewrite <- app_assoc | progress cbn [app]];
    rewrite ?app_nil_r; reflexivity.
Qed.

Lemma authority_mark_cases (sch u : str) :
  (authority_mark sch u = [] /\ starts_with [47; 47] u = false) \/
  (authority_mark sch u = [47; 47] /\ (u = [] \/ starts_with [47] u = true)).
Proof.
  unfold authority_mark.
  destruct (starts_with [47; 47] u) eqn:E.
  - right. split; [reflexivity|]. right.
    destruct u as [|x u]; [discriminate|].
    rewrite starts_with_cons in E |- *. apply andb_true_iff in E as [-> _].
    reflexivity.
  - destruct (negb (is_empty sch) && mem sch uses_netloc
              && (is_empty u || starts_with [47] u)) eqn:C; [|now left].
    right. split; [reflexivity|].
    apply andb_true_iff in C as [_ C]. apply orb_true_iff in C as [C | C].
    + left. now apply is_empty_nil.
    + now right.
Qed.

Lemma starts_with_app_long (p a b : str) :
  (List.length p <= List.length a)%nat ->
  starts_with p (a ++ b) = starts_with p a.
Proof.
  revert a. induction p as [|x p IH]; intros a H; [reflexivity|].
  destruct a as [|y a]; [cbn [List.length] in H; lia|].
  cbn [app]. rewrite !starts_with_cons. rewrite IH; [reflexivity|].
  cbn [List.length] in H. lia.
Qed.

(** The two slashes are not there again once the mark was not written. *)
Lemma starts_with_slashes_tail (u t : str) :
  starts_with [47; 47] u = false ->
  starts_with [47; 47] (u ++ 63 :: t) = false.
Proof.
  intros H. destruct u as [|x [|y u]].
  - reflexivity.
  - cbn [app]. rewrite !starts_with_cons.
    change (47 =? 63) with false. cbn [andb]. apply andb_false_r.
  - change ((x :: y :: u) ++ 63 :: t) with (x :: y :: (u ++ 63 :: t)).
    rewrite !starts_with_cons in *. exact H.
Qed.

Lemma urlsplit_build_noauth (sch u q fr : str) :
  scheme_ok sch = true ->
  has_char 35 u = false -> has_char 63 u = false -> forallb is_kept u = true ->
  q <> [] -> forallb is_query_char q = true ->
  forallb is_kept fr = true ->
  (sch = [] ->
   (has_char 58 u = true -> has_scheme u = false) /\
   match u with [] => True | c :: _ => 32 < c end) ->
  urlsplit (url_without_authority sch u q fr) = Ok (sch, [], u, q, fr).
Proof.
  intros Hsch H35 H63 Ku Hq Cq Kf Hnone.
  destruct (UrlFacts.scheme_ok_kept sch Hsch) as [Ksch [_ Hhead]].
  assert (Kq : forallb is_kept q = true)
    by (refine (UrlFacts.forallb_impl _ _ _ _ Cq); intros c Hcq;
        now apply UrlFacts.query_char_facts).
  assert (Q35 : has_char 35 q = false).
  { apply (UrlFacts.forallb_has_char _ _ _ Cq).
    destruct (is_query_char 35) eqn:E; [|reflexivity].
    apply UrlFacts.query_char_facts in E. now destruct E. }
  assert (Q58 : has_char 58 q = false)
    by (apply (UrlFacts.forallb_has_char _ _ _ Cq); reflexivity).
  set (t := q ++ (if is_empty fr then [] else 35 :: fr)).
  assert (Kt : forallb is_kept (u ++ 63 :: t) = true).
  { unfold t. rewrite forallb_app, Ku. cbn [forallb andb].
    rewrite forallb_app, Kq. cbn [andb].
    destruct fr; [reflexivity|]. exact Kf. }
  assert (E : url_without_authority sch u q fr
              = (if is_empty sch then [] else sch ++ [58])
                ++ authority_mark sch u ++ u ++ 63 :: t).
  { unfold url_without_authority, t.
    replace (is_empty q) with false by (now destruct q). reflexivity. }
  assert (Hrest : split_authority (authority_mark sch u ++ u ++ 63 :: t)
                  = Ok ([], u ++ 63 :: t)).
  { destruct (authority_mark_cases sch u) as [[-> Hs] | [-> Hs]].
    - cbn [app]. unfold split_authority.
      now rewrite (starts_with_slashes_tail u t Hs).
    - cbn [app]. unfold split_authority. rewrite !starts_with_cons.
      change (47 =? 47) with true. cbn [andb starts_with].
      unfold _splitnetloc. cbn [skipn].
      assert (Hd : match u ++ 63 :: t with
                   | [] => True
                   | c :: _ => is_netloc_delim c = true
                   end).
      { destruct Hs as [-> | Hs]; [reflexivity|].
        destruct u as [|x u]; [discriminate|]. cbn [app].
        rewrite starts_with_cons in Hs. apply andb_true_iff in Hs as [Hx _].
        apply N.eqb_eq in Hx. now subst x. }
      pose proof (UrlFacts.span_until_build is_netloc_delim [] (u ++ 63 :: t)
                    eq_refl Hd) as Hspan.
      cbn [app] in Hspan. rewrite Hspan. reflexivity. }
  assert (Ktail : forallb is_kept (authority_mark sch u ++ u ++ 63 :: t) = true).
  { rewrite forallb_app, Kt.
    destruct (authority_mark_cases sch u) as [[-> _] | [-> _]]; reflexivity. }
  rewrite E, UrlFacts.urlsplit_steps.
  destruct sch as [|c pre].
  - cbn [is_empty app]. destruct (Hnone eq_refl) as [Hcolon Hu].
    rewrite UrlFacts.sanitize_fix.
    + rewrite split_scheme_none;
        [rewrite Hrest; cbn [bind]; unfold t;
         now rewrite (UrlFacts.split_tail_build u q fr H35 H63 Q35)|].
      destruct (authority_mark_cases [] u) as [[-> _] | [-> _]]; cbn [app];
        [|apply has_scheme_slash].
      destruct (has_char 58 u) eqn:U58.
      * rewrite has_scheme_app_colon by exact U58. now apply Hcolon.
      * change (u ++ 63 :: t) with (u ++ [63] ++ t). rewrite app_assoc.
        apply has_scheme_bad.
        -- now rewrite has_char_app, U58.
        -- rewrite forallb_app. cbn [forallb].
           change (is_scheme_char 63) with false. cbn [andb]. apply andb_false_r.
    + exact Ktail.
    + destruct (authority_mark_cases [] u) as [[-> _] | [-> _]]; cbn [app];
        [|reflexivity].
      destruct u as [|x u]; [reflexivity | exact Hu].
  - cbn [is_empty]. rewrite <- app_assoc. cbn [app].
    change (c :: pre ++ 58 :: authority_mark (c :: pre) u ++ u ++ 63 :: t)
      with ((c :: pre) ++ 58 :: authority_mark (c :: pre) u ++ u ++ 63 :: t).
    rewrite UrlFacts.sanitize_fix.
    + rewrite (UrlFacts.split_scheme_build (c :: pre) _ Hsch) by discriminate.
      rewrite Hrest. cbn [bind]. unfold t.
      now rewrite (UrlFacts.split_tail_build u q fr H35 H63 Q35).
    + rewrite forallb_app, Ksch. cbn [forallb andb]. exact Ktail.
    + exact Hhead.
Qed.

(** With the newer [urlunsplit] the rebuilt URL has the components it
    was built from, with or without authority. *)
Lemma urlparse_rebuilt_any (url q : str) (c : ParseResult) :
  legacy_urlunsplit = false ->
  urlparse url = Ok c ->
  q <> [] -> forallb is_query_char q = true ->
  urlparse (urlunparse (set_query c q)) = Ok (set_query c q).
Proof.
  intros Hl H Hq Cq.
  destruct (netloc c) as [|x nl] eqn:Hn;
    [|apply (UrlFacts.urlparse_rebuilt url q c H); [rewrite Hn; discriminate | assumption..]].
  rewrite UrlFacts.urlparse_steps in H.
  bind_named H r. destruct r as [[[[sch nl] ps] qu] fr].
  destruct (split_params sch ps) as [p pa] eqn:Ep.
  apply (f_equal (fun r => match r with Ok x => x | Raise _ => set_query c [] end)) in H.
  cbv beta iota in H. subst c. cbn [netloc] in Hn. subst nl.
  destruct (urlsplit_inv_any _ _ _ _ _ Hr) as [Hsch [H35 [H63 [Kps [Kfr Hnone]]]]].
  destruct (split_params_stable_any _ _ _ _ Ep) as [Hstable Hu1].
  unfold set_query. cbn [scheme netloc path params query fragment].
  set (u := path_with_params p pa) in *.
  assert (Hfacts : has_char 35 u = false /\ has_char 63 u = false /\
                   forallb is_kept u = true).
  { destruct Hu1 as [-> | E]; [now split_all|].
    rewrite E in H35, H63, Kps. rewrite has_char_app in H35, H63.
    rewrite forallb_app in Kps.
    apply orb_false_iff in H35 as [H35 _]. apply orb_false_iff in H63 as [H63 _].
    apply andb_true_iff in Kps as [Kps _]. now split_all. }
  destruct Hfacts as [U35 [U63 Ku]].
  assert (Hnone' : sch = [] ->
            (has_char 58 u = true -> has_scheme u = false) /\
            match u with [] => True | c :: _ => 32 < c end).
  { intros Hs. destruct (Hnone Hs) as [Hcolon Hhead].
    destruct Hu1 as [-> | E]; [now split|].
    split.
    - intros U58. rewrite <- (has_scheme_app_colon u [59] U58), <- E.
      apply Hcolon. now rewrite E, has_char_app, U58.
    - rewrite E in Hhead. destruct u; [exact I | exact Hhead]. }
  rewrite urlunparse_no_authority by (assumption || reflexivity).
  cbn [scheme netloc path params query fragment]. fold u.
  rewrite UrlFacts.urlparse_steps.
  rewrite (urlsplit_build_noauth sch u q fr Hsch U35 U63 Ku Hq Cq Kfr Hnone').
  cbn [bind]. now rewrite Hstable.
Qed.

End WithRuntime.

End UrlFactsNoAuthority.

(** X23. With the [urlunsplit] that the library has since CPython 3.12.4,
    [with_affiliate_tag] is idempotent on every URL it accepts, with or
    without authority: applied with the same tag to the URL it returned, it
    returns that URL, and the URL it returns parses into the scheme, the
    authority, the path, the parameters and the fragment of the URL given,
    with the new query string. *)
Theorem with_affiliate_tag_idempotent_modern {RT : PyRuntime} (url tag r : str)
        (c : Urllib.ParseResult) :
  legacy_urlunsplit = false ->
  Urllib.urlparse url = Ok c ->
  with_affiliate_tag url tag = Ok r ->
  with_affiliate_tag r tag = Ok r /\
  exists c',
    Urllib.urlparse r = Ok c' /\
    Urllib.scheme c' = Urllib.scheme c /\ Urllib.netloc c' = Urllib.netloc c /\
    Urllib.path c' = Urllib.path c /\ Urllib.params c' = Urllib.params c /\
    Urllib.fragment c' = Urllib.fragment c /\
    Urllib.parse_qsl (Urllib.query c') = tagged_items (Urllib.query c) tag.
Proof.
  intros Hl Hc H.
  destruct (with_affiliate_tag_steps _ _ _ H) as [c0 [q [Hc0 [Hq ->]]]].
  rewrite Hc in Hc0.
  apply (f_equal (fun r => match r with Ok x => x | Raise _ => c end)) in Hc0.
  cbv beta iota in Hc0. subst c0.
  assert (Hp : Urllib.urlparse (Urllib.urlunparse (set_query c q))
               = Ok (set_query c q)).
  { apply (UrlFactsNoAuthority.urlparse_rebuilt_any url q c Hl Hc).
    - apply (urlencode_nonempty _ _ (tagged_items_nonempty _ _) Hq).
    - exact (QueryFacts.urlencode_chars _ _ Hq). }
  split.
  - now apply (with_affiliate_tag_again c (Urllib.query c)).
  - exists (set_query c q). split_all; try reflexivity; [exact Hp|].
    exact (QueryFacts.parse_qsl_urlencode _ _ Hq).
Qed.

Lemma with_affiliate_tag_idempotent_modern_witness :
  with_affiliate_tag (RT := cpython_3_13) (py "//////x") (py "tag123")
  = Ok (py "//////x?tag=tag123") /\
  with_affiliate_tag (RT := cpython_3_13) (py "//////x?tag=tag123") (py "tag123")
  = Ok (py "//////x?tag=tag123").
Proof.
  pose (c := match Urllib.urlparse (RT := cpython_3_13) (py "//////x") with
             | Ok c => c
             | Raise _ => set_query (Urllib.Build_ParseResult [] [] [] [] [] []) []
             end).
  assert (Hc : Urllib.urlparse (RT := cpython_3_13) (py "//////x") = Ok c)
    by (vm_compute; reflexivity).
  assert (E : with_affiliate_tag (RT := cpython_3_13) (py "//////x") (py "tag123")
              = Ok (py "//////x?tag=tag123"))
    by (vm_compute; reflexivity).
  split; [exact E|].
  exact (proj1 (with_affiliate_tag_idempotent_modern (RT := cpython_3_13)
                  _ _ _ c eq_refl Hc E)).
Defined.

(** ** The cards and the JSON document *)

Lemma is_substring_app (needle a b : str) :
  is_substring needle (a ++ needle ++ b) = true.
Proof.
  induction a as [|c a IH]; cbn [app].
  - destruct (needle ++ b) eqn:E; cbn [is_substring];
      rewrite <- E, starts_with_app; reflexivity.
  - cbn [is_substring]. rewrite IH. apply orb_true_r.
Qed.

Lemma is_substring_app_r (needle a t : str) :
  is_substring needle t = true -> is_substring needle (a ++ t) = true.
Proof.
  intros H. induction a as [|c a IH]; [exact H|].
  cbn [app is_substring]. rewrite IH. apply orb_true_r.
Qed.

Lemma is_substring_prefix (needle b : str) :
  is_substring needle (needle ++ b) = true.
Proof. apply (is_substring_app needle [] b). Qed.

Lemma is_substring_prefix3 (a b c rest : str) :
  is_substring (a ++ b ++ c) (a ++ b ++ c ++ rest) = true.
Proof.
  replace (a ++ b ++ c ++ rest) with ((a ++ b ++ c) ++ rest)
    by now rewrite <- !app_assoc.
  apply is_substring_prefix.
Qed.

Lemma forallb_join (f : N -> bool) (sep : str) (l : list str) :
  forallb f sep = true -> Forall (fun s => forallb f s = true) l ->
  forallb f (join sep l) = true.
Proof.
  intros Hs H. induction H as [|s l Hx Hl IH]; [reflexivity|].
  destruct l as [|s' l]; [exact Hx|].
  change (join sep (s :: s' :: l)) with (s ++ sep ++ join sep (s' :: l)).
  now rewrite !forallb_app, Hx, Hs, IH.
Qed.

Section Documents.

Context {RT : PyRuntime}.

(** X24. A product whose link [urlparse] or [urlencode] refuses ends its
    card, and so the build, with that exception before anything is fetched
    for it; otherwise the card holds the link of the action: the URL with
    the partner tag, escaped, marked [nofollow sponsored]. *)
Theorem card_link (w : world) (cache : bool) (p : product) (partner_tag : str) :
  (forall e, with_affiliate_tag (amazon_url p) partner_tag = Raise e ->
             card w cache p partner_tag = ([], Raise e)) /\
  (forall url text,
     with_affiliate_tag (amazon_url p) partner_tag = Ok url ->
     snd (card w cache p partner_tag) = Ok text ->
     is_substring (action_link url) text = true).
Proof.
  split.
  - intros e H. unfold card. rewrite H. reflexivity.
  - intros url text H Ht. unfold card in Ht. rewrite H, io_bind_lift in Ht.
    destruct (if cache then cache_image w (asin p) (image_url p)
              else io_ret (image_url p)) as [t [src|e]]; [|discriminate].
    rewrite io_bind_Ok in Ht. cbn [fst snd io_ret] in Ht.
    apply (f_equal (fun r => match r with Ok x => x | Raise _ => [] end)) in Ht.
    cbv beta iota in Ht. subst text. unfold action_link.
    repeat match goal with
           | |- is_substring _ (?a ++ _) = true =>
               lazymatch a with
               | pyq "      <a class=`btn` href=`" => fail
               | _ => apply is_substring_app_r
               end
           end.
    replace (pyq "      <a class=`btn` href=`")
      with (py "      " ++ pyq "<a class=`btn` href=`") by (vm_compute; reflexivity).
    rewrite <- (app_assoc (py "      ") (pyq "<a class=`btn` href=`")).
    apply is_substring_app_r.
    apply is_substring_prefix3.
Qed.

(** X25. The intro block is built after the cards.  With a configuration
    whose [intro_paragraphs] entry is null, a boolean or a number, [main]
    raises [TypeError] once the cards are built: the images of the products
    have been fetched and written by then, and neither [index.html] nor
    [products.json] is written. *)
Theorem main_bad_intro (w : world) (d : list (str * json)) (v : json)
        (items : list json) (products : list product) (t : list event)
        (cards : list str) :
  partner_tag_of w <> [] ->
  read_json w CONFIG_FILE = Ok (JDict d) ->
  lookup (py "intro_paragraphs") d = Some v ->
  py_iter v = Raise TypeError ->
  py_iter (match lookup (py "products") d with
           | Some x => x
           | None => JList []
           end) = Ok items ->
  normalize_products items = Ok products ->
  cards_of w (CACHE_IMAGES (environ w)) products (partner_tag_of w) = (t, Ok cards) ->
  main w = (ReadText CONFIG_FILE :: t, Raise TypeError).
Proof.
  intros Htag Hread Hintro Hiter Hitems Hnorm Hcards.
  unfold main. cbv zeta. fold (partner_tag_of w).
  apply is_empty_false in Htag. rewrite Htag.
  unfold io_emit. rewrite io_bind_Ok. cbn [fst snd].
  rewrite Hread, load_config_items, io_bind_lift.
  unfold py_get_default. rewrite !lookup_app, Hintro.
  assert (Hp : match lookup (py "products") d with
               | Some x => Some x
               | None =>
                   lookup (py "products")
                     (filter (fun kv => match lookup (fst kv) d with
                                        | Some _ => false
                                        | None => true
                                        end) config_defaults)
               end
               = Some (match lookup (py "products") d with
                       | Some x => x
                       | None => JList []
                       end)).
  { destruct (lookup (py "products") d) eqn:E; [reflexivity|].
    rewrite (lookup_filter_absent _ _ _ E). vm_compute. reflexivity. }
  rewrite Hp. cbn [bind]. rewrite Hitems, io_bind_lift, Hnorm, io_bind_lift.
  rewrite Hcards, io_bind_Ok. cbn [fst snd].
  destruct (lookup (py "meta_note") d) as [m|];
    cbn [bind]; unfold build_intro; rewrite Hiter; cbn [bind];
    rewrite io_bind_raise; cbn [fst snd app]; now rewrite app_nil_r.
Qed.

End Documents.

Lemma card_link_witness :
  is_substring
    (pyq "<a class=`btn` href=`https://www.amazon.com/dp/B001?th=1&amp;tag=tag123` rel=`nofollow sponsored`>Check price on Amazon</a>")
    (match snd (card (RT := cpython_3_11) sample_world false
                     {| asin := py "B001"; name := py "Widget"; description := [];
                        image_url := [];
                        amazon_url := py "https://www.amazon.com/dp/B001?th=1";
                        best_for := [] |}
                     (py "tag123")) with
     | Ok text => text
     | Raise _ => []
     end) = true /\
  card (RT := cpython_3_11) sample_world true
       {| asin := py "B009"; name := py "Product"; description := [];
          image_url := py "https://img.example.com/b009.png";
          amazon_url := py "https://[amazon.com/dp/B009"; best_for := [] |}
       (py "tag123")
  = ([], Raise ValueError).
Proof.
  split.
  - pose (p := {| asin := py "B001"; name := py "Widget"; description := [];
                  image_url := [];
                  amazon_url := py "https://www.amazon.com/dp/B001?th=1";
                  best_for := [] |}).
    destruct (card_link (RT := cpython_3_11) sample_world false p (py "tag123"))
      as [_ H].
    pose (text := match snd (card (RT := cpython_3_11) sample_world false p
                                  (py "tag123")) with
                  | Ok text => text
                  | Raise _ => []
                  end).
    assert (Ht : snd (card (RT := cpython_3_11) sample_world false p (py "tag123"))
                 = Ok text) by (vm_compute; reflexivity).
    assert (Hu : with_affiliate_tag (RT := cpython_3_11) (amazon_url p) (py "tag123")
                 = Ok (py "https://www.amazon.com/dp/B001?th=1&tag=tag123"))
      by (vm_compute; reflexivity).
    pose proof (H _ text Hu Ht) as Hs.
    replace (action_link (py "https://www.amazon.com/dp/B001?th=1&tag=tag123"))
      with (pyq "<a class=`btn` href=`https://www.amazon.com/dp/B001?th=1&amp;tag=tag123` rel=`nofollow sponsored`>Check price on Amazon</a>")
      in Hs by (vm_compute; reflexivity).
    exact Hs.
  - match goal with
    | |- card _ _ ?p _ = _ =>
        destruct (card_link (RT := cpython_3_11) sample_world true p (py "tag123"))
          as [H _]
    end.
    apply H. vm_compute. reflexivity.
Defined.

Lemma main_bad_intro_witness :
  main (RT := cpython_3_11) bad_intro_world
  = ([ReadText (py "site_config.json"); Mkdir (py "assets/img");
      HttpGet (py "https://img.example.com/b002");
      WriteBytes (py "assets/img/B002.png") [137; 80; 78; 71]],
     Raise TypeError).
Proof.
  pose (d := [(py "intro_paragraphs", JNull);
              (py "products",
               JList [JDict [(py "amazon_asin", JStr (py "B002"));
                             (py "image_url", JStr (py "https://img.example.com/b002"))]])]).
  pose (items := [JDict [(py "amazon_asin", JStr (py "B002"));
                         (py "image_url", JStr (py "https://img.example.com/b002"))]]).
  pose (products := match normalize_products (RT := cpython_3_11) items with
                    | Ok l => l
                    | Raise _ => []
                    end).
  pose (cards := match snd (cards_of (RT := cpython_3_11) bad_intro_world true
                                     products (py "tag123")) with
                 | Ok l => l
                 | Raise _ => []
                 end).
  rewrite (main_bad_intro (RT := cpython_3_11) bad_intro_world d JNull items
             products
             [Mkdir (py "assets/img"); HttpGet (py "https://img.example.com/b002");
              WriteBytes (py "assets/img/B002.png") [137; 80; 78; 71]]
             cards).
  - vm_compute. reflexivity.
  - vm_compute. discriminate.
  - reflexivity.
  - reflexivity.
  - reflexivity.
  - reflexivity.
  - vm_compute. reflexivity.
  - vm_compute. reflexivity.
Defined.

(** ** The JSON document *)

Lemma hex_lower_ascii (n : N) :
  n < 16 -> is_json_text_char (hex_lower n) = true.
Proof.
  intros H. unfold is_json_text_char, hex_lower.
  destruct (n <? 10) eqn:E; b2p; lia.
Qed.

Lemma u_escape_ascii (c : N) : forallb is_json_text_char (u_escape c) = true.
Proof.
  unfold u_escape. rewrite forallb_app. cbn [forallb].
  rewrite !hex_lower_ascii by (apply N.mod_lt; discriminate).
  vm_compute. reflexivity.
Qed.

Lemma json_escape_char_ascii (c : N) :
  forallb is_json_text_char (json_escape_char c) = true.
Proof.
  unfold json_escape_char.
  repeat match goal with
         | |- context [if ?a =? ?b then _ else _] =>
             destruct (a =? b); [vm_compute; reflexivity|]
         end.
  destruct ((32 <=? c) && (c <=? 126)) eqn:E.
  - cbn [forallb]. unfold is_json_text_char. rewrite E. now rewrite orb_true_r.
  - destruct (c <? 65536); [apply u_escape_ascii|].
    rewrite forallb_app, !u_escape_ascii. reflexivity.
Qed.

Lemma json_string_ascii (s : str) :
  forallb is_json_text_char (json_string s) = true.
Proof.
  unfold json_string. rewrite !forallb_app. cbn [forallb andb].
  change (is_json_text_char 34) with true. cbn [andb]. rewrite andb_true_r.
  induction s as [|c s IH]; [reflexivity|].
  cbn [flat_map]. now rewrite forallb_app, json_escape_char_ascii.
Qed.

Lemma newline_indent_ascii (level : nat) :
  forallb is_json_text_char (newline_indent level) = true.
Proof.
  unfold newline_indent. cbn [forallb].
  change (is_json_text_char 10) with true. cbn [andb].
  induction (2 * level)%nat as [|n IH]; [reflexivity|].
  cbn [repeat forallb]. now rewrite IH.
Qed.

(** A document made of texts, lists and objects is written in ASCII. *)
Lemma dumps_at_ascii :
  forall (v : json) (level : nat),
    is_textual v = true ->
    forallb is_json_text_char (dumps_at level v) = true.
Proof.
  fix IH 1. intros v level Hv.
  destruct v as [| b | z | nz r | s | l | d]; cbn [is_textual] in Hv;
    try discriminate.
  - vm_compute. reflexivity.
  - destruct b; vm_compute; reflexivity.
  - apply json_string_ascii.
  - destruct l as [|x l]; [vm_compute; reflexivity|].
    change (dumps_at level (JList (x :: l)))
      with (py "[" ++ newline_indent (S level)
            ++ join (py "," ++ newline_indent (S level))
                    (map (dumps_at (S level)) (x :: l))
            ++ newline_indent level ++ py "]").
    rewrite !forallb_app, !newline_indent_ascii.
    replace (forallb is_json_text_char (py "[")) with true by (vm_compute; reflexivity).
    replace (forallb is_json_text_char (py "]")) with true by (vm_compute; reflexivity).
    cbn [andb]. rewrite andb_true_r.
    apply forallb_join.
    + rewrite forallb_app, newline_indent_ascii. vm_compute. reflexivity.
    + cbn [forallb] in Hv. apply andb_true_iff in Hv as [Hx Hl].
      cbn [map]. constructor; [now apply IH|].
      induction l as [|y l IHl]; [constructor|].
      cbn [forallb] in Hl. apply andb_true_iff in Hl as [Hy Hl].
      cbn [map]. constructor; [now apply IH | now apply IHl].
  - destruct d as [|[k x] d]; [vm_compute; reflexivity|].
    change (dumps_at level (JDict ((k, x) :: d)))
      with (py "{" ++ newline_indent (S level)
            ++ join (py "," ++ newline_indent (S level))
                    (map (fun kv => match kv with
                                    | (k, x) => json_string k ++ py ": "
                                                ++ dumps_at (S level) x
                                    end) ((k, x) :: d))
            ++ newline_indent level ++ py "}").
    rewrite !forallb_app, !newline_indent_ascii.
    replace (forallb is_json_text_char (py "{")) with true by (vm_compute; reflexivity).
    replace (forallb is_json_text_char (py "}")) with true by (vm_compute; reflexivity).
    cbn [andb]. rewrite andb_true_r.
    apply forallb_join.
    + rewrite forallb_app, newline_indent_ascii. vm_compute. reflexivity.
    + cbn [forallb snd] in Hv. apply andb_true_iff in Hv as [Hx Hl].
      cbn [map]. constructor.
      * rewrite !forallb_app, json_string_ascii, (IH x (S level) Hx).
        vm_compute. reflexivity.
      * induction d as [|[k' y] d IHd]; [constructor|].
        cbn [forallb snd] in Hl. apply andb_true_iff in Hl as [Hy Hl].
        cbn [map]. constructor; [|now apply IHd].
        rewrite !forallb_app, json_string_ascii, (IH y (S level) Hy).
        vm_compute. reflexivity.
Qed.

Lemma products_document_textual (products : list product) (updated title : str) :
  is_textual (products_document products updated title) = true.
Proof.
  unfold products_document. cbn [is_textual forallb snd]. rewrite !andb_true_r.
  induction products as [|p ps IH]; [reflexivity|].
  cbn [map forallb]. rewrite IH, andb_true_r.
  unfold product_dict. cbn [is_textual forallb snd]. rewrite !andb_true_r.
  induction (best_for p) as [|t ts IHt]; [reflexivity|]. exact IHt.
Qed.

(** ** Affiliate URL Builder: the canonical link *)

Section CanonicalLink.

Context {RT : PyRuntime}.

Lemma always_safe_facts (c : N) :
  Urllib.is_always_safe c = true ->
  is_kept c = true /\ c <> 35 /\ c <> 63 /\ c <> 59.
Proof.
  unfold Urllib.is_always_safe, is_ascii_alpha, is_ascii_upper, is_ascii_lower,
    is_ascii_digit, is_kept.
  intros H. b2p. lia.
Qed.

(** The components of the canonical link of an identifier made of
    letters, digits and [_.-~]. *)
Lemma urlparse_default (asin : str) :
  forallb Urllib.is_always_safe asin = true ->
  Urllib.urlparse (default_amazon_url asin)
  = Ok {| Urllib.scheme := py "https"; Urllib.netloc := py "www.amazon.com";
          Urllib.path := py "/dp/" ++ asin; Urllib.params := [];
          Urllib.query := []; Urllib.fragment := [] |}.
Proof.
  intros Hsafe.
  assert (Ka : forallb is_kept asin = true)
    by (refine (UrlFacts.forallb_impl _ _ _ _ Hsafe); intros c Hc;
        now apply always_safe_facts).
  assert (H35 : has_char 35 asin = false)
    by (apply (UrlFacts.forallb_has_char _ _ _ Hsafe); reflexivity).
  assert (H63 : has_char 63 asin = false)
    by (apply (UrlFacts.forallb_has_char _ _ _ Hsafe); reflexivity).
  assert (H59 : has_char 59 asin = false)
    by (apply (UrlFacts.forallb_has_char _ _ _ Hsafe); reflexivity).
  assert (E : default_amazon_url asin
              = py "https" ++ 58 :: 47 :: 47 :: py "www.amazon.com"
                  ++ (py "/dp/" ++ asin)).
  { unfold default_amazon_url.
    replace (py "https://www.amazon.com/dp/")
      with (py "https" ++ 58 :: 47 :: 47 :: py "www.amazon.com" ++ py "/dp/")
      by (vm_compute; reflexivity).
    rewrite <- !app_assoc. cbn [app]. now rewrite <- !app_assoc. }
  rewrite UrlFacts.urlparse_steps, UrlFacts.urlsplit_steps, E.
  rewrite UrlFacts.sanitize_fix.
  - rewrite UrlFacts.split_scheme_build by (vm_compute; (reflexivity || discriminate)).
    rewrite UrlFacts.split_authority_build.
    + cbn [bind]. unfold split_tail.
      rewrite (QueryFacts.cut_None 35)
        by (rewrite has_char_app, H35; vm_compute; reflexivity).
      rewrite (QueryFacts.cut_None 63)
        by (rewrite has_char_app, H63; vm_compute; reflexivity).
      replace (Urllib._checknetloc (py "www.amazon.com")) with true
        by (vm_compute; reflexivity).
      cbv beta iota zeta. cbn [bind]. cbv beta iota zeta. unfold split_params.
      replace (has_char 59 (py "/dp/" ++ asin)) with false
        by (rewrite has_char_app, H59; vm_compute; reflexivity).
      rewrite andb_false_r. reflexivity.
    + vm_compute. reflexivity.
    + vm_compute. reflexivity.
  - rewrite forallb_app. cbn [forallb]. rewrite !forallb_app, Ka.
    vm_compute. reflexivity.
  - vm_compute. reflexivity.
Qed.

(** X27. The link of a product without [amazon_url], whose identifier is
    made of letters, digits and [_.-~]: the canonical link of the
    identifier, a question mark, [tag=] and the partner tag as [quote_plus]
    writes it.  This holds for every partner tag that can be encoded, with
    either version of [urlunsplit]. *)
Theorem default_link_tagged (asin tag v : str) :
  forallb Urllib.is_always_safe asin = true ->
  Urllib.quote_plus tag = Ok v ->
  with_affiliate_tag (default_amazon_url asin) tag
  = Ok (default_amazon_url asin ++ py "?tag=" ++ v).
Proof.
  intros Hsafe Hv. unfold with_affiliate_tag.
  rewrite (urlparse_default asin Hsafe). cbn [bind Urllib.query].
  change (dict_set (dict_of_pairs (Urllib.parse_qsl [])) (py "tag") tag)
    with [(py "tag", tag)].
  rewrite (urlencode_tag tag v Hv). cbn [bind].
  cbn [Urllib.scheme Urllib.netloc Urllib.path Urllib.params Urllib.fragment].
  rewrite UrlFacts.urlunparse_authority;
    cbn [Urllib.scheme Urllib.netloc Urllib.path Urllib.params Urllib.query
         Urllib.fragment].
  - unfold url_with_authority, path_with_params, default_amazon_url.
    cbn [is_empty negb].
    replace (is_empty (py "https")) with false by (vm_compute; reflexivity).
    replace (is_empty (py "tag=" ++ v)) with false by (vm_compute; reflexivity).
    replace (py "https://www.amazon.com/dp/")
      with ((py "https" ++ [58]) ++ 47 :: 47 :: py "www.amazon.com" ++ py "/dp/")
      by (vm_compute; reflexivity).
    replace (py "?tag=") with (63 :: py "tag=") by (vm_compute; reflexivity).
    rewrite app_nil_r.
    repeat first [rewrite <- app_assoc | progress cbn [app]]. reflexivity.
  - vm_compute. discriminate.
  - right. unfold path_with_params. cbn [is_empty negb]. vm_compute. reflexivity.
Qed.

End CanonicalLink.

Lemma default_link_tagged_witness :
  with_affiliate_tag (RT := cpython_3_11) (default_amazon_url (py "B00-X_1.a~"))
                     (py "my tag/20")
  = Ok (py "https://www.amazon.com/dp/B00-X_1.a~?tag=my+tag%2F20").
Proof.
  rewrite (default_link_tagged (RT := cpython_3_11) (py "B00-X_1.a~")
             (py "my tag/20") (py "my+tag%2F20")).
  - vm_compute. reflexivity.
  - vm_compute. reflexivity.
  - vm_compute. reflexivity.
Defined.

(** ** The intro block *)

(** X28. The intro block has one line for each paragraph that is not blank
    (its [str()], trimmed, is not empty): a blank paragraph changes
    nothing, wherever it stands.  The meta note adds a last line only when
    it counts as true and is not blank, so a note of [0] or [false] is left
    out. *)
Theorem build_intro_blank {RT : PyRuntime} :
  (forall pre x post note,
     strip (py_str x) = [] ->
     build_intro (JList (pre ++ x :: post)) note
     = build_intro (JList (pre ++ post)) note) /\
  (forall ps note,
     truthy note = false \/ strip (py_str note) = [] ->
     build_intro (JList ps) note = Ok (join [10] (intro_parts ps))).
Proof.
  split_all.
  - intros pre x post note Hx. unfold build_intro. cbn [py_iter bind].
    assert (E : intro_parts (pre ++ x :: post) = intro_parts (pre ++ post)).
    { unfold intro_parts. rewrite !flat_map_app. cbn [flat_map].
      now rewrite Hx. }
    now rewrite E.
  - intros ps note H. unfold build_intro. cbn [py_iter bind].
    destruct H as [-> | ->]; [reflexivity|].
    cbn [is_empty negb]. now rewrite andb_false_r.
Qed.

Lemma build_intro_blank_witness :
  build_intro (RT := cpython_3_11)
    (JList [JStr (py "Hello"); JStr (py "   "); JInt 5]) (JInt 0)
  = Ok (py "<p>Hello</p>
<p>5</p>") /\
  build_intro (RT := cpython_3_11)
    (JList ([JStr (py "Hello")] ++ JStr (py "   ") :: [JInt 5])) (JInt 0)
  = build_intro (RT := cpython_3_11)
      (JList ([JStr (py "Hello")] ++ [JInt 5])) (JInt 0).
Proof.
  destruct (build_intro_blank (RT := cpython_3_11)) as [Hskip Hnote].
  split.
  - rewrite Hnote by (left; reflexivity). vm_compute. reflexivity.
  - apply Hskip. vm_compute. reflexivity.
Defined.

(** * The encoding of the files that [main] writes *)

Lemma encodable_cons (c : N) (s : str) :
  encodable (c :: s) = encodable [c] && encodable s.
Proof.
  unfold encodable. cbn [Utf8.encode].
  destruct (Utf8.encode_char c); [|reflexivity].
  now destruct (Utf8.encode s).
Qed.

Lemma encodable_app (a b : str) :
  encodable (a ++ b) = encodable a && encodable b.
Proof.
  induction a as [|c a IH]; [reflexivity|].
  cbn [app]. rewrite (encodable_cons c a), encodable_cons, IH.
  apply andb_assoc.
Qed.

Lemma encodable_forallb (s : str) :
  encodable s = forallb (fun c => encodable [c]) s.
Proof.
  induction s as [|c s IH]; [reflexivity|].
  rewrite encodable_cons, IH. reflexivity.
Qed.

Lemma encodable_ascii_char (c : N) : c < 128 -> encodable [c] = true.
Proof.
  intros H. unfold encodable. cbn [Utf8.encode]. unfold Utf8.encode_char.
  apply N.ltb_lt in H. now rewrite H.
Qed.

(** A lone surrogate is what the encoder refuses. *)
Lemma encodable_surrogate (c : N) :
  Utf8.is_surrogate c = true -> encodable [c] = false.
Proof.
  unfold Utf8.is_surrogate. intros H.
  apply andb_true_iff in H as [H1 H2].
  apply N.leb_le in H1, H2.
  unfold encodable. cbn [Utf8.encode]. unfold Utf8.encode_char, Utf8.is_surrogate.
  replace (c <? 128) with false by (symmetry; apply N.ltb_ge; lia).
  replace (c <? 2048) with false by (symmetry; apply N.ltb_ge; lia).
  replace (c <? 65536) with true by (symmetry; apply N.ltb_lt; lia).
  replace (55296 <=? c) with true by (symmetry; apply N.leb_le; lia).
  replace (c <=? 57343) with true by (symmetry; apply N.leb_le; lia).
  reflexivity.
Qed.

Lemma encodable_json_text (s : str) :
  forallb is_json_text_char s = true -> encodable s = true.
Proof.
  intros H. rewrite encodable_forallb.
  apply forallb_forall. intros c Hc.
  rewrite forallb_forall in H. specialize (H c Hc).
  unfold is_json_text_char in H.
  apply encodable_ascii_char.
  apply orb_true_iff in H as [H | H].
  - apply N.eqb_eq in H. lia.
  - apply andb_true_iff in H as [_ H]. apply N.leb_le in H. lia.
Qed.

Lemma encodable_esc_char (c : N) : encodable (esc_char c) = encodable [c].
Proof.
  unfold esc_char.
  destruct (N.eqb_spec c 38) as [-> | _]; [vm_compute; reflexivity|].
  destruct (N.eqb_spec c 60) as [-> | _]; [vm_compute; reflexivity|].
  destruct (N.eqb_spec c 62) as [-> | _]; [vm_compute; reflexivity|].
  destruct (N.eqb_spec c 34) as [-> | _]; [vm_compute; reflexivity|].
  destruct (N.eqb_spec c 39) as [-> | _]; [vm_compute; reflexivity|].
  reflexivity.
Qed.

(** Escaping neither brings in nor takes away what cannot be encoded. *)
Lemma encodable_esc (s : str) : encodable (esc s) = encodable s.
Proof.
  rewrite esc_flat_map.
  induction s as [|c s IH]; [reflexivity|].
  cbn [flat_map]. now rewrite encodable_app, encodable_esc_char, IH, (encodable_cons c s).
Qed.

Lemma encodable_strftime (d : datetime) : encodable (strftime d) = true.
Proof.
  assert (K : forall n, encodable [digit n] = true).
  { intros n. apply encodable_ascii_char. unfold digit.
    generalize (N.mod_lt n 10). lia. }
  unfold strftime.
  repeat first [ rewrite encodable_app
               | rewrite (encodable_cons _ (_ :: _))
               | rewrite K ].
  vm_compute. reflexivity.
Qed.

Lemma encodable_HTML_text :
  forallb encodable (map HTML_text [0; 2; 4; 6; 8; 10; 12]%nat) = true.
Proof. vm_compute. reflexivity. Qed.

(** The page can be encoded when the six texts put in its fields can. *)
Lemma encodable_page (title desc h1 intro updated cards : str) :
  encodable (page title desc h1 intro updated cards)
  = encodable title && encodable desc && encodable h1 && encodable intro
    && encodable updated && encodable cards.
Proof.
  pose proof encodable_HTML_text as Ht. cbn [forallb map] in Ht.
  repeat (apply andb_true_iff in Ht; destruct Ht as [? Ht]).
  unfold page. rewrite !encodable_app.
  repeat match goal with H : encodable (HTML_text _) = true |- _ => rewrite H; clear H end.
  rewrite !andb_true_r. cbn [andb]. rewrite !andb_assoc. reflexivity.
Qed.

(** [json.dumps] writes ASCII only: the document of the products can always
    be encoded. *)
Lemma encodable_products_document (products : list product) (updated title : str) :
  encodable (dumps (products_document products updated title)) = true.
Proof.
  apply encodable_json_text, dumps_at_ascii, products_document_textual.
Qed.

(** * The run of [main] on a configuration *)

Section Run.

Context {RT : PyRuntime}.

(** The entries that [main] reads from the configuration that [load_config]
    returns. *)
Lemma load_config_entries (d : list (str * json)) :
  exists d',
    load_config (Ok (JDict d)) = Ok (JDict d') /\
    lookup (py "products") d' = Some (config_entry d (py "products") (JList [])) /\
    lookup (py "intro_paragraphs") d'
    = Some (config_entry d (py "intro_paragraphs") (JList [])) /\
    lookup (py "meta_note") d' = Some (config_entry d (py "meta_note") (JStr (py ""))) /\
    lookup (py "title") d'
    = Some (config_entry d (py "title") (JStr (py "Product shortlist"))) /\
    lookup (py "description") d'
    = Some (config_entry d (py "description")
                         (JStr (py "A simple shortlist of products."))).
Proof.
  destruct (load_config_lookup d) as [d' [Hload Hk]].
  exists d'. unfold config_entry. split_all.
  - exact Hload.
  - apply Hk. do 4 right. left. reflexivity.
  - apply Hk. do 2 right. left. reflexivity.
  - apply Hk. do 3 right. left. reflexivity.
  - apply Hk. left. reflexivity.
  - apply Hk. right. left. reflexivity.
Qed.

Lemma resolved_title_entry (d : list (str * json)) :
  strip (py_str (py_or (config_entry d (py "title") (JStr (py "Product shortlist")))
                       (JStr (py "Product shortlist"))))
  = resolved_title d.
Proof.
  unfold resolved_title, config_entry.
  destruct (lookup (py "title") d); [reflexivity|].
  vm_compute. reflexivity.
Qed.

(** What [main] does once the configuration is read, the products are
    normalized and the cards and the intro block are built: it writes the
    page, then the JSON document. *)
Lemma main_run (w : world) (d : list (str * json)) (items : list json)
      (products : list product) (t : list event) (cards : list str) (intro : str) :
  partner_tag_of w <> [] ->
  read_json w CONFIG_FILE = Ok (JDict d) ->
  py_iter (config_entry d (py "products") (JList [])) = Ok items ->
  normalize_products items = Ok products ->
  cards_of w (CACHE_IMAGES (environ w)) products (partner_tag_of w) = (t, Ok cards) ->
  build_intro (config_entry d (py "intro_paragraphs") (JList []))
              (config_entry d (py "meta_note") (JStr (py ""))) = Ok intro ->
  main w
  = io_bind (ReadText CONFIG_FILE :: t, Ok tt)
      (fun _ =>
         io_bind (write_text w (py "index.html") (index_html w d intro cards))
                 (fun _ => write_text w (py "products.json")
                                      (products_json w d products))).
Proof.
  intros Htag Hread Hitems Hnorm Hcards Hintro.
  destruct (load_config_entries d) as [d' [Hload [Hp [Hi [Hm [Ht Hd]]]]]].
  unfold main. cbv zeta. fold (partner_tag_of w).
  apply is_empty_false in Htag. rewrite Htag.
  unfold io_emit. rewrite io_bind_Ok. cbn [fst snd].
  rewrite Hread, Hload, io_bind_lift.
  unfold py_get_default, py_get. rewrite Hp, Hi, Hm, Ht, Hd.
  cbn [bind]. rewrite Hitems, io_bind_lift, Hnorm, io_bind_lift, Hcards.
  rewrite io_bind_Ok. cbn [fst snd].
  rewrite Hintro, !io_bind_lift.
  rewrite format_HTML, io_bind_lift.
  rewrite resolved_title_entry.
  change (strip (py_str (py_or (config_entry d (py "description")
                                  (JStr (py "A simple shortlist of products.")))
                               (JStr (py "")))))
    with (resolved_description d).
  fold (index_html w d intro cards).
  fold (products_document products (strftime (now_utc w)) (resolved_title d)).
  fold (products_json w d products).
  rewrite io_bind_Ok. cbn [fst snd app]. reflexivity.
Qed.

(** A build that reaches the writing of a file has read a configuration that
    is an object, normalized its products and built the cards and the intro
    block. *)
Lemma main_reaches_write (w : world) (path text : str) :
  In (WriteText path text) (fst (main w)) ->
  exists d items products t cards intro,
    partner_tag_of w <> [] /\
    read_json w CONFIG_FILE = Ok (JDict d) /\
    py_iter (config_entry d (py "products") (JList [])) = Ok items /\
    normalize_products items = Ok products /\
    cards_of w (CACHE_IMAGES (environ w)) products (partner_tag_of w) = (t, Ok cards) /\
    build_intro (config_entry d (py "intro_paragraphs") (JList []))
                (config_entry d (py "meta_note") (JStr (py ""))) = Ok intro.
Proof.
  unfold main. cbv zeta. fold (partner_tag_of w).
  destruct (is_empty (partner_tag_of w)) eqn:Htag; [intros []|].
  apply is_empty_false in Htag.
  intros H.
  apply io_bind_trace in H as [[H | []] | [_ [_ H]]]; [discriminate|].
  apply io_bind_trace in H as [[] | [cfg [Hcfg H]]].
  cbn [snd io_lift] in Hcfg.
  destruct (read_json w CONFIG_FILE) as [v|e] eqn:Hread; [|discriminate].
  destruct v as [| | | | | |d]; try discriminate.
  destruct (load_config_entries d) as [d' [Hload [Hp [Hi [Hm [Ht Hd]]]]]].
  rewrite Hload in Hcfg.
  apply (f_equal (fun r => match r with Ok x => x | Raise _ => JNull end)) in Hcfg.
  cbv beta iota in Hcfg. subst cfg.
  unfold py_get_default, py_get in H. rewrite Hp, Hi, Hm in H.
  cbn [bind] in H.
  apply io_bind_trace in H as [[] | [items [Hitems H]]].
  cbn [snd io_lift] in Hitems.
  apply io_bind_trace in H as [[] | [products [Hnorm H]]].
  cbn [snd io_lift] in Hnorm.
  destruct (cards_of w (CACHE_IMAGES (environ w)) products (partner_tag_of w))
    as [t r] eqn:Hcards.
  apply io_bind_trace in H as [H | [cards [Hc H]]].
  { cbn [fst] in H.
    pose proof (proj1 (cards_of_spec w (CACHE_IMAGES (environ w)) (partner_tag_of w)
                         products) path text) as K.
    rewrite Hcards in K. now apply K in H. }
  cbn [snd] in Hc. subst r.
  apply io_bind_trace in H as [[] | [intro [Hintro H]]].
  cbn [snd io_lift] in Hintro.
  exists d, items, products, t, cards, intro.
  split_all; try assumption; reflexivity.
Qed.

(** The files that [main] writes, whenever it writes one: the page, and
    after it, once the page is written, the JSON document. *)
Lemma main_writes (w : world) (path text : str) :
  In (WriteText path text) (fst (main w)) ->
  exists d items products t cards intro,
    (partner_tag_of w <> [] /\
     read_json w CONFIG_FILE = Ok (JDict d) /\
     py_iter (config_entry d (py "products") (JList [])) = Ok items /\
     normalize_products items = Ok products /\
     cards_of w (CACHE_IMAGES (environ w)) products (partner_tag_of w) = (t, Ok cards) /\
     build_intro (config_entry d (py "intro_paragraphs") (JList []))
                 (config_entry d (py "meta_note") (JStr (py ""))) = Ok intro) /\
    ((path = py "index.html" /\ text = index_html w d intro cards) \/
     (path = py "products.json" /\ text = products_json w d products /\
      write_ok w (py "index.html") = true /\
      encodable (index_html w d intro cards) = true)).
Proof.
  intros H.
  destruct (main_reaches_write w path text H)
    as [d [items [products [t [cards [intro [Htag [Hread [Hitems [Hnorm [Hcards Hintro]]]]]]]]]]].
  exists d, items, products, t, cards, intro.
  split; [split_all; assumption|].
  rewrite (main_run w d items products t cards intro Htag Hread Hitems Hnorm
             Hcards Hintro) in H.
  rewrite !write_text_cases in H.
  assert (Ht : ~ In (WriteText path text) t).
  { pose proof (proj1 (cards_of_spec w (CACHE_IMAGES (environ w)) (partner_tag_of w)
                         products) path text) as K.
    now rewrite Hcards in K. }
  set (ok := if write_ok w (py "index.html")
             then if encodable (index_html w d intro cards)
                  then Ok tt else Raise UnicodeEncodeError
             else Raise OSError) in H.
  assert (Hok : ok = Ok tt ->
                write_ok w (py "index.html") = true /\
                encodable (index_html w d intro cards) = true).
  { subst ok. destruct (write_ok w (py "index.html")); [|discriminate].
    destruct (encodable (index_html w d intro cards)); [|discriminate].
    now split. }
  destruct ok as [[]|e].
  - destruct (Hok eq_refl) as [H1 H2].
    cbn [io_bind fst snd app] in H.
    apply in_inv in H as [H | H]; [discriminate H|].
    apply in_app_or in H as [H | H]; [now apply Ht in H|].
    destruct H as [H | [H | []]].
    + left. split.
      * apply (f_equal (fun e => match e with WriteText p _ => p | _ => [] end)) in H.
        now symmetry.
      * apply (f_equal (fun e => match e with WriteText _ x => x | _ => [] end)) in H.
        now symmetry.
    + right. split_all; try assumption.
      * apply (f_equal (fun e => match e with WriteText p _ => p | _ => [] end)) in H.
        now symmetry.
      * apply (f_equal (fun e => match e with WriteText _ x => x | _ => [] end)) in H.
        now symmetry.
  - cbn [io_bind fst snd app] in H.
    apply in_inv in H as [H | H]; [discriminate H|].
    apply in_app_or in H as [H | H]; [now apply Ht in H|].
    destruct H as [H | []].
    left. split.
    + apply (f_equal (fun e => match e with WriteText p _ => p | _ => [] end)) in H.
      now symmetry.
    + apply (f_equal (fun e => match e with WriteText _ x => x | _ => [] end)) in H.
      now symmetry.
Qed.

End Run.

(** * A build without products *)

Section EmptyBuild.

Context {RT : PyRuntime}.

(** C8, amended.  With the partner tag set and both files writable, take a
    configuration whose products list is empty or absent and whose intro
    block can be built.  The page of the build is the whole template with
    nothing in the place of the cards, so that its grid is empty, and it can
    be encoded exactly when the title, the description and the intro block
    can.  When it can, the build reads the configuration and writes two
    files: [index.html], that page, and [products.json], the document with
    an empty [products] list, the build timestamp and the resolved title.
    When it cannot, the writing of [index.html] raises [UnicodeEncodeError]
    and [products.json] is not written. *)
Theorem empty_products_page (w : world) (d : list (str * json)) (intro : str) :
  partner_tag_of w <> [] ->
  read_json w CONFIG_FILE = Ok (JDict d) ->
  (lookup (py "products") d = None \/
   lookup (py "products") d = Some (JList [])) ->
  build_intro (config_entry d (py "intro_paragraphs") (JList []))
              (config_entry d (py "meta_note") (JStr (py ""))) = Ok intro ->
  write_ok w (py "index.html") = true ->
  write_ok w (py "products.json") = true ->
  let html := page (esc (resolved_title d)) (esc (resolved_description d))
                   (esc (resolved_title d)) intro (strftime (now_utc w)) [] in
  encodable html
  = encodable (resolved_title d) && encodable (resolved_description d)
    && encodable intro /\
  (encodable html = true ->
   main w
   = ([ReadText CONFIG_FILE;
       WriteText (py "index.html") html;
       WriteText (py "products.json")
         (empty_products_json (strftime (now_utc w)) (resolved_title d))],
      Ok tt)) /\
  (encodable html = false ->
   main w
   = ([ReadText CONFIG_FILE; WriteText (py "index.html") html],
      Raise UnicodeEncodeError)) /\
  (forall title desc h1 updated,
     exists head,
       page title desc h1 intro updated []
       = py "<!doctype html>" ++ head ++ updated ++ empty_grid_tail).
Proof.
  intros Htag Hread Hproducts Hintro Hw1 Hw2 html.
  assert (Hitems : py_iter (config_entry d (py "products") (JList [])) = Ok []).
  { unfold config_entry. destruct Hproducts as [-> | ->]; reflexivity. }
  assert (Hrun := main_run w d [] [] [] [] intro Htag Hread Hitems eq_refl eq_refl
                    Hintro).
  change (index_html w d intro []) with html in Hrun.
  unfold products_json, products_document in Hrun.
  rewrite dumps_empty_products, !write_text_cases, Hw1, Hw2 in Hrun.
  replace (encodable (empty_products_json (strftime (now_utc w)) (resolved_title d)))
    with true in Hrun
    by (rewrite <- dumps_empty_products; symmetry;
        apply (encodable_products_document [])).
  split_all.
  - subst html. rewrite encodable_page, !encodable_esc, encodable_strftime.
    change (encodable []) with true.
    destruct (encodable (resolved_title d)), (encodable (resolved_description d)),
      (encodable intro); reflexivity.
  - intros He. rewrite He in Hrun. exact Hrun.
  - intros He. rewrite He in Hrun. exact Hrun.
  - intros title desc h1 updated. unfold page.
    change (HTML_text 10 ++ [] ++ HTML_text 12) with (HTML_text 10 ++ HTML_text 12).
    replace (HTML_text 10 ++ HTML_text 12) with empty_grid_tail
      by (vm_compute; reflexivity).
    replace (HTML_text 0) with (py "<!doctype html>" ++ skipn 15 (HTML_text 0))
      by (vm_compute; reflexivity).
    exists (skipn 15 (HTML_text 0) ++ title ++ HTML_text 2 ++ desc
            ++ HTML_text 4 ++ h1 ++ HTML_text 6 ++ intro ++ HTML_text 8).
    rewrite <- !app_assoc. reflexivity.
Qed.

End EmptyBuild.

Lemma empty_products_page_witness :
  exists html,
    encodable html = true /\
    main (RT := cpython_3_11) empty_world
    = ([ReadText (py "site_config.json");
        WriteText (py "index.html") html;
        WriteText (py "products.json") (pyq "{
  `products`: [],
  `updated`: `2026-11-04 07:05 UTC`,
  `title`: `Caf\u00e9 picks`
}")],
       Ok tt).
Proof.
  assert (Ht : partner_tag_of empty_world <> []) by (vm_compute; discriminate).
  assert (Hp : lookup (py "products") [(py "title", JStr (py " Café picks "))] = None
               \/ lookup (py "products") [(py "title", JStr (py " Café picks "))]
                  = Some (JList []))
    by (left; reflexivity).
  destruct (empty_products_page (RT := cpython_3_11) empty_world
              [(py "title", JStr (py " Café picks "))] [] Ht eq_refl Hp eq_refl
              eq_refl eq_refl)
    as [_ [E _]].
  match type of E with
  | encodable ?h = true -> _ =>
      assert (He : encodable h = true) by (vm_compute; reflexivity);
      exists h; split; [exact He|]; rewrite (E He)
  end.
  vm_compute. reflexivity.
Defined.

(** C8 as it is worded fails on a configuration without products whose
    title is a lone surrogate, which [json.loads] reads from [\ud83d]: the
    page cannot be encoded, the build ends with [UnicodeEncodeError] on
    [index.html] and writes no JSON document, although every file can be
    written. *)
Lemma empty_products_lone_surrogate :
  read_json surrogate_world CONFIG_FILE = Ok (JDict [(py "title", JStr [55357])]) /\
  write_ok surrogate_world (py "index.html") = true /\
  write_ok surrogate_world (py "products.json") = true /\
  (exists html,
     main (RT := cpython_3_11) surrogate_world
     = ([ReadText CONFIG_FILE; WriteText (py "index.html") html],
        Raise UnicodeEncodeError)) /\
  forall js,
    ~ In (WriteText (py "products.json") js)
         (fst (main (RT := cpython_3_11) surrogate_world)).
Proof.
  split_all; try reflexivity.
  - eexists. vm_compute. reflexivity.
  - intros js.
    replace (fst (main (RT := cpython_3_11) surrogate_world))
      with [ReadText CONFIG_FILE;
            WriteText (py "index.html")
              (match nth 1 (fst (main (RT := cpython_3_11) surrogate_world))
                           (ReadText []) with
               | WriteText _ text => text
               | _ => []
               end)]
      by (vm_compute; reflexivity).
    intros [H | [H | []]]; [discriminate H|].
    apply (f_equal (fun e => match e with WriteText p _ => p | _ => [] end)) in H.
    cbv beta iota in H. vm_compute in H. discriminate H.
Qed.

(** * Escaping in the page *)

Lemma markup_of_join (sep : str) (l : list str) :
  markup_of sep = [] ->
  markup_of (join sep l) = List.concat (map markup_of l).
Proof.
  intros Hsep. induction l as [|s l IH]; [reflexivity|].
  destruct l as [|s' l].
  - cbn [join map List.concat]. now rewrite app_nil_r.
  - change (join sep (s :: s' :: l)) with (s ++ sep ++ join sep (s' :: l)).
    rewrite !markup_of_app, Hsep, IH. reflexivity.
Qed.

Lemma markup_of_strftime (d : datetime) : markup_of (strftime d) = [].
Proof.
  assert (K : forall n, is_markup (digit n) = false).
  { intros n. unfold is_markup, digit.
    generalize (N.mod_lt n 10). intros H.
    rewrite !orb_false_iff, !N.eqb_neq. lia. }
  unfold strftime, markup_of.
  rewrite !filter_app. cbn [filter]. rewrite !K.
  vm_compute. reflexivity.
Qed.

Section EscapedPage.

Context {RT : PyRuntime}.

Lemma intro_parts_markup (l : list json) :
  List.concat (map markup_of (intro_parts l))
  = List.concat (repeat (markup_of (py "<p></p>"))
                        (List.length (filter (fun v => negb (is_blank v)) l))).
Proof.
  unfold intro_parts. induction l as [|v l IH]; [reflexivity|].
  cbn [flat_map filter]. unfold is_blank at 1.
  destruct (is_empty (strip (py_str v))); cbn [negb app]; [exact IH|].
  cbn [map List.concat List.length repeat]. rewrite IH. f_equal.
  rewrite !markup_of_app, esc_no_markup. vm_compute. reflexivity.
Qed.

(** The markup characters of the intro block are those of its tags. *)
Lemma build_intro_markup (a b : json) (l : list json) (intro : str) :
  py_iter a = Ok l -> build_intro a b = Ok intro ->
  markup_of intro
  = intro_markup (List.length (filter (fun v => negb (is_blank v)) l))
                 (truthy b && negb (is_blank b)).
Proof.
  intros Hl H. unfold build_intro in H. rewrite Hl in H. cbn [bind] in H.
  apply (f_equal (fun r => match r with Ok x => x | Raise _ => [] end)) in H.
  cbv beta iota in H. subst intro.
  rewrite markup_of_join by reflexivity.
  unfold intro_markup, is_blank.
  destruct (truthy b && negb (is_empty (strip (py_str b)))).
  - rewrite map_app, concat_app, intro_parts_markup. f_equal.
    cbn [map List.concat]. rewrite app_nil_r, !markup_of_app, esc_no_markup.
    vm_compute. reflexivity.
  - rewrite intro_parts_markup, app_nil_r. reflexivity.
Qed.

Lemma cards_of_Forall2 (w : world) (cache : bool) (partner_tag : str)
      (products : list product) :
  forall t cards,
    cards_of w cache products partner_tag = (t, Ok cards) ->
    Forall2 (fun p c => snd (card w cache p partner_tag) = Ok c) products cards.
Proof.
  induction products as [|p ps IH]; intros t cards H.
  - cbn [cards_of io_ret] in H.
    apply (f_equal (fun x => match snd x with Ok c => c | Raise _ => [] end)) in H.
    cbv beta iota in H. cbn [snd] in H. subst cards. constructor.
  - cbn [cards_of] in H.
    destruct (card w cache p partner_tag) as [t1 [c|e]] eqn:Ec;
      [|cbn [io_bind] in H; apply (f_equal snd) in H; discriminate H].
    rewrite io_bind_Ok in H. cbn [fst snd] in H.
    destruct (cards_of w cache ps partner_tag) as [t2 [cs|e]] eqn:Ecs;
      [|cbn [io_bind fst snd] in H; apply (f_equal snd) in H; discriminate H].
    rewrite io_bind_Ok in H. cbn [fst snd io_ret] in H.
    apply (f_equal (fun x => match snd x with Ok c => c | Raise _ => [] end)) in H.
    cbv beta iota in H. cbn [snd] in H. subst cards.
    constructor; [now rewrite Ec|]. exact (IH t2 cs eq_refl).
Qed.

(** The markup characters of the page are those of the template, of the
    intro block and of the cards: the title, the description and the
    timestamp bring none. *)
Lemma page_markup (title desc intro cards : str) (d : datetime) :
  markup_of (page (esc title) (esc desc) (esc title) intro (strftime d) cards)
  = markup_of (page [] [] [] intro [] cards).
Proof.
  unfold page.
  generalize (HTML_text 0) (HTML_text 2) (HTML_text 4) (HTML_text 6)
             (HTML_text 8) (HTML_text 10) (HTML_text 12).
  intros h0 h2 h4 h6 h8 h10 h12.
  rewrite !markup_of_app, (esc_no_markup title), (esc_no_markup desc),
    (markup_of_strftime d).
  reflexivity.
Qed.

End EscapedPage.

(** C3. Escaping replaces each of the five characters [&], [<], [>], the
    double quote and the single quote by its entity and leaves the others: an
    escaped text holds no markup character, and each of its ampersands begins
    an entity; the probe of the specification becomes
    [&lt;script&gt;&amp;&quot;&#39;].  Every text that comes from the
    product, the configuration or the partner tag is escaped before it is
    embedded.  In a card every ampersand begins an entity, and its markup
    characters are the same whatever the texts of the product, the image and
    the partner tag are.  In the intro block every ampersand begins an
    entity, and its markup characters are those of its tags: two pairs of
    angle brackets for each paragraph that is shown and for the meta note,
    and the two quotes of the class of the note, whatever the paragraphs and
    the note hold.  The page that [main] writes is the template filled with
    the escaped title, the escaped description, that intro block, the
    timestamp and those cards: every ampersand of it begins an entity, and
    its markup characters are those of the template, of the intro block and
    of the cards.  None of them holds the probe. *)
Theorem user_text_is_escaped {RT : PyRuntime} :
  (forall s, esc s = flat_map esc_char s) /\
  (forall s, markup_of (esc s) = [] /\ amp_ok (esc s) = true) /\
  esc script_probe = py "&lt;script&gt;&amp;&quot;&#39;" /\
  (forall w cache p partner_tag text,
     snd (card w cache p partner_tag) = Ok text ->
     amp_ok text = true /\ is_substring script_probe text = false) /\
  (forall w w' cache cache' p p' partner_tag partner_tag' text text',
     snd (card w cache p partner_tag) = Ok text ->
     snd (card w' cache' p' partner_tag') = Ok text' ->
     Nat.min 2 (List.length (best_for p)) = Nat.min 2 (List.length (best_for p')) ->
     markup_of text = markup_of text') /\
  (forall intro_paragraphs meta_note paragraphs intro,
     py_iter intro_paragraphs = Ok paragraphs ->
     build_intro intro_paragraphs meta_note = Ok intro ->
     amp_ok intro = true /\ is_substring script_probe intro = false /\
     markup_of intro
     = intro_markup (List.length (filter (fun v => negb (is_blank v)) paragraphs))
                    (truthy meta_note && negb (is_blank meta_note))) /\
  (forall w html,
     In (WriteText (py "index.html") html) (fst (main w)) ->
     exists d items products cards intro,
       read_json w CONFIG_FILE = Ok (JDict d) /\
       py_iter (config_entry d (py "products") (JList [])) = Ok items /\
       normalize_products items = Ok products /\
       Forall2 (fun p c => snd (card w (CACHE_IMAGES (environ w)) p (partner_tag_of w))
                           = Ok c) products cards /\
       build_intro (config_entry d (py "intro_paragraphs") (JList []))
                   (config_entry d (py "meta_note") (JStr (py ""))) = Ok intro /\
       html = page (esc (resolved_title d)) (esc (resolved_description d))
                   (esc (resolved_title d)) intro (strftime (now_utc w))
                   (join [10] cards) /\
       amp_ok html = true /\ is_substring script_probe html = false /\
       markup_of html = markup_of (page [] [] [] intro [] (join [10] cards))).
Proof.
  split_all.
  - apply esc_flat_map.
  - intros s. split; [apply esc_no_markup | apply esc_amp_ok].
  - vm_compute. reflexivity.
  - intros w cache p partner_tag text H.
    apply card_amp_ok in H. split; [exact H | now apply amp_ok_no_probe].
  - intros. eapply card_markup; eauto.
  - intros a b l intro Hl H.
    pose proof (build_intro_amp_ok a b intro H) as Ha.
    split_all; [exact Ha | now apply amp_ok_no_probe
               | now apply (build_intro_markup a b l)].
  - intros w html H.
    destruct (main_writes w _ _ H)
      as [d [items [products [t [cards [intro [Hrun Hfile]]]]]]].
    destruct Hrun as [Htag [Hread [Hitems [Hnorm [Hcards Hintro]]]]].
    destruct Hfile as [[_ ->] | [Hpath _]];
      [|exfalso; vm_compute in Hpath; discriminate Hpath].
    exists d, items, products, cards, intro.
    assert (Hp : amp_ok (index_html w d intro cards) = true).
    { unfold index_html.
      apply page_amp_ok; [now apply build_intro_amp_ok in Hintro|].
      apply amp_ok_join; [reflexivity|].
      apply (proj2 (cards_of_spec w (CACHE_IMAGES (environ w)) (partner_tag_of w)
                      products)).
      now rewrite Hcards. }
    split_all; try assumption.
    + now apply cards_of_Forall2 in Hcards.
    + reflexivity.
    + now apply amp_ok_no_probe.
    + unfold index_html. exact (page_markup _ _ _ _ _).
Qed.

Lemma user_text_is_escaped_witness :
  In (WriteText (py "index.html") probe_page)
     (fst (main (RT := cpython_3_11) probe_world)) /\
  amp_ok probe_page = true /\
  is_substring script_probe probe_page = false /\
  (exists intro cards,
     markup_of probe_page = markup_of (page [] [] [] intro [] (join [10] cards))) /\
  markup_of (py "<p>1 &lt; 2</p>") = markup_of (py "<p></p>") /\
  is_substring (pyq "<p class=`name`>&lt;script&gt;&amp;&quot;&#39;</p>") probe_page = true /\
  is_substring (py "<h1>Tom &amp; Jerry&#39;s &lt;picks&gt;</h1>") probe_page = true /\
  is_substring (py "<p>1 &lt; 2</p>") probe_page = true.
Proof.
  assert (Hin : In (WriteText (py "index.html") probe_page)
                   (fst (main (RT := cpython_3_11) probe_world))).
  { vm_compute. right. left. reflexivity. }
  assert (Hb : build_intro (RT := cpython_3_11) (JList [JStr (py "1 < 2")])
                           (JStr (py ""))
               = Ok (py "<p>1 &lt; 2</p>")) by (vm_compute; reflexivity).
  destruct (user_text_is_escaped (RT := cpython_3_11)) as [_ [_ [_ [_ [_ [Hi H]]]]]].
  destruct (H probe_world probe_page Hin)
    as [d [items [products [cards [intro [_ [_ [_ [_ [_ [_ [Ha [Hs Hm]]]]]]]]]]]]].
  destruct (Hi (JList [JStr (py "1 < 2")]) (JStr (py "")) [JStr (py "1 < 2")]
               (py "<p>1 &lt; 2</p>") eq_refl Hb) as [_ [_ Hk]].
  split_all;
    [ exact Hin | exact Ha | exact Hs
    | exists intro, cards; exact Hm
    | rewrite Hk; vm_compute; reflexivity
    | vm_compute; reflexivity .. ].
Defined.

(** * The JSON document *)

(** X26. Whenever [main] writes [products.json], the configuration file
    held an object, and the document written is the object of three
    entries, in this order: the products that [normalize_products] returned
    for the products of that configuration, the timestamp of the build and
    the title resolved from that configuration, written with an indentation
    of two.  It is plain ASCII: every character is a printable ASCII
    character or a line end, whatever the texts of the configuration
    hold. *)
Theorem products_json_ascii {RT : PyRuntime} (w : world) (js : str) :
  In (WriteText (py "products.json") js) (fst (main w)) ->
  (exists d items products,
     read_json w CONFIG_FILE = Ok (JDict d) /\
     py_iter (config_entry d (py "products") (JList [])) = Ok items /\
     normalize_products items = Ok products /\
     js = dumps (products_document products (strftime (now_utc w))
                                   (resolved_title d))) /\
  forallb is_json_text_char js = true.
Proof.
  intros H.
  destruct (main_writes w _ _ H)
    as [d [items [products [t [cards [intro [Hrun Hfile]]]]]]].
  destruct Hrun as [_ [Hread [Hitems [Hnorm _]]]].
  destruct Hfile as [[Hpath _] | [_ [-> _]]];
    [exfalso; vm_compute in Hpath; discriminate Hpath|].
  split.
  - exists d, items, products. split_all; try assumption. reflexivity.
  - apply dumps_at_ascii, products_document_textual.
Qed.

Lemma products_json_ascii_witness :
  exists js,
    In (WriteText (py "products.json") js)
       (fst (main (RT := cpython_3_11) probe_world)) /\
    is_substring (pyq "`asin`: `B001`") js = true /\
    is_substring (pyq "`name`: `<script>&\`'`") js = true /\
    is_substring (pyq "`title`: `Tom & Jerry's <picks>`") js = true /\
    forallb is_json_text_char js = true.
Proof.
  pose (js := match nth 2 (fst (main (RT := cpython_3_11) probe_world))
                        (ReadText []) with
              | WriteText _ text => text
              | _ => []
              end).
  assert (H : In (WriteText (py "products.json") js)
                 (fst (main (RT := cpython_3_11) probe_world))).
  { vm_compute. right. right. left. reflexivity. }
  exists js. split; [exact H|].
  split_all; [vm_compute; reflexivity ..|].
  exact (proj2 (products_json_ascii (RT := cpython_3_11) probe_world js H)).
Defined.

(** * The file of a cached image *)

Lemma join_split_char (c : N) (s : str) : join [c] (split_char c s) = s.
Proof.
  induction s as [|x s IH]; [reflexivity|].
  rewrite UnquoteFacts.split_char_cons.
  destruct (UnquoteFacts.split_char_nonempty c s) as [p [ps E]].
  rewrite E in *.
  destruct (N.eqb_spec x c) as [-> | _].
  - change (join [c] ([] :: p :: ps)) with (c :: join [c] (p :: ps)).
    now rewrite IH.
  - destruct ps as [|q ps].
    + cbn [join] in *. now rewrite IH.
    + change (join [c] ((x :: p) :: q :: ps))
        with (x :: (p ++ [c] ++ join [c] (q :: ps))).
      change (join [c] (p :: q :: ps)) with (p ++ [c] ++ join [c] (q :: ps)) in IH.
      now rewrite IH.
Qed.

(** [pathlib] keeps a plain name as it is written. *)
Lemma path_of_plain (s : str) :
  plain_name s = true ->
  path_of s = {| root := []; parts := split_char 47 s |}.
Proof.
  unfold plain_name, path_of. intros H.
  rewrite (UrlFacts.filter_all _ _ H).
  destruct s as [|x r]; [discriminate H|].
  rewrite !starts_with_cons.
  destruct (N.eqb_spec 47 x) as [<- | Hx]; [|reflexivity].
  exfalso. rewrite UnquoteFacts.split_char_cons in H.
  destruct (UnquoteFacts.split_char_nonempty 47 r) as [p [ps E]].
  rewrite E, N.eqb_refl in H. discriminate H.
Qed.

Lemma img_path_plain (name : str) :
  plain_name name = true ->
  path_str (path_div IMG_DIR name) = py "assets/img/" ++ name.
Proof.
  intros H. unfold path_div. rewrite (path_of_plain name H).
  cbn [root parts is_empty]. rewrite IMG_DIR_parts. cbn [root parts].
  unfold path_str. cbn [root parts is_empty app andb].
  destruct (UnquoteFacts.split_char_nonempty 47 name) as [p [ps E]].
  pose proof (join_split_char 47 name) as J. rewrite E in *.
  change (join [47] (py "assets" :: py "img" :: p :: ps))
    with (py "assets" ++ [47] ++ py "img" ++ [47] ++ join [47] (p :: ps)).
  rewrite J, img_dir_prefix, <- !app_assoc. reflexivity.
Qed.

Section CachedName.

Context {RT : PyRuntime}.

(** The name of an identifier without slash, with its extension, is
    plain. *)
Lemma plain_name_ext (asin ext : str) :
  has_char 47 asin = false -> In ext extensions ->
  plain_name (asin ++ ext) = true.
Proof.
  intros Hs Hin.
  assert (He : has_char 47 ext = false /\ (2 <= List.length ext)%nat).
  { unfold extensions in Hin. simpl in Hin.
    repeat (destruct Hin as [<- | Hin]; [split; vm_compute; [reflexivity | lia]|]).
    destruct Hin. }
  destruct He as [He Hl].
  unfold plain_name.
  rewrite split_char_absent by now rewrite has_char_app, Hs, He.
  cbn [forallb]. rewrite andb_true_r.
  apply andb_true_iff. split; apply negb_true_iff.
  - destruct (asin ++ ext) eqn:E; [|reflexivity].
    apply (f_equal (@List.length N)) in E. rewrite length_app in E.
    simpl in E. lia.
  - apply str_eqb_neq. intros E.
    apply (f_equal (@List.length N)) in E. rewrite length_app in E.
    simpl in E. lia.
Qed.

(** What [cache_image] does on a fetch that succeeds. *)
Lemma cache_image_success (w : world) (asin url : str) (content : bytes)
      (content_type : option str) :
  url <> [] -> content <> [] ->
  mkdir_ok w (py "assets/img") = true ->
  http_get w url = Response 200 content content_type ->
  cache_image w asin url
  = ([Mkdir (py "assets/img"); HttpGet url;
      WriteBytes (cached_path asin url content_type) content],
     if write_ok w (cached_path asin url content_type)
     then Ok (replace (py "\") (py "/") (cached_path asin url content_type))
     else Ok url).
Proof.
  intros Hu Hc Hm Hg.
  unfold cache_image.
  apply is_empty_false in Hu, Hc. rewrite Hu.
  rewrite IMG_DIR_str, Hm, Hg, Hc.
  cbn [negb Z.eqb Pos.eqb orb]. cbv zeta.
  fold (cached_path asin url content_type).
  unfold io_emit. repeat (rewrite io_bind_Ok; cbn [fst snd]).
  destruct (write_ok w (cached_path asin url content_type)); reflexivity.
Qed.

(** C6, amended.  The extension of a downloaded image comes first from the
    declared content type: of its text before the first semicolon, trimmed
    and in lower case, when that is one of [image/png], [image/jpeg],
    [image/jpg], [image/webp], [image/avif], [image/gif].  Failing that it
    comes from the URL, the whole of it in lower case and not its path
    alone: from the leftmost place where a dot, one of [png], [jpeg], [jpg],
    [webp], [avif], [gif] and then a question mark or the end of the string
    follow each other, [jpeg] giving [.jpg].  Failing that it is [.img].
    On a fetch that succeeds the body is written to the images directory
    joined, as [pathlib] joins paths, with the identifier followed by the
    extension, and that path is returned, its backslashes turned into
    slashes.  That path is [assets/img/] followed by the identifier and the
    extension whenever that name is plain (no component between slashes is
    empty or a single dot), which every identifier without a slash gives. *)
Theorem safe_ext_order (w : world) (asin url : str) (content_type : option str) :
  (ext_of_content_type content_type =
   match content_type with
   | Some (c :: r) =>
       lookup (lower (strip (hd [] (split_char 59 (c :: r))))) known_content_types
   | _ => None
   end) /\
  (forall ext, ext_of_content_type content_type = Some ext ->
               _safe_ext url content_type = ext) /\
  (ext_of_content_type content_type = None ->
   (forall g, re_search_ext (lower url) = Some g ->
      _safe_ext url content_type
      = py "." ++ (if str_eqb g (py "jpeg") then py "jpg" else g)) /\
   (re_search_ext (lower url) = None -> _safe_ext url content_type = py ".img")) /\
  (forall s g,
     re_search_ext s = Some g ->
     exists pre tail,
       s = pre ++ [46] ++ g ++ tail /\ In g url_extensions /\
       ends_extension tail /\
       forall pre' g' tail',
         s = pre' ++ [46] ++ g' ++ tail' -> In g' url_extensions ->
         ends_extension tail' -> (List.length pre <= List.length pre')%nat) /\
  (forall s,
     re_search_ext s = None ->
     forall pre g tail,
       s = pre ++ [46] ++ g ++ tail -> In g url_extensions ->
       ~ ends_extension tail) /\
  (forall content,
     url <> [] -> content <> [] ->
     mkdir_ok w (py "assets/img") = true ->
     http_get w url = Response 200 content content_type ->
     write_ok w (cached_path asin url content_type) = true ->
     cache_image w asin url
     = ([Mkdir (py "assets/img"); HttpGet url;
         WriteBytes (cached_path asin url content_type) content],
        Ok (replace (py "\") (py "/") (cached_path asin url content_type)))) /\
  (plain_name (asin ++ _safe_ext url content_type) = true ->
   cached_path asin url content_type
   = py "assets/img/" ++ asin ++ _safe_ext url content_type) /\
  (has_char 47 asin = false ->
   plain_name (asin ++ _safe_ext url content_type) = true).
Proof.
  split_all.
  - apply ext_of_content_type_table.
  - intros ext H. unfold _safe_ext. now rewrite H.
  - intros H. split.
    + intros g Hg. unfold _safe_ext. rewrite H, Hg.
      apply re_search_ext_Some in Hg as [pre [tail [_ [Hin _]]]].
      now apply safe_ext_url_part.
    + intros Hn. unfold _safe_ext. now rewrite H, Hn.
  - apply re_search_ext_Some.
  - apply re_search_ext_None.
  - intros content Hu Hc Hm Hg Hw.
    rewrite (cache_image_success w asin url content content_type Hu Hc Hm Hg).
    now rewrite Hw.
  - intros Hp. unfold cached_path. rewrite (img_path_plain _ Hp).
    reflexivity.
  - intros Hs. apply plain_name_ext; [exact Hs | apply safe_ext_in_extensions].
Qed.

End CachedName.

Lemma safe_ext_order_witness :
  _safe_ext (RT := cpython_3_11) (py "https://img.example.com/B002.JPEG?v=2")
            (Some (py "text/html; charset=utf-8"))
  = py ".jpg" /\
  _safe_ext (RT := cpython_3_11) (py "https://img.example.com/B002.JPEG?v=2")
            (Some (py " Image/WebP ; q=1"))
  = py ".webp" /\
  cache_image (RT := cpython_3_11) (png_world true)
    (py "toys/B002") (py "https://img.example.com/b002")
  = ([Mkdir (py "assets/img"); HttpGet (py "https://img.example.com/b002");
      WriteBytes (py "assets/img/toys/B002.png") [137; 80; 78; 71]],
     Ok (py "assets/img/toys/B002.png")).
Proof.
  split; [|split].
  - destruct (safe_ext_order (RT := cpython_3_11) sample_world (py "B002")
                (py "https://img.example.com/B002.JPEG?v=2")
                (Some (py "text/html; charset=utf-8"))) as [_ [_ [H _]]].
    destruct (H eq_refl) as [Hsome _].
    rewrite (Hsome (py "jpeg") eq_refl). vm_compute. reflexivity.
  - destruct (safe_ext_order (RT := cpython_3_11) sample_world (py "B002")
                (py "https://img.example.com/B002.JPEG?v=2")
                (Some (py " Image/WebP ; q=1"))) as [_ [H _]].
    apply H. vm_compute. reflexivity.
  - destruct (safe_ext_order (RT := cpython_3_11) (png_world true) (py "toys/B002")
                (py "https://img.example.com/b002") (Some (py "image/png")))
      as [_ [_ [_ [_ [_ [H [Hp _]]]]]]].
    rewrite (H [137; 80; 78; 71]).
    + rewrite Hp by (vm_compute; reflexivity). vm_compute. reflexivity.
    + vm_compute. discriminate.
    + discriminate.
    + vm_compute. reflexivity.
    + reflexivity.
    + rewrite Hp by (vm_compute; reflexivity). vm_compute. reflexivity.
Defined.

(** C6 as it is worded fails.  For the first URL the path holds no
    extension, not even a dot, so that the extension should be the generic
    one, and for the second one the path ends with [.png]; [_safe_ext],
    which reads the whole URL, answers [.png] for the first and [.img] for
    the second.  And the file is not always the identifier with its
    extension under the images directory: for an identifier that begins with
    a slash it lies outside that directory, and an empty component of the
    identifier is dropped from the name. *)
Lemma safe_ext_not_by_path :
  Urllib.urlparse (RT := cpython_3_11) (py "https://cdn.example.com/image?name=photo.png")
  = Ok {| Urllib.scheme := py "https"; Urllib.netloc := py "cdn.example.com";
          Urllib.path := py "/image"; Urllib.params := py "";
          Urllib.query := py "name=photo.png"; Urllib.fragment := py "" |} /\
  has_char 46 (py "/image") = false /\
  safe_ext_by_path (RT := cpython_3_11)
    (py "https://cdn.example.com/image?name=photo.png") None = py ".img" /\
  _safe_ext (RT := cpython_3_11)
    (py "https://cdn.example.com/image?name=photo.png") None = py ".png" /\
  safe_ext_by_path (RT := cpython_3_11)
    (py "https://cdn.example.com/photo.png#v2") None = py ".png" /\
  _safe_ext (RT := cpython_3_11)
    (py "https://cdn.example.com/photo.png#v2") None = py ".img" /\
  cache_image (RT := cpython_3_11) (png_world true)
    (py "/tmp/B002") (py "https://img.example.com/b002")
  = ([Mkdir (py "assets/img"); HttpGet (py "https://img.example.com/b002");
      WriteBytes (py "/tmp/B002.png") [137; 80; 78; 71]],
     Ok (py "/tmp/B002.png")) /\
  cache_image (RT := cpython_3_11) (png_world true)
    (py "toys//B002") (py "https://img.example.com/b002")
  = ([Mkdir (py "assets/img"); HttpGet (py "https://img.example.com/b002");
      WriteBytes (py "assets/img/toys/B002.png") [137; 80; 78; 71]],
     Ok (py "assets/img/toys/B002.png")).
Proof. split_all; vm_compute; reflexivity. Qed.

(** * Tagging a link twice *)



